(** * RoadSMTP: the SMTP session and the MIME builder of [roadsmtp/smtp.py]

    The development follows the Python module top-down:
    - text helpers of the Python runtime the module calls ([rstrip], [split],
      [join], truthiness of [str]);
    - Base64 as [base64.b64encode] / [base64.encodebytes] produce it, and an
      RFC 2045 decoder;
    - the data classes [SMTPConfig], [Attachment], [Email];
    - the [email.message.Message] objects that [_build_message] assembles;
    - the transport (a socket and its buffered reader) as explicit state, and
      the methods of [SMTPClient] in a state-and-exception monad;
    - [Attachment.from_file], the methods of [Email] and [EmailBuilder] over
      a heap of [Email] objects;
    - the properties of the builder and of the session. *)

From Stdlib Require Import List String Ascii ZArith NArith QArith Lia Bool Arith.
From Stdlib Require Import Strings.Byte.
Import ListNotations.

Local Close Scope Q_scope.

Local Open Scope string_scope.
Local Open Scope list_scope.

Set Implicit Arguments.

(* ================================================================= *)
(** ** Text helpers *)

Module PyStr.

Definition LF : ascii := "010"%char.
Definition CR : ascii := "013"%char.
Definition CRLF : string := String CR (String LF EmptyString).
Definition NL : string := String LF EmptyString.

(** Truthiness of a [str]: the empty string is false. *)
Definition truthy (s : string) : bool :=
  match s with
  | EmptyString => false
  | String _ _ => true
  end.

(** [a or b] on strings. *)
Definition or_else (a b : string) : string :=
  if truthy a then a else b.

Definition is_crlf (c : ascii) : bool :=
  (Ascii.eqb c CR || Ascii.eqb c LF)%bool.

(** [s.rstrip("\r\n")]: every trailing carriage return and line feed goes. *)
Fixpoint rstrip (s : string) : string :=
  match s with
  | EmptyString => EmptyString
  | String c r =>
      match rstrip r with
      | EmptyString => if is_crlf c then EmptyString else String c EmptyString
      | r' => String c r'
      end
  end.

(** [sep.join(parts)]. *)
Definition join (sep : string) (parts : list string) : string :=
  String.concat sep parts.

(** [s.split(sep, 1)]: cut at the first [sep]; a string without [sep] comes
    back whole, as a one-element list. *)
Fixpoint split1 (sep : ascii) (s : string) : list string :=
  match s with
  | EmptyString => [EmptyString]
  | String c r =>
      if Ascii.eqb c sep then [EmptyString; r]
      else match split1 sep r with
           | [a] => [String c a]
           | a :: rest => String c a :: rest
           | [] => [String c EmptyString]
           end
  end.

(** [s.lower()] on ASCII text. *)
Definition lower_char (c : ascii) : ascii :=
  let n := nat_of_ascii c in
  if (Nat.leb 65 n && Nat.leb n 90)%bool then ascii_of_nat (n + 32) else c.

Fixpoint lower (s : string) : string :=
  match s with
  | EmptyString => EmptyString
  | String c r => String (lower_char c) (lower r)
  end.

(** [s[:n]]. *)
Definition prefix (n : nat) (s : string) : string := substring 0 n s.

(** [s.encode()] on ASCII text: one byte per character. *)
Definition encode (s : string) : list byte := list_byte_of_string s.

End PyStr.

(* ================================================================= *)
(** ** Base64 *)

Module Base64.

Definition alphabet : string :=
  "ABCDEFGHIJKLMNOPQRSTUVWXYZabcdefghijklmnopqrstuvwxyz0123456789+/".

Definition PAD : ascii := "="%char.

(** The character of a six-bit value. *)
Definition b2a (v : N) : ascii :=
  match String.get (N.to_nat v) alphabet with
  | Some c => c
  | None => PAD
  end.

Fixpoint index_from (i : N) (c : ascii) (s : string) : option N :=
  match s with
  | EmptyString => None
  | String d r => if Ascii.eqb c d then Some i else index_from (N.succ i) c r
  end.

(** The six-bit value of a character of the alphabet. *)
Definition a2b (c : ascii) : option N := index_from 0%N c alphabet.

(** Groups of three bytes become four characters; a last group of one or
    two bytes is padded with [=]. This is [base64.b64encode], which is
    [binascii.b2a_base64] without the final newline. *)
Fixpoint b64encode (bs : list byte) : string :=
  match bs with
  | [] => EmptyString
  | [x] =>
      let a := Byte.to_N x in
      String (b2a (a / 4)) (String (b2a ((a mod 4) * 16))
        (String PAD (String PAD EmptyString)))
  | [x; y] =>
      let a := Byte.to_N x in
      let b := Byte.to_N y in
      String (b2a (a / 4)) (String (b2a ((a mod 4) * 16 + b / 16))
        (String (b2a ((b mod 16) * 4)) (String PAD EmptyString)))
  | x :: y :: z :: rest =>
      let a := Byte.to_N x in
      let b := Byte.to_N y in
      let c := Byte.to_N z in
      String (b2a (a / 4)) (String (b2a ((a mod 4) * 16 + b / 16))
        (String (b2a ((b mod 16) * 4 + c / 64)) (String (b2a (c mod 64))
          (b64encode rest))))
  end.

Definition MAXBINSIZE : nat := 57.

(** The loop of [base64.encodebytes]: one line of Base64 per 57 input
    bytes, each line closed by a newline. [fuel] bounds the number of
    pieces; the input length is always enough. *)
Fixpoint pieces (fuel : nat) (s : list byte) : string :=
  match fuel with
  | O => EmptyString
  | S fuel' =>
      match s with
      | [] => EmptyString
      | _ :: _ =>
          b64encode (firstn MAXBINSIZE s) ++ PyStr.NL
            ++ pieces fuel' (skipn MAXBINSIZE s)
      end
  end.

Definition encodebytes (s : list byte) : string := pieces (List.length s) s.

(** *** Decoding, after RFC 2045: characters outside the alphabet are
    skipped, a [=] ends the data. *)

Fixpoint sextets (s : string) : list N :=
  match s with
  | EmptyString => []
  | String c r =>
      if Ascii.eqb c PAD then []
      else match a2b c with
           | Some v => v :: sextets r
           | None => sextets r
           end
  end.

Definition byte_of_N (n : N) : byte :=
  match Byte.of_N n with
  | Some b => b
  | None => x00
  end.

Fixpoint unsextets (vs : list N) : list byte :=
  match vs with
  | s1 :: s2 :: s3 :: s4 :: rest =>
      byte_of_N (s1 * 4 + s2 / 16)
        :: byte_of_N ((s2 mod 16) * 16 + s3 / 4)
        :: byte_of_N ((s3 mod 4) * 64 + s4)
        :: unsextets rest
  | [s1; s2; s3] =>
      [byte_of_N (s1 * 4 + s2 / 16); byte_of_N ((s2 mod 16) * 16 + s3 / 4)]
  | [s1; s2] => [byte_of_N (s1 * 4 + s2 / 16)]
  | _ => []
  end.

Definition b64decode (s : string) : list byte := unsextets (sextets s).

End Base64.

(* ================================================================= *)
(** ** Data classes *)

(** [SMTPConfig]. [timeout] is a number of seconds (a float in the source,
    handed to [settimeout]); a read that times out is an event of the
    transport below. *)
Record SMTPConfig := {
  host : string;
  port : Z;
  username : string;
  password : string;
  use_tls : bool;
  timeout : Q
}.

Record Attachment := {
  filename : string;
  content : list byte;
  content_type : string
}.

(** [Email]. [headers] is the dict's item sequence, in insertion order. *)
Record Email := {
  to : list string;
  subject : string;
  body : string;
  html : string;
  from_addr : string;
  cc : list string;
  bcc : list string;
  reply_to : string;
  attachments : list Attachment;
  headers : list (string * string)
}.

(** Exceptions the module raises or lets through. All of them derive from
    [Exception]. [OSError] stands for every failure of the socket layer
    (refused connection, timeout, reset, TLS handshake) and of the file
    system; [HeaderParseError] is what the serializer of the [email] package
    raises on a header value that holds a line looking like a header. *)
Inductive exn :=
| SMTPError (msg : string)
| ValueError
| TypeError
| AttributeError
| UnicodeError
| OSError
| HeaderParseError.

(** How a call ends: it returns, it raises, or it never comes back. *)
Inductive outcome (A : Type) :=
| Returned (a : A)
| Raised (e : exn)
| Diverges.
Arguments Raised {A} e.
Arguments Diverges {A}.

(* ================================================================= *)
(** ** The [email.message.Message] objects of the standard library *)

Module Mime.

(** The class of an object together with the arguments of its constructor.
    The headers a constructor sets by itself (Content-Type, MIME-Version,
    and the charset and transfer encoding [MIMEText] chooses) are a function
    of these arguments and are not listed in [_headers]. *)
Inductive klass :=
| MIMEText (_text _subtype : string)
| MIMEBase (_maintype _subtype : string)
| MIMEMultipart (_subtype : string).

Inductive Message :=
| Msg (k : klass) (_headers : list (string * string)) (_payload : Payload)
with Payload :=
| PNone
| PText (s : string)
| PBytes (b : list byte)
| PParts (parts : list Message).

Definition class_of (m : Message) : klass := let (k, _, _) := m in k.
Definition _headers (m : Message) : list (string * string) :=
  let (_, h, _) := m in h.
Definition _payload (m : Message) : Payload := let (_, _, p) := m in p.

Definition new_MIMEText (text subtype : string) : Message :=
  Msg (MIMEText text subtype) [] (PText text).

Definition new_MIMEMultipart (subtype : string) : Message :=
  Msg (MIMEMultipart subtype) [] (PParts []).

Definition new_MIMEBase (maintype subtype : string) : Message :=
  Msg (MIMEBase maintype subtype) [] PNone.

(** [MIMEBase( *args )]: two positional arguments are required. *)
Definition MIMEBase_star (args : list string) : outcome Message :=
  match args with
  | [maintype; subtype] => Returned (new_MIMEBase maintype subtype)
  | _ => Raised TypeError
  end.

(** [isinstance(msg, MIMEMultipart)]. *)
Definition is_multipart (m : Message) : bool :=
  match class_of m with
  | MIMEMultipart _ => true
  | _ => false
  end.

(** [msg[name] = val]: [Message.__setitem__] appends a header; it does not
    look for an earlier header of the same name. *)
Definition setitem (m : Message) (name val : string) : Message :=
  let (k, h, p) := m in Msg k (h ++ [(name, val)]) p.

(** [msg.add_header(name, value)] without parameters. *)
Definition add_header (m : Message) (name val : string) : Message :=
  setitem m name val.

Definition set_payload (m : Message) (p : Payload) : Message :=
  let (k, h, _) := m in Msg k h p.

(** [msg.attach(part)]. The builder calls it on the multipart object it has
    created, whose payload is a list; on a payload of text or bytes Python
    raises, and the object is left as it is. *)
Definition attach (m part : Message) : Message :=
  match m with
  | Msg k h (PParts ps) => Msg k h (PParts (ps ++ [part]))
  | Msg k h PNone => Msg k h (PParts [part])
  | _ => m
  end.

(** [email.encoders.encode_base64]: the payload becomes the text
    [encodebytes] gives and the transfer-encoding header is added. The
    builder only calls it on a payload of bytes. *)
Definition encode_base64 (m : Message) : Message :=
  match _payload m with
  | PBytes b =>
      setitem (set_payload m (PText (Base64.encodebytes b)))
              "Content-Transfer-Encoding" "base64"
  | _ => m
  end.

(** Header names are compared without regard to case. *)
Definition same_name (a b : string) : bool :=
  String.eqb (PyStr.lower a) (PyStr.lower b).

(** [msg.get_all(name)]: the values of all headers called [name], in
    document order. *)
Definition get_all (m : Message) (name : string) : list string :=
  map snd (filter (fun kv => same_name (fst kv) name) (_headers m)).

Definition parts (m : Message) : list Message :=
  match _payload m with
  | PParts ps => ps
  | _ => []
  end.

End Mime.

(** What the module takes from the Python runtime without owning it:
    [int] on a [str] ([None] when it raises [ValueError]) and the serializer
    [Message.as_string], which returns the text of the document or raises
    (a header value with an embedded header line is refused with
    [HeaderParseError]). *)
Class PyLib := {
  py_int : string -> option Z;
  as_string : Mime.Message -> outcome string
}.


(* ================================================================= *)
(** ** The transport and the session state *)

(** What one [readline()] on the buffered reader, decoded as UTF-8, does:
    it hands over a line of text (still with its line ending), or it raises
    (timeout, reset, undecodable bytes). When the script is used up the peer
    has closed the connection: [readline()] returns the empty string, again
    and again. *)
Inductive RxEvent :=
| RxLine (raw : string)
| RxRaise (e : exn).

(** A socket object: the number of [close()] calls it has received, and
    whether its descriptor has been taken away by [detach()], which is what
    [SSLContext.wrap_socket] does to the socket it wraps. Only [close()]
    calls are counted: the readers [makefile] hands out are not part of the
    model. *)
Record Sock := {
  closes : nat;
  detached : bool
}.

(** A socket that owns its descriptor and has received [n] [close()]
    calls. *)
Definition owning (n : nat) : Sock := {| closes := n; detached := false |}.

(** A socket whose descriptor a wrapper has taken over. *)
Definition gone (n : nat) : Sock := {| closes := n; detached := true |}.

(** The environment of a session.
    - [rx]: what the following [readline()] calls do, in order;
    - [tx]: what [sendall] has written so far, one entry per call;
    - [tx_budget]: [Some n] lets [n] more [sendall] calls through and makes
      the following ones raise [OSError]; [None] never fails;
    - [connect_ok], [tls_ok]: whether the TCP connect and the TLS handshake
      succeed;
    - [socks]: the socket objects created so far. A socket's handle is its
      index in this list. *)
Record World := {
  rx : list RxEvent;
  tx : list string;
  tx_budget : option nat;
  connect_ok : bool;
  tls_ok : bool;
  socks : list Sock
}.

(** The two attributes of an [SMTPClient] object next to its [config]. *)
Record Client := {
  _socket : option nat;
  _file : option nat
}.

Record St := {
  self : Client;
  world : World
}.

Definition M (A : Type) : Type := St -> outcome A * St.

Definition ret {A} (a : A) : M A := fun st => (Returned a, st).

Definition raise {A} (e : exn) : M A := fun st => (Raised e, st).

Definition bind {A B} (m : M A) (k : A -> M B) : M B :=
  fun st =>
    match m st with
    | (Returned a, st') => k a st'
    | (Raised e, st') => (Raised e, st')
    | (Diverges, st') => (Diverges, st')
    end.

(** [try: m  except Exception: pass]. *)
Definition try_pass {A} (m : M A) : M unit :=
  fun st =>
    match m st with
    | (Returned _, st') => (Returned tt, st')
    | (Raised _, st') => (Returned tt, st')
    | (Diverges, st') => (Diverges, st')
    end.

(** [with enter() as x: body]: when [enter] raises, [exit] is not called;
    otherwise [exit] runs once the body has returned or raised, and an
    exception of the body is raised again after it. *)
Definition with_ {A} (enter : M unit) (exit : M unit) (body : M A) : M A :=
  fun st =>
    match enter st with
    | (Returned _, st1) =>
        match body st1 with
        | (Returned a, st2) =>
            match exit st2 with
            | (Returned _, st3) => (Returned a, st3)
            | (Raised e, st3) => (Raised e, st3)
            | (Diverges, st3) => (Diverges, st3)
            end
        | (Raised e, st2) =>
            match exit st2 with
            | (Returned _, st3) => (Raised e, st3)
            | (Raised e', st3) => (Raised e', st3)
            | (Diverges, st3) => (Diverges, st3)
            end
        | (Diverges, st2) => (Diverges, st2)
        end
    | (Raised e, st1) => (Raised e, st1)
    | (Diverges, st1) => (Diverges, st1)
    end.

Declare Scope py_scope.
Delimit Scope py_scope with py.
Notation "x <- m ;; k" := (bind m (fun x => k))
  (at level 61, m at next level, right associativity) : py_scope.
Notation "m ;;; k" := (bind m (fun _ => k))
  (at level 61, right associativity) : py_scope.

(** *** State accessors *)

Definition with_world (st : St) (w : World) : St :=
  {| self := self st; world := w |}.

Definition with_self (st : St) (c : Client) : St :=
  {| self := c; world := world st |}.

Definition set_rx (w : World) (r : list RxEvent) : World :=
  {| rx := r; tx := tx w; tx_budget := tx_budget w;
     connect_ok := connect_ok w; tls_ok := tls_ok w; socks := socks w |}.

Definition log_tx (w : World) (data : string) (budget : option nat) : World :=
  {| rx := rx w; tx := tx w ++ [data]; tx_budget := budget;
     connect_ok := connect_ok w; tls_ok := tls_ok w; socks := socks w |}.

Definition set_socks (w : World) (s : list Sock) : World :=
  {| rx := rx w; tx := tx w; tx_budget := tx_budget w;
     connect_ok := connect_ok w; tls_ok := tls_ok w; socks := s |}.

(** One more [close()] call on the socket with handle [h]. *)
Fixpoint bump (h : nat) (l : list Sock) : list Sock :=
  match l, h with
  | [], _ => []
  | s :: r, O => {| closes := S (closes s); detached := detached s |} :: r
  | s :: r, S h' => s :: bump h' r
  end.

(** [sock.detach()] on the socket with handle [h]. *)
Fixpoint detach (h : nat) (l : list Sock) : list Sock :=
  match l, h with
  | [], _ => []
  | s :: r, O => {| closes := closes s; detached := true |} :: r
  | s :: r, S h' => s :: detach h' r
  end.

(** Whether the socket with handle [h] has lost its descriptor. *)
Definition is_detached (w : World) (h : nat) : bool :=
  detached (nth h (socks w) (owning 0)).

(** [socket.socket(...)]: a new socket, not yet closed. *)
Definition socket_new : M nat :=
  fun st =>
    let w := world st in
    (Returned (List.length (socks w)),
     with_world st (set_socks w (socks w ++ [owning 0]))).

(** [sock.connect((host, port))]. *)
Definition socket_connect : M unit :=
  fun st => if connect_ok (world st) then (Returned tt, st) else (Raised OSError, st).

(** [context.wrap_socket(sock, server_hostname=host)], as
    [ssl.SSLSocket._create] does it: a new socket object, the wrapper, is made
    on the descriptor of [sock], and [sock] is detached; then comes the TLS
    handshake. When the handshake fails the library calls [close()] on the
    wrapper, which gives up the connection, and lets the exception through,
    an [OSError]; the caller is left with the detached [sock]. The checks
    on the arguments that come before the wrapper is made (a stream socket,
    a host name that is not empty) are taken to pass. *)
Definition wrap_socket (h : nat) : M nat :=
  fun st =>
    let w := world st in
    let wrapper := List.length (socks w) in
    if tls_ok w
    then (Returned wrapper,
          with_world st (set_socks w (detach h (socks w) ++ [owning 0])))
    else (Raised OSError,
          with_world st (set_socks w (detach h (socks w) ++ [owning 1]))).

(** [sock.close()]. *)
Definition socket_close (h : nat) : M unit :=
  fun st =>
    let w := world st in
    (Returned tt, with_world st (set_socks w (bump h (socks w)))).

Definition get_socket : M (option nat) := fun st => (Returned (_socket (self st)), st).

Definition set_socket (h : nat) : M unit :=
  fun st => (Returned tt, with_self st {| _socket := Some h; _file := _file (self st) |}).

Definition set_file (h : nat) : M unit :=
  fun st => (Returned tt, with_self st {| _socket := _socket (self st); _file := Some h |}).

(** [self._socket.sendall(data)]. On [None] the attribute lookup fails; a
    socket that has been detached has no descriptor to write to. A socket
    that has received [close()] still writes: in the sessions of this module
    a reader has been made of it with [makefile], the module never closes
    that reader, and a reader keeps the descriptor of its socket open.
    Whether the transport takes the data is the matter of [tx_budget]. *)
Definition sendall (data : string) : M unit :=
  fun st =>
    match _socket (self st) with
    | None => (Raised AttributeError, st)
    | Some h =>
        let w := world st in
        if is_detached w h then (Raised OSError, st)
        else
          match tx_budget w with
          | Some O => (Raised OSError, st)
          | Some (S n) => (Returned tt, with_world st (log_tx w data (Some n)))
          | None => (Returned tt, with_world st (log_tx w data None))
          end
    end.

(* ================================================================= *)
(** ** [class SMTPClient] *)

Module SMTPClient.
Section Methods.

Context {L : PyLib}.
Variable config : SMTPConfig.

Local Open Scope py_scope.

(** The test that ends the loop of [_read_response]:
    [len(line) >= 4 and line[3] == " "]. *)
Definition is_final (line : string) : bool :=
  (Nat.leb 4 (String.length line)
   && match String.get 3 line with
      | Some c => Ascii.eqb c " "%char
      | None => false
      end)%bool.

(** The [while True] loop of [_read_response], by recursion on what the
    reader will deliver. At the end of the script [readline()] returns the
    empty string for ever; the empty line never passes [is_final], so the
    loop does not end. *)
Fixpoint read_lines (evs : list RxEvent) (lines : list string)
  : outcome (list string) * list RxEvent :=
  match evs with
  | [] => (Diverges, [])
  | RxRaise e :: rest => (Raised e, rest)
  | RxLine raw :: rest =>
      let line := PyStr.rstrip raw in
      let lines' := lines ++ [line] in
      if is_final line then (Returned lines', rest)
      else read_lines rest lines'
  end.

(** Lines 98-106. [int] raises [ValueError] on text that is not a number. *)
Definition _read_response : M (Z * string) :=
  fun st =>
    match _file (self st) with
    | None => (Raised AttributeError, st)
    | Some _ =>
        let w := world st in
        let (r, rest) := read_lines (rx w) [] in
        let st' := with_world st (set_rx w rest) in
        match r with
        | Returned lines =>
            match py_int (PyStr.prefix 3 (List.last lines EmptyString)) with
            | Some code => (Returned (code, PyStr.join PyStr.NL lines), st')
            | None => (Raised ValueError, st')
            end
        | Raised e => (Raised e, st')
        | Diverges => (Diverges, st')
        end
    end.

(** Lines 108-111; the debug log entry has no effect on the session. *)
Definition _command (cmd : string) : M (Z * string) :=
  sendall (cmd ++ PyStr.CRLF) ;;; _read_response.

(** Lines 85-89: the TLS upgrade. *)
Definition starttls (h : nat) : M unit :=
  _command "STARTTLS" ;;;
  h' <- wrap_socket h ;;
  set_socket h' ;;;
  set_file h' ;;;
  _command "EHLO localhost" ;;;
  ret tt.

(** Lines 92-94: AUTH LOGIN. *)
Definition auth_login : M unit :=
  _command "AUTH LOGIN" ;;;
  _command (Base64.b64encode (PyStr.encode (username config))) ;;;
  _command (Base64.b64encode (PyStr.encode (password config))) ;;;
  ret tt.

(** Lines 78-94: what [connect] does with the socket [h] it has just
    created and stored in [self._socket]. *)
Definition handshake (h : nat) : M unit :=
  socket_connect ;;;
  set_file h ;;;
  _read_response ;;;
  _command "EHLO localhost" ;;;
  (if use_tls config then starttls h else ret tt) ;;;
  (if (PyStr.truthy (username config) && PyStr.truthy (password config))%bool
   then auth_login else ret tt).

(** Lines 75-96. *)
Definition connect : M unit :=
  h <- socket_new ;;
  set_socket h ;;;
  handshake h.

(** *** [_build_message] *)

Definition has_attachments (email : Email) : bool :=
  match attachments email with
  | [] => false
  | _ :: _ => true
  end.

(** Lines 114-117: the class of the top-level object. *)
Definition top_level (email : Email) : Mime.Message :=
  if (has_attachments email || PyStr.truthy (html email))%bool then
    Mime.new_MIMEMultipart
      (if PyStr.truthy (html email) then "alternative" else "mixed")
  else
    Mime.new_MIMEText (body email) "plain".

(** Lines 119-125: the standard headers. *)
Definition standard_headers (email : Email) (msg : Mime.Message) : Mime.Message :=
  let msg := Mime.setitem msg "Subject" (subject email) in
  let msg := Mime.setitem msg "From"
               (PyStr.or_else (from_addr email) (username config)) in
  let msg := Mime.setitem msg "To" (PyStr.join ", " (to email)) in
  let msg := match cc email with
             | [] => msg
             | _ :: _ => Mime.setitem msg "Cc" (PyStr.join ", " (cc email))
             end in
  if PyStr.truthy (reply_to email)
  then Mime.setitem msg "Reply-To" (reply_to email)
  else msg.

(** Lines 127-128: the custom headers, in the order of [items()]. *)
Fixpoint custom_headers (items : list (string * string)) (msg : Mime.Message)
  : Mime.Message :=
  match items with
  | [] => msg
  | (key, value) :: rest => custom_headers rest (Mime.setitem msg key value)
  end.

(** Lines 131-134: the text parts. *)
Definition text_parts (email : Email) (msg : Mime.Message) : Mime.Message :=
  let msg := if PyStr.truthy (body email)
             then Mime.attach msg (Mime.new_MIMEText (body email) "plain")
             else msg in
  if PyStr.truthy (html email)
  then Mime.attach msg (Mime.new_MIMEText (html email) "html")
  else msg.

(** Lines 137-140: the part of one attachment. *)
Definition attachment_part (att : Attachment) : outcome Mime.Message :=
  match Mime.MIMEBase_star (PyStr.split1 "/"%char (content_type att)) with
  | Returned part =>
      let part := Mime.set_payload part (Mime.PBytes (content att)) in
      let part := Mime.encode_base64 part in
      Returned (Mime.add_header part "Content-Disposition"
                  ("attachment; filename=" ++ filename att))
  | Raised e => Raised e
  | Diverges => Diverges
  end.

(** Lines 136-141: the loop over the attachments. *)
Fixpoint attach_all (atts : list Attachment) (msg : Mime.Message)
  : outcome Mime.Message :=
  match atts with
  | [] => Returned msg
  | att :: rest =>
      match attachment_part att with
      | Returned part => attach_all rest (Mime.attach msg part)
      | Raised e => Raised e
      | Diverges => Diverges
      end
  end.

(** The object [msg] as it stands before [msg.as_string()]. *)
Definition message_object (email : Email) : outcome Mime.Message :=
  let msg := top_level email in
  let msg := standard_headers email msg in
  let msg := custom_headers (headers email) msg in
  if Mime.is_multipart msg
  then attach_all (attachments email) (text_parts email msg)
  else Returned msg.

(** Lines 113-143: the object is built, then line 143 serializes it. *)
Definition _build_message (email : Email) : outcome string :=
  match message_object email with
  | Returned msg => as_string msg
  | Raised e => Raised e
  | Diverges => Diverges
  end.

Definition lift {A} (o : outcome A) : M A := fun st => (o, st).

(** *** [send] *)

(** The [for recipient in recipients] loop, lines 153-156. *)
Fixpoint rcpt_loop (recipients : list string) : M unit :=
  match recipients with
  | [] => ret tt
  | recipient :: rest =>
      r <- _command ("RCPT TO:<" ++ recipient ++ ">") ;;
      let (code, msg) := r in
      if (negb (Z.eqb code 250) && negb (Z.eqb code 251))%bool
      then raise (SMTPError ("RCPT TO failed for " ++ recipient ++ ": " ++ msg))
      else rcpt_loop rest
  end.

(** Lines 149-151. *)
Definition mail_from_step (email : Email) : M unit :=
  let from_addr := PyStr.or_else (from_addr email) (username config) in
  r <- _command ("MAIL FROM:<" ++ from_addr ++ ">") ;;
  let (code, msg) := r in
  if negb (Z.eqb code 250) then raise (SMTPError ("MAIL FROM failed: " ++ msg))
  else ret tt.

(** Lines 158-168. *)
Definition data_step (email : Email) : M bool :=
  r <- _command "DATA" ;;
  let (code, msg) := r in
  if negb (Z.eqb code 354) then raise (SMTPError ("DATA failed: " ++ msg))
  else
    message <- lift (_build_message email) ;;
    sendall message ;;;
    r <- _command "." ;;
    let (code, msg) := r in
    if negb (Z.eqb code 250) then raise (SMTPError ("Send failed: " ++ msg))
    else ret true.

Definition send (email : Email) : M bool :=
  let recipients := to email ++ cc email ++ bcc email in
  mail_from_step email ;;;
  rcpt_loop recipients ;;;
  data_step email.

(** *** [close], [__enter__], [__exit__] *)

(** Lines 170-176. *)
Definition close : M unit :=
  try_pass (_command "QUIT") ;;;
  s <- get_socket ;;
  match s with
  | Some h => socket_close h
  | None => ret tt
  end.

Definition __enter__ : M unit := connect.

Definition __exit__ : M unit := close.

End Methods.
End SMTPClient.

(** A new [SMTPClient(config)] in a given environment. *)
Definition fresh (w : World) : St :=
  {| self := {| _socket := None; _file := None |}; world := w |}.

(** The module-level [send(config, mail)]:
    [with SMTPClient(config) as client: return client.send(mail)]. *)
Definition send {L : PyLib} (config : SMTPConfig) (mail : Email) (w : World)
  : outcome bool * St :=
  with_ (SMTPClient.__enter__ config) (SMTPClient.__exit__)
        (SMTPClient.send config mail) (fresh w).

(* ================================================================= *)
(** ** A runtime for the examples *)

(** [int] on the strings the examples need: one or more decimal digits.
    Python agrees on these, and raises [ValueError] on a string that holds a
    letter. *)
Fixpoint digits_value (acc : Z) (s : string) : option Z :=
  match s with
  | EmptyString => Some acc
  | String c r =>
      let n := nat_of_ascii c in
      if (Nat.leb 48 n && Nat.leb n 57)%bool
      then digits_value (10 * acc + Z.of_nat (n - 48)) r
      else None
  end.

Definition int_digits (s : string) : option Z :=
  match s with
  | EmptyString => None
  | String _ _ => digits_value 0 s
  end.

(** The header block of the top-level object. *)
Definition header_block (m : Mime.Message) : string :=
  String.concat EmptyString
    (map (fun kv => (fst kv ++ ": " ++ snd kv ++ PyStr.NL)%string)
       (Mime._headers m)).

(** The test of [email.header] for an embedded header, the pattern
    [\n[^ \t]+:]: after a line feed, one or more characters that are neither
    space nor tab, then a colon. *)
Fixpoint colon_follows (s : string) (seen : bool) : bool :=
  match s with
  | EmptyString => false
  | String c r =>
      if (Ascii.eqb c " "%char || Ascii.eqb c "009"%char)%bool then false
      else if (seen && Ascii.eqb c ":"%char)%bool then true
      else colon_follows r true
  end.

Fixpoint embedded_header (s : string) : bool :=
  match s with
  | EmptyString => false
  | String c r =>
      if Ascii.eqb c "010"%char
      then (colon_follows r false || embedded_header r)%bool
      else embedded_header r
  end.

(** A stand-in for [as_string]: it refuses a header value with an embedded
    header line, in the object or in one of its parts, as the library does,
    and gives the header block of the top-level object otherwise. *)
Definition serialize (m : Mime.Message) : outcome string :=
  if existsb (fun kv => embedded_header (snd kv))
       (Mime._headers m ++ flat_map Mime._headers (Mime.parts m))
  then Raised HeaderParseError
  else Returned (header_block m).

Definition example_lib : PyLib :=
  {| py_int := int_digits; as_string := serialize |}.

(** Whether a byte sequence splits into groups of three with nothing left. *)
Fixpoint whole3 (bs : list byte) : bool :=
  match bs with
  | [] => true
  | _ :: _ :: _ :: rest => whole3 rest
  | _ => false
  end.

(** The table check behind the decoder: the character of a six-bit value
    maps back to the value and is not the padding character. *)
Definition sextet_ok (v : N) : bool :=
  (match Base64.a2b (Base64.b2a v) with
   | Some v' => N.eqb v' v
   | None => false
   end
   && negb (Ascii.eqb (Base64.b2a v) Base64.PAD))%bool.

(* ================================================================= *)
(** ** Inputs of the examples *)

Definition cfg0 : SMTPConfig :=
  {| host := "localhost"; port := 2525; username := EmptyString;
     password := EmptyString; use_tls := false; timeout := 30%Q |}.

Definition mail_plain : Email :=
  {| to := ["a@b.com"]; subject := "Hi"; body := "hello"; html := EmptyString;
     from_addr := EmptyString; cc := []; bcc := []; reply_to := EmptyString;
     attachments := []; headers := [] |}.

Definition mail_html : Email :=
  {| to := ["a@b.com"]; subject := "Hi"; body := "hello"; html := "<p>hello</p>";
     from_addr := EmptyString; cc := []; bcc := []; reply_to := EmptyString;
     attachments := []; headers := [] |}.

Definition att0 : Attachment :=
  {| filename := "f.bin"; content := [x00; xff; x10];
     content_type := "application/octet-stream" |}.

Definition mail_html_att : Email :=
  {| to := ["a@b.com"]; subject := "Hi"; body := EmptyString; html := "<p>hello</p>";
     from_addr := EmptyString; cc := []; bcc := []; reply_to := EmptyString;
     attachments := [att0]; headers := [] |}.

Definition mail_att : Email :=
  {| to := ["a@b.com"]; subject := "Hi"; body := "hello"; html := EmptyString;
     from_addr := EmptyString; cc := []; bcc := []; reply_to := EmptyString;
     attachments := [att0]; headers := [] |}.

Definition mail_dup : Email :=
  {| to := ["a@b.com"]; subject := "Hi"; body := "hello"; html := EmptyString;
     from_addr := EmptyString; cc := []; bcc := []; reply_to := EmptyString;
     attachments := []; headers := [("Subject", "Other")] |}.

(** The values the custom headers give for [key], in [items()] order. *)
Definition custom_values (email : Email) (key : string) : list string :=
  map snd (filter (fun kv => Mime.same_name (fst kv) key) (headers email)).

(** The text parts a multipart message starts with: the plain part when the
    body is non-empty, then the HTML part when the HTML body is non-empty. *)
Definition expected_text_parts (email : Email) : list Mime.Message :=
  (if PyStr.truthy (body email)
   then [Mime.new_MIMEText (body email) "plain"] else [])
  ++ (if PyStr.truthy (html email)
      then [Mime.new_MIMEText (html email) "html"] else []).

(** The payload of a part decodes to the content of an attachment. *)
Definition decodes_to (att : Attachment) (part : Mime.Message) : Prop :=
  exists payload,
    Mime._payload part = Mime.PText payload
    /\ Base64.b64decode payload = content att.

(* ================================================================= *)
(** ** Vocabulary for scripted sessions *)

(** The socket attribute holds a socket that still has its descriptor. *)
Definition writable (st : St) : bool :=
  match _socket (self st) with
  | Some h => negb (is_detached (world st) h)
  | None => false
  end.

(** The session can talk: both attributes are set, the socket has its
    descriptor and writes go through. *)
Definition ready (st : St) : Prop :=
  writable st = true
  /\ _file (self st) <> None
  /\ tx_budget (world st) = None.

(** [st] after [sent] has been written and the reader has come to [rest]. *)
Definition advance (st : St) (sent : list string) (rest : list RxEvent) : St :=
  with_world st
    {| rx := rest; tx := tx (world st) ++ sent;
       tx_budget := tx_budget (world st);
       connect_ok := connect_ok (world st); tls_ok := tls_ok (world st);
       socks := socks (world st) |}.

(** A line that does not end a response, and one that does. *)
Definition continues (raw : string) : Prop :=
  SMTPClient.is_final (PyStr.rstrip raw) = false.

Definition terminates (raw : string) : Prop :=
  SMTPClient.is_final (PyStr.rstrip raw) = true.

(** [blk] is one well-formed response: lines that continue, then a line that
    terminates and whose first three characters [int] reads as [code];
    [text] is what [_read_response] returns with it. *)
Definition reply_block {L : PyLib} (blk : list RxEvent) (code : Z) (text : string)
  : Prop :=
  exists pre last,
    blk = map RxLine pre ++ [RxLine last]
    /\ Forall continues pre
    /\ terminates last
    /\ py_int (PyStr.prefix 3 (PyStr.rstrip last)) = Some code
    /\ text = PyStr.join PyStr.NL (map PyStr.rstrip (pre ++ [last])).

Definition reply_blocks {L : PyLib} (blks : list (list RxEvent))
           (replies : list (Z * string)) : Prop :=
  Forall2 (fun blk r => reply_block blk (fst r) (snd r)) blks replies.

(** The line [sendall] writes for a recipient. *)
Definition rcpt_cmd (recipient : string) : string :=
  ("RCPT TO:<" ++ recipient ++ ">") ++ PyStr.CRLF.

Definition mail_cmd (config : SMTPConfig) (email : Email) : string :=
  ("MAIL FROM:<" ++ PyStr.or_else (from_addr email) (username config) ++ ">")
    ++ PyStr.CRLF.

Definition accepted (code : Z) : bool := (Z.eqb code 250 || Z.eqb code 251)%bool.

(** The first recipient whose reply is neither 250 nor 251: its position,
    its address and the text of the reply. *)
Fixpoint first_rejected (recipients : list string) (replies : list (Z * string))
  : option (nat * string * string) :=
  match recipients, replies with
  | r :: recipients', (code, text) :: replies' =>
      if accepted code
      then match first_rejected recipients' replies' with
           | Some (i, r', text') => Some (S i, r', text')
           | None => None
           end
      else Some (O, r, text)
  | _, _ => None
  end.

Definition recipients_of (email : Email) : list string :=
  to email ++ cc email ++ bcc email.

(** The replies to the RCPT TO commands of a session, one for every command
    that is sent: a reply that is neither 250 nor 251 is the last one, for no
    command follows it; when no reply is rejected there is one per
    recipient. *)
Fixpoint rcpt_replies (recipients : list string) (replies : list (Z * string))
  : bool :=
  match recipients, replies with
  | [], [] => true
  | _ :: recipients', (code, _) :: replies' =>
      if accepted code then rcpt_replies recipients' replies'
      else match replies' with
           | [] => true
           | _ :: _ => false
           end
  | _, _ => false
  end.

(** A validated step of [send] as the specification lists it: the test the
    status code of its reply has to pass, and the message of the error when
    it does not, made of the name of the step and the text of the reply. *)
Record Step := {
  wanted : Z -> bool;
  failure : string -> string
}.

Definition mail_step : Step :=
  {| wanted := fun code => Z.eqb code 250;
     failure := fun text => ("MAIL FROM failed: " ++ text)%string |}.

Definition rcpt_step (recipient : string) : Step :=
  {| wanted := accepted;
     failure := fun text =>
                  ("RCPT TO failed for " ++ recipient ++ ": " ++ text)%string |}.

Definition data_cmd_step : Step :=
  {| wanted := fun code => Z.eqb code 354;
     failure := fun text => ("DATA failed: " ++ text)%string |}.

Definition dot_step : Step :=
  {| wanted := fun code => Z.eqb code 250;
     failure := fun text => ("Send failed: " ++ text)%string |}.

(** MAIL FROM, one RCPT TO per recipient, DATA, the final dot. *)
Definition validated_steps (email : Email) : list Step :=
  mail_step :: map rcpt_step (recipients_of email)
    ++ [data_cmd_step; dot_step].

(** What the replies of a session decide. [answers] holds the reply to
    every command that is sent, in order: the session ends with the first
    reply that fails its step, which gives the error, or it has a reply for
    every step, and the result is [True]. Replies to commands that are never
    sent, or too few replies, make no session ([None]). *)
Fixpoint verdict (steps : list Step) (answers : list (Z * string))
  : option (outcome bool) :=
  match steps, answers with
  | [], [] => Some (Returned true)
  | s :: steps', (code, text) :: answers' =>
      if wanted s code then verdict steps' answers'
      else match answers' with
           | [] => Some (Raised (SMTPError (failure s text)))
           | _ :: _ => None
           end
  | _, _ => None
  end.

(** Some reply is not the code its step wants. *)
Fixpoint some_step_fails (steps : list Step) (answers : list (Z * string))
  : bool :=
  match steps, answers with
  | s :: steps', (code, _) :: answers' =>
      (negb (wanted s code) || some_step_fails steps' answers')%bool
  | _, _ => false
  end.

Definition DATA_CMD : string := "DATA" ++ PyStr.CRLF.
Definition DOT_CMD : string := "." ++ PyStr.CRLF.
Definition QUIT_CMD : string := "QUIT" ++ PyStr.CRLF.

(** *** Scripts of the examples *)

(** A line as the server sends it. *)
Definition line (s : string) : RxEvent := RxLine (s ++ PyStr.CRLF).

(** A connected session that has written nothing yet and will read [evs]. *)
Definition session_on (evs : list RxEvent) : St :=
  {| self := {| _socket := Some 0; _file := Some 0 |};
     world := {| rx := evs; tx := []; tx_budget := None;
                 connect_ok := true; tls_ok := true; socks := [owning 0] |} |}.

(** The environment of a client that is about to connect and will read
    [evs]. *)
Definition server (evs : list RxEvent) : World :=
  {| rx := evs; tx := []; tx_budget := None;
     connect_ok := true; tls_ok := true; socks := [] |}.

Definition mail_three : Email :=
  {| to := ["a@b.com"]; subject := "Hi"; body := "hello"; html := EmptyString;
     from_addr := "me@b.com"; cc := ["c@d.com"]; bcc := ["e@f.com"];
     reply_to := EmptyString; attachments := []; headers := [] |}.

Definition mail_nobody : Email :=
  {| to := []; subject := "Hi"; body := "hello"; html := EmptyString;
     from_addr := "me@b.com"; cc := []; bcc := [];
     reply_to := EmptyString; attachments := []; headers := [] |}.

(** *** Relations between the state before and after a call *)

(** A call carries [R] when [R] holds between the state it starts in and the
    state it leaves, however it ends. *)
Definition carries {A} (R : St -> St -> Prop) (m : M A) : Prop :=
  forall st, R st (snd (m st)).

(** The log of writes only grows. *)
Definition tx_grows (st st' : St) : Prop :=
  exists later, tx (world st') = tx (world st) ++ later.

(** A session whose socket attribute is [h] keeps it, and no socket is
    created or closed. *)
Definition holds_socket (h : nat) (st st' : St) : Prop :=
  _socket (self st) = Some h ->
  _socket (self st') = Some h /\ socks (world st') = socks (world st).

(** No socket is created or closed. *)
Definition same_socks (st st' : St) : Prop :=
  socks (world st') = socks (world st).

(** Whether the TLS handshake will succeed is as before. *)
Definition same_tls (st st' : St) : Prop :=
  tls_ok (world st') = tls_ok (world st).

(** The number of [close()] calls socket [h] has received. *)
Definition close_calls (w : World) (h : nat) : nat :=
  closes (nth h (socks w) (owning 0)).

(* ================================================================= *)
(** ** [Attachment.from_file], the methods of [Email], [EmailBuilder] *)

(** What the module takes from [pathlib]: the last component of a path
    ([Path(path).name]) and the content of a file ([Path(path).read_bytes()]),
    a call that returns the bytes or ends otherwise: with an [OSError] for a
    file that is missing or may not be read, with [ValueError] for a path
    that holds a NUL character. *)
Class FileSystem := {
  path_name : string -> string;
  read_bytes : string -> outcome (list byte)
}.

(** Lines 41-44. The content type is the default of the data class; what
    [read_bytes] raises goes through. *)
Definition from_file {F : FileSystem} (path : string) : outcome Attachment :=
  match read_bytes path with
  | Returned bytes =>
      Returned {| filename := path_name path; content := bytes;
                  content_type := "application/octet-stream" |}
  | Raised e => Raised e
  | Diverges => Diverges
  end.

(** [Email] objects live in a heap and are handled through references: the
    methods change the object in place and return the reference they were
    given. A reference is the position of its object in the heap. *)
Definition Heap := list Email.

Definition HeapM (A : Type) : Type := Heap -> outcome A * Heap.

Definition hret {A} (a : A) : HeapM A := fun hp => (Returned a, hp).

Definition hbind {A B} (m : HeapM A) (k : A -> HeapM B) : HeapM B :=
  fun hp =>
    match m hp with
    | (Returned a, hp') => k a hp'
    | (Raised e, hp') => (Raised e, hp')
    | (Diverges, hp') => (Diverges, hp')
    end.

Definition hlift {A} (o : outcome A) : HeapM A := fun hp => (o, hp).

Declare Scope heap_scope.
Delimit Scope heap_scope with heap.
Notation "x <~ m ;; k" := (hbind m (fun x => k))
  (at level 61, m at next level, right associativity) : heap_scope.
Notation "m ;;~ k" := (hbind m (fun _ => k))
  (at level 61, right associativity) : heap_scope.

(** A new object. *)
Definition alloc (e : Email) : HeapM nat :=
  fun hp => (Returned (List.length hp), hp ++ [e]).

Fixpoint heap_set (r : nat) (e : Email) (hp : Heap) : Heap :=
  match hp, r with
  | [], _ => []
  | _ :: rest, O => e :: rest
  | x :: rest, S r' => x :: heap_set r' e rest
  end.

(** The object behind [r] changed in place. Every reference the module
    holds comes from [alloc]; on a position outside the heap nothing
    happens. *)
Definition mutate (r : nat) (f : Email -> Email) : HeapM unit :=
  fun hp =>
    match nth_error hp r with
    | Some e => (Returned tt, heap_set r (f e) hp)
    | None => (Returned tt, hp)
    end.

(** *** Field updates *)

Definition extend_to (addresses : list string) (e : Email) : Email :=
  {| to := to e ++ addresses; subject := subject e; body := body e;
     html := html e; from_addr := from_addr e; cc := cc e; bcc := bcc e;
     reply_to := reply_to e; attachments := attachments e;
     headers := headers e |}.

Definition extend_cc (addresses : list string) (e : Email) : Email :=
  {| to := to e; subject := subject e; body := body e;
     html := html e; from_addr := from_addr e; cc := cc e ++ addresses;
     bcc := bcc e; reply_to := reply_to e; attachments := attachments e;
     headers := headers e |}.

Definition extend_bcc (addresses : list string) (e : Email) : Email :=
  {| to := to e; subject := subject e; body := body e;
     html := html e; from_addr := from_addr e; cc := cc e;
     bcc := bcc e ++ addresses; reply_to := reply_to e;
     attachments := attachments e; headers := headers e |}.

Definition set_subject (s : string) (e : Email) : Email :=
  {| to := to e; subject := s; body := body e;
     html := html e; from_addr := from_addr e; cc := cc e; bcc := bcc e;
     reply_to := reply_to e; attachments := attachments e;
     headers := headers e |}.

Definition set_body (s : string) (e : Email) : Email :=
  {| to := to e; subject := subject e; body := s;
     html := html e; from_addr := from_addr e; cc := cc e; bcc := bcc e;
     reply_to := reply_to e; attachments := attachments e;
     headers := headers e |}.

Definition set_html (s : string) (e : Email) : Email :=
  {| to := to e; subject := subject e; body := body e;
     html := s; from_addr := from_addr e; cc := cc e; bcc := bcc e;
     reply_to := reply_to e; attachments := attachments e;
     headers := headers e |}.

Definition set_from_addr (s : string) (e : Email) : Email :=
  {| to := to e; subject := subject e; body := body e;
     html := html e; from_addr := s; cc := cc e; bcc := bcc e;
     reply_to := reply_to e; attachments := attachments e;
     headers := headers e |}.

Definition append_attachment (a : Attachment) (e : Email) : Email :=
  {| to := to e; subject := subject e; body := body e;
     html := html e; from_addr := from_addr e; cc := cc e; bcc := bcc e;
     reply_to := reply_to e; attachments := attachments e ++ [a];
     headers := headers e |}.

(** [Email(to=[], subject="")] with the defaults of the data class. *)
Definition blank_email : Email :=
  {| to := []; subject := EmptyString; body := EmptyString;
     html := EmptyString; from_addr := EmptyString; cc := []; bcc := [];
     reply_to := EmptyString; attachments := []; headers := [] |}.

Local Open Scope heap_scope.

(** Lines 60-62. *)
Definition add_attachment (self : nat) (attachment : Attachment) : HeapM nat :=
  mutate self (append_attachment attachment) ;;~ hret self.

(** Lines 64-66: the file is read before the list is touched. *)
Definition attach_file {F : FileSystem} (self : nat) (path : string)
  : HeapM nat :=
  a <~ hlift (from_file path) ;;
  mutate self (append_attachment a) ;;~ hret self.

Module EmailBuilder.

(** The one attribute of a builder: the reference to its [Email]. *)
Record t := { _email : nat }.

(** Lines 186-187. *)
Definition __init__ : HeapM t :=
  r <~ alloc blank_email ;; hret {| _email := r |}.

Definition to (self : t) (addresses : list string) : HeapM t :=
  mutate (_email self) (extend_to addresses) ;;~ hret self.

Definition cc (self : t) (addresses : list string) : HeapM t :=
  mutate (_email self) (extend_cc addresses) ;;~ hret self.

Definition bcc (self : t) (addresses : list string) : HeapM t :=
  mutate (_email self) (extend_bcc addresses) ;;~ hret self.

Definition subject (self : t) (s : string) : HeapM t :=
  mutate (_email self) (set_subject s) ;;~ hret self.

Definition body (self : t) (s : string) : HeapM t :=
  mutate (_email self) (set_body s) ;;~ hret self.

Definition html (self : t) (s : string) : HeapM t :=
  mutate (_email self) (set_html s) ;;~ hret self.

Definition from_addr (self : t) (addr : string) : HeapM t :=
  mutate (_email self) (set_from_addr addr) ;;~ hret self.

(** Lines 217-219. *)
Definition attach {F : FileSystem} (self : t) (path : string) : HeapM t :=
  attach_file (_email self) path ;;~ hret self.

(** Lines 221-222: the reference itself, not a copy of the object. *)
Definition build (self : t) : HeapM nat := hret (_email self).

End EmailBuilder.

(** Lines 225-226. *)
Definition email : HeapM EmailBuilder.t := EmailBuilder.__init__.

(** A call on a builder, and a chain of calls, each made on the builder the
    one before returned. *)
Inductive Call :=
| CallTo (addresses : list string)
| CallCc (addresses : list string)
| CallBcc (addresses : list string)
| CallSubject (s : string)
| CallBody (s : string)
| CallHtml (s : string)
| CallFrom (addr : string)
| CallAttach (path : string).

Definition call {F : FileSystem} (b : EmailBuilder.t) (c : Call)
  : HeapM EmailBuilder.t :=
  match c with
  | CallTo l => EmailBuilder.to b l
  | CallCc l => EmailBuilder.cc b l
  | CallBcc l => EmailBuilder.bcc b l
  | CallSubject s => EmailBuilder.subject b s
  | CallBody s => EmailBuilder.body b s
  | CallHtml s => EmailBuilder.html b s
  | CallFrom s => EmailBuilder.from_addr b s
  | CallAttach p => EmailBuilder.attach b p
  end.

Fixpoint chain {F : FileSystem} (b : EmailBuilder.t) (cs : list Call)
  : HeapM EmailBuilder.t :=
  match cs with
  | [] => hret b
  | c :: rest => b' <~ call b c ;; chain b' rest
  end.

(** [email().c1(...).c2(...) ... .build()]. *)
Definition built {F : FileSystem} (cs : list Call) : HeapM nat :=
  b <~ email ;; b' <~ chain b cs ;; EmailBuilder.build b'.

Local Close Scope heap_scope.

(** *** What a chain of calls is expected to leave in each field *)

Definition all_to (cs : list Call) : list string :=
  flat_map (fun c => match c with CallTo l => l | _ => [] end) cs.

Definition all_cc (cs : list Call) : list string :=
  flat_map (fun c => match c with CallCc l => l | _ => [] end) cs.

Definition all_bcc (cs : list Call) : list string :=
  flat_map (fun c => match c with CallBcc l => l | _ => [] end) cs.

(** The argument of the last call that [pick] selects, [EmptyString] when
    there is none. *)
Fixpoint last_of (pick : Call -> option string) (cs : list Call) (d : string)
  : string :=
  match cs with
  | [] => d
  | c :: rest =>
      match pick c with
      | Some s => last_of pick rest s
      | None => last_of pick rest d
      end
  end.

Definition pick_subject (c : Call) : option string :=
  match c with CallSubject s => Some s | _ => None end.
Definition pick_body (c : Call) : option string :=
  match c with CallBody s => Some s | _ => None end.
Definition pick_html (c : Call) : option string :=
  match c with CallHtml s => Some s | _ => None end.
Definition pick_from (c : Call) : option string :=
  match c with CallFrom s => Some s | _ => None end.

Definition attach_paths (cs : list Call) : list string :=
  flat_map (fun c => match c with CallAttach p => [p] | _ => [] end) cs.

(** The attachment [from_file] makes of a readable file. *)
Definition file_attachment {F : FileSystem} (path : string) (bytes : list byte)
  : Attachment :=
  {| filename := path_name path; content := bytes;
     content_type := "application/octet-stream" |}.

(** Every file of [paths] can be read; [atts] are the attachments made of
    them. *)
Definition all_readable {F : FileSystem} (paths : list string)
           (atts : list Attachment) : Prop :=
  Forall2 (fun p a => exists bytes,
             read_bytes p = Returned bytes /\ a = file_attachment p bytes)
          paths atts.

(** [sep in s]. *)
Fixpoint contains (sep : ascii) (s : string) : bool :=
  match s with
  | EmptyString => false
  | String c r => (Ascii.eqb c sep || contains sep r)%bool
  end.

(** A file system for the examples: one file. A path with a NUL character
    is refused with [ValueError], a path to no file with [OSError]. *)
Definition example_fs : FileSystem :=
  {| path_name := fun p => if String.eqb p "/tmp/report.bin" then "report.bin" else p;
     read_bytes := fun p => if contains "000"%char p then Raised ValueError
                            else if String.eqb p "/tmp/report.bin"
                                 then Returned [x01; x02; x03]
                                 else Raised OSError |}.

(** The object a chain of calls leaves behind [e], when the files of its
    [attach] calls gave the attachments [atts]. *)
Definition chain_result (e : Email) (cs : list Call) (atts : list Attachment)
  : Email :=
  {| to := to e ++ all_to cs;
     subject := last_of pick_subject cs (subject e);
     body := last_of pick_body cs (body e);
     html := last_of pick_html cs (html e);
     from_addr := last_of pick_from cs (from_addr e);
     cc := cc e ++ all_cc cs;
     bcc := bcc e ++ all_bcc cs;
     reply_to := reply_to e;
     attachments := attachments e ++ atts;
     headers := headers e |}.

(** Whether a content type can be cut into a type and a subtype. *)
Definition has_slash (att : Attachment) : bool :=
  contains "/"%char (content_type att).

(** The part the builder makes of an attachment whose content type is
    [maintype/subtype]. *)
Definition expected_part (att : Attachment) (maintype subtype : string)
  : Mime.Message :=
  Mime.Msg (Mime.MIMEBase maintype subtype)
    [("Content-Transfer-Encoding", "base64");
     ("Content-Disposition",
      ("attachment; filename=" ++ filename att)%string)]
    (Mime.PText (Base64.encodebytes (content att))).

(** [part] is the part of [att]: its type and subtype are the content type
    cut at the first slash. *)
Definition part_of (att : Attachment) (part : Mime.Message) : Prop :=
  exists maintype subtype,
    content_type att = (maintype ++ String "/"%char subtype)%string
    /\ contains "/"%char maintype = false
    /\ part = expected_part att maintype subtype.

(** The headers the builder assigns before the custom ones. *)
Definition expected_standard_headers (config : SMTPConfig) (email : Email)
  : list (string * string) :=
  [("Subject", subject email);
   ("From", PyStr.or_else (from_addr email) (username config));
   ("To", PyStr.join ", " (to email))]
  ++ match cc email with
     | [] => []
     | _ :: _ => [("Cc", PyStr.join ", " (cc email))]
     end
  ++ (if PyStr.truthy (reply_to email)
      then [("Reply-To", reply_to email)] else []).

Definition mail_bad_type : Email :=
  {| to := ["a@b.com"]; subject := "Hi"; body := "hello"; html := EmptyString;
     from_addr := "me@b.com"; cc := []; bcc := ["e@f.com"];
     reply_to := EmptyString;
     attachments := [att0; {| filename := "x"; content := [x00];
                              content_type := "binary" |}];
     headers := [] |}.

(* ================================================================= *)
(** ** Vocabulary for the handshake and the whole session *)

Definition EHLO_CMD : string := "EHLO localhost" ++ PyStr.CRLF.
Definition STARTTLS_CMD : string := "STARTTLS" ++ PyStr.CRLF.
Definition AUTH_CMD : string := "AUTH LOGIN" ++ PyStr.CRLF.

(** The test of line 91. *)
Definition has_credentials (config : SMTPConfig) : bool :=
  (PyStr.truthy (username config) && PyStr.truthy (password config))%bool.

Definition auth_cmds (config : SMTPConfig) : list string :=
  [AUTH_CMD;
   (Base64.b64encode (PyStr.encode (username config)) ++ PyStr.CRLF)%string;
   (Base64.b64encode (PyStr.encode (password config)) ++ PyStr.CRLF)%string].

(** The lines [connect] is expected to write. *)
Definition handshake_cmds (config : SMTPConfig) : list string :=
  [EHLO_CMD]
  ++ (if use_tls config then [STARTTLS_CMD; EHLO_CMD] else [])
  ++ (if has_credentials config then auth_cmds config else []).

(** A new client in [w] right after [connect] has created its socket and,
    with [file], its reader. *)
Definition opened (w : World) (file : option nat) : St :=
  {| self := {| _socket := Some (List.length (socks w)); _file := file |};
     world := {| rx := rx w; tx := tx w; tx_budget := tx_budget w;
                 connect_ok := connect_ok w; tls_ok := tls_ok w;
                 socks := socks w ++ [owning 0] |} |}.

(** The same client after the TLS upgrade: next to the socket of line 76,
    now detached, there is the wrapper, and the client holds the wrapper and
    a reader made of it. *)
Definition upgraded (w : World) : St :=
  {| self := {| _socket := Some (S (List.length (socks w)));
                _file := Some (S (List.length (socks w))) |};
     world := {| rx := rx w; tx := tx w; tx_budget := tx_budget w;
                 connect_ok := connect_ok w; tls_ok := tls_ok w;
                 socks := socks w ++ [gone 0; owning 0] |} |}.

(** The client after a handshake that wrote [sent] and left [rest]
    unread. *)
Definition connected_state (config : SMTPConfig) (w : World)
           (sent : list string) (rest : list RxEvent) : St :=
  advance (if use_tls config then upgraded w
           else opened w (Some (List.length (socks w)))) sent rest.

(** The sockets a session of the helper leaves behind when [close] has
    run: the socket the client held has received one [close()]; with
    [use_tls] that is the wrapper, and the socket it replaced has received
    none. *)
Definition closed_sockets (config : SMTPConfig) : list Sock :=
  if use_tls config then [gone 0; owning 1] else [owning 1].

(** The attributes of the client and the sockets of the environment are as
    before. *)
Definition untouched (st st' : St) : Prop :=
  self st' = self st /\ socks (world st') = socks (world st).

(** The lines written for a message whose every step is accepted. *)
Definition message_cmds (config : SMTPConfig) (email : Email) (doc : string)
  : list string :=
  mail_cmd config email :: map rcpt_cmd (recipients_of email)
    ++ [DATA_CMD; doc; DOT_CMD].

Definition cfg_auth : SMTPConfig :=
  {| host := "smtp.example.com"; port := 587; username := "user@example.com";
     password := "password"; use_tls := true; timeout := 30%Q |}.
(* ================================================================= *)
(** ** Base64: encoding followed by decoding *)

Module Base64Facts.
Import Base64.

Ltac ndm := zify; Z.div_mod_to_equations; Z.quot_rem_to_equations; lia.

Lemma sextet_table : forallb sextet_ok (map N.of_nat (seq 0 64)) = true.
Proof. vm_compute. reflexivity. Qed.

Lemma sextet_ok_lt (v : N) : (v < 64)%N -> sextet_ok v = true.
Proof.
  intros Hv.
  pose proof sextet_table as T.
  rewrite forallb_forall in T.
  apply T.
  rewrite <- (N2Nat.id v).
  apply in_map, in_seq. lia.
Qed.

Lemma a2b_b2a (v : N) : (v < 64)%N -> a2b (b2a v) = Some v.
Proof.
  intros Hv. pose proof (sextet_ok_lt Hv) as H.
  unfold sextet_ok in H. apply andb_true_iff in H. destruct H as [H _].
  destruct (a2b (b2a v)) as [v'|]; [|discriminate].
  apply N.eqb_eq in H. now subst.
Qed.

Lemma b2a_not_pad (v : N) : (v < 64)%N -> Ascii.eqb (b2a v) PAD = false.
Proof.
  intros Hv. pose proof (sextet_ok_lt Hv) as H.
  unfold sextet_ok in H. apply andb_true_iff in H. destruct H as [_ H].
  now apply negb_true_iff in H.
Qed.

Lemma sextets_b2a (v : N) (r : string) :
  (v < 64)%N -> sextets (String (b2a v) r) = v :: sextets r.
Proof.
  intros Hv. cbn [sextets].
  now rewrite (b2a_not_pad Hv), (a2b_b2a Hv).
Qed.

Lemma sextets_pad (r : string) : sextets (String PAD r) = [].
Proof. reflexivity. Qed.

Lemma sextets_newline (r : string) : sextets (PyStr.NL ++ r) = sextets r.
Proof. reflexivity. Qed.

Lemma byte_of_to_N (x : byte) (n : N) : n = Byte.to_N x -> byte_of_N n = x.
Proof. intros ->. unfold byte_of_N. now rewrite Byte.of_to_N. Qed.

(** Induction three bytes at a time. *)
Lemma by_threes (P : list byte -> Prop) :
  P [] ->
  (forall x, P [x]) ->
  (forall x y, P [x; y]) ->
  (forall x y z rest, P rest -> P (x :: y :: z :: rest)) ->
  forall bs, P bs.
Proof.
  intros H0 H1 H2 H3 bs.
  assert (G : forall n l, List.length l <= n -> P l).
  { induction n as [|n IH]; intros l Hl.
    - destruct l; [exact H0 | cbn in Hl; lia].
    - destruct l as [|x [|y [|z rest]]]; auto.
      apply H3, IH. cbn in Hl. lia. }
  exact (G (List.length bs) bs (le_n _)).
Qed.

(** Decoding what [b64encode] wrote, with any text after it: the bytes come
    back, and the text after is read on only when no padding was written. *)
Lemma decode_b64encode_app (bs : list byte) (tail : string) :
  unsextets (sextets (b64encode bs ++ tail)) =
  bs ++ (if whole3 bs then unsextets (sextets tail) else []).
Proof.
  induction bs as [| x | x y | x y z rest IH] using by_threes.
  - reflexivity.
  - pose proof (Byte.to_N_bounded x) as Bx.
    cbn [b64encode String.append].
    rewrite !sextets_b2a by ndm. rewrite sextets_pad.
    cbn [unsextets whole3 app]. f_equal.
    apply byte_of_to_N. ndm.
  - pose proof (Byte.to_N_bounded x) as Bx.
    pose proof (Byte.to_N_bounded y) as By.
    cbn [b64encode String.append].
    rewrite !sextets_b2a by ndm. rewrite sextets_pad.
    cbn [unsextets whole3 app].
    f_equal; [|f_equal]; apply byte_of_to_N; ndm.
  - pose proof (Byte.to_N_bounded x) as Bx.
    pose proof (Byte.to_N_bounded y) as By.
    pose proof (Byte.to_N_bounded z) as Bz.
    cbn [b64encode String.append].
    rewrite !sextets_b2a by ndm.
    cbn [unsextets whole3 app].
    rewrite IH.
    f_equal; [|f_equal; [|f_equal]]; apply byte_of_to_N; ndm.
Qed.

Lemma whole3_length (k : nat) (bs : list byte) :
  List.length bs = 3 * k -> whole3 bs = true.
Proof.
  revert bs. induction k as [|k IH]; intros bs H.
  - destruct bs; [reflexivity | cbn in H; lia].
  - destruct bs as [|x [|y [|z rest]]]; cbn in H; try lia.
    cbn [whole3]. apply IH. lia.
Qed.

Lemma pieces_nil (fuel : nat) : pieces fuel [] = EmptyString.
Proof. destruct fuel; reflexivity. Qed.

Lemma pieces_cons (fuel : nat) (s : list byte) :
  s <> [] ->
  pieces (S fuel) s =
  (b64encode (firstn MAXBINSIZE s) ++ PyStr.NL
     ++ pieces fuel (skipn MAXBINSIZE s))%string.
Proof. destruct s; [congruence | reflexivity]. Qed.

Lemma decode_pieces (fuel : nat) (s : list byte) :
  List.length s <= fuel -> b64decode (pieces fuel s) = s.
Proof.
  revert s. induction fuel as [|fuel IH]; intros s Hs.
  - destruct s; [reflexivity | cbn in Hs; lia].
  - destruct s as [|b s']; [reflexivity|].
    rewrite pieces_cons by discriminate.
    remember (b :: s') as t eqn:Et.
    unfold b64decode.
    rewrite decode_b64encode_app.
    destruct (Nat.le_gt_cases (List.length t) MAXBINSIZE) as [Hle | Hgt].
    + rewrite firstn_all2 by exact Hle.
      rewrite skipn_all2 by exact Hle.
      rewrite pieces_nil.
      destruct (whole3 t); cbn; now rewrite app_nil_r.
    + assert (Hf : List.length (firstn MAXBINSIZE t) = 3 * 19).
      { rewrite length_firstn. unfold MAXBINSIZE in *. lia. }
      rewrite (whole3_length 19 _ Hf).
      rewrite sextets_newline.
      fold (b64decode (pieces fuel (skipn MAXBINSIZE t))).
      rewrite IH.
      * apply firstn_skipn.
      * rewrite length_skipn. unfold MAXBINSIZE in *. subst t. cbn in *. lia.
Qed.

(** [encodebytes] followed by decoding is the identity on bytes. *)
Lemma decode_encodebytes (s : list byte) : b64decode (encodebytes s) = s.
Proof. apply decode_pieces. apply le_n. Qed.

End Base64Facts.

(* ================================================================= *)
(** ** The MIME builder *)

Section BuilderFacts.

Context {L : PyLib}.
Variable config : SMTPConfig.

Import SMTPClient.

Lemma setitem_class m k v : Mime.class_of (Mime.setitem m k v) = Mime.class_of m.
Proof. now destruct m. Qed.

Lemma setitem_payload m k v : Mime._payload (Mime.setitem m k v) = Mime._payload m.
Proof. now destruct m. Qed.

Lemma setitem_headers m k v :
  Mime._headers (Mime.setitem m k v) = Mime._headers m ++ [(k, v)].
Proof. now destruct m. Qed.

Lemma standard_headers_class email m :
  Mime.class_of (standard_headers config email m) = Mime.class_of m.
Proof.
  unfold standard_headers.
  destruct (PyStr.truthy (reply_to email)), (cc email);
    now rewrite ?setitem_class.
Qed.

Lemma standard_headers_payload email m :
  Mime._payload (standard_headers config email m) = Mime._payload m.
Proof.
  unfold standard_headers.
  destruct (PyStr.truthy (reply_to email)), (cc email);
    now rewrite ?setitem_payload.
Qed.

Lemma custom_headers_class items m :
  Mime.class_of (custom_headers items m) = Mime.class_of m.
Proof.
  revert m. induction items as [|[k v] items IH]; intros m; cbn; [reflexivity|].
  now rewrite IH, setitem_class.
Qed.

Lemma custom_headers_payload items m :
  Mime._payload (custom_headers items m) = Mime._payload m.
Proof.
  revert m. induction items as [|[k v] items IH]; intros m; cbn; [reflexivity|].
  now rewrite IH, setitem_payload.
Qed.

Lemma custom_headers_headers items m :
  Mime._headers (custom_headers items m) = Mime._headers m ++ items.
Proof.
  revert m. induction items as [|[k v] items IH]; intros m; cbn.
  - now rewrite app_nil_r.
  - now rewrite IH, setitem_headers, <- app_assoc.
Qed.

(** The object after the header assignments, taken apart. *)
Lemma headers_done email :
  custom_headers (headers email)
    (standard_headers config email (top_level email))
  = Mime.Msg (Mime.class_of (top_level email))
      (Mime._headers (standard_headers config email (top_level email))
         ++ headers email)
      (Mime._payload (top_level email)).
Proof.
  pose proof (custom_headers_class (headers email)
                (standard_headers config email (top_level email))) as Hc.
  pose proof (custom_headers_payload (headers email)
                (standard_headers config email (top_level email))) as Hp.
  pose proof (custom_headers_headers (headers email)
                (standard_headers config email (top_level email))) as Hh.
  rewrite standard_headers_class in Hc.
  rewrite standard_headers_payload in Hp.
  destruct (custom_headers _ _) as [k h p]. cbn in *. now subst.
Qed.

Lemma text_parts_multipart email k h ps :
  text_parts email (Mime.Msg k h (Mime.PParts ps)) =
  Mime.Msg k h
    (Mime.PParts
       (ps ++ (if PyStr.truthy (body email)
               then [Mime.new_MIMEText (body email) "plain"] else [])
           ++ (if PyStr.truthy (html email)
               then [Mime.new_MIMEText (html email) "html"] else []))).
Proof.
  unfold text_parts.
  destruct (PyStr.truthy (body email)), (PyStr.truthy (html email)); cbn;
    rewrite <- ?app_assoc, ?app_nil_r; reflexivity.
Qed.

(** The attachment loop keeps the class and the headers and appends one part
    per attachment, in order. *)
Lemma attach_all_parts atts : forall k h ps m,
  attach_all atts (Mime.Msg k h (Mime.PParts ps)) = Returned m ->
  exists aps,
    m = Mime.Msg k h (Mime.PParts (ps ++ aps))
    /\ Forall2 (fun att p => attachment_part att = Returned p) atts aps.
Proof.
  induction atts as [|att atts IH]; intros k h ps m H; cbn in H.
  - exists []. rewrite app_nil_r. split; [congruence | constructor].
  - destruct (attachment_part att) as [part| |] eqn:Ep; try discriminate.
    cbn in H. apply IH in H. destruct H as (aps & -> & F).
    exists (part :: aps). rewrite <- app_assoc. split; [reflexivity|].
    constructor; assumption.
Qed.

Lemma attachment_part_decodes att part :
  attachment_part att = Returned part -> decodes_to att part.
Proof.
  unfold attachment_part, Mime.MIMEBase_star.
  destruct (PyStr.split1 "/" (content_type att)) as [|a [|b [|c r]]];
    try discriminate.
  intros H. injection H as <-.
  exists (Base64.encodebytes (content att)). split; [reflexivity|].
  apply Base64Facts.decode_encodebytes.
Qed.

Lemma top_level_cases email :
  top_level email =
  if (has_attachments email || PyStr.truthy (html email))%bool
  then Mime.Msg (Mime.MIMEMultipart
                   (if PyStr.truthy (html email) then "alternative" else "mixed"))
                [] (Mime.PParts [])
  else Mime.Msg (Mime.MIMEText (body email) "plain") [] (Mime.PText (body email)).
Proof. reflexivity. Qed.

End BuilderFacts.

Unset Implicit Arguments.

(** Whatever the message, the class of the built object is the one chosen on
    lines 114-117, and its headers are the standard ones followed by the
    custom ones. *)
Lemma message_object_shape (config : SMTPConfig) (email : Email) (m : Mime.Message) :
  SMTPClient.message_object config email = Returned m ->
  Mime.class_of m = Mime.class_of (SMTPClient.top_level email)
  /\ Mime._headers m =
     Mime._headers (SMTPClient.standard_headers config email
                      (SMTPClient.top_level email)) ++ headers email.
Proof.
  unfold SMTPClient.message_object.
  rewrite headers_done.
  rewrite top_level_cases.
  destruct (SMTPClient.has_attachments email || PyStr.truthy (html email))%bool;
    cbn [Mime.is_multipart Mime.class_of Mime._payload].
  - rewrite text_parts_multipart. intros H.
    apply attach_all_parts in H. destruct H as (aps & -> & _). now split.
  - intros H. injection H as <-. now split.
Qed.

(** C1, evaluated where it fails: a message with an HTML body and one
    attachment is built as a multipart object of subtype [alternative], not
    [mixed], and the attachment is one of its two parts. *)
Theorem html_with_attachment_is_alternative :
  exists hs p1 p2,
    SMTPClient.message_object cfg0 mail_html_att
    = Returned (Mime.Msg (Mime.MIMEMultipart "alternative") hs
                  (Mime.PParts [p1; p2]))
    /\ Mime.class_of p1 = Mime.MIMEText "<p>hello</p>" "html"
    /\ Mime.class_of p2 = Mime.MIMEBase "application" "octet-stream".
Proof. do 3 eexists. split; [reflexivity|]. split; reflexivity. Qed.

(** In general: whenever the HTML body is non-empty the top-level subtype is
    [alternative], attachments or not. *)
Lemma html_decides_subtype (config : SMTPConfig) (email : Email)
      (m : Mime.Message) :
  PyStr.truthy (html email) = true ->
  SMTPClient.message_object config email = Returned m ->
  Mime.class_of m = Mime.MIMEMultipart "alternative".
Proof.
  intros Hh H. apply message_object_shape in H. destruct H as [-> _].
  rewrite top_level_cases, Hh, orb_true_r. reflexivity.
Qed.

(** The sibling path: with attachments and no HTML body the subtype is
    [mixed]. *)
Lemma attachment_without_html_is_mixed (config : SMTPConfig) (email : Email)
      (m : Mime.Message) :
  SMTPClient.has_attachments email = true ->
  PyStr.truthy (html email) = false ->
  SMTPClient.message_object config email = Returned m ->
  Mime.class_of m = Mime.MIMEMultipart "mixed".
Proof.
  intros Ha Hh H. apply message_object_shape in H. destruct H as [-> _].
  rewrite top_level_cases, Ha, Hh. reflexivity.
Qed.

(** A body alone gives a single [text/plain] object. *)
Lemma plain_only_is_single_part (config : SMTPConfig) (email : Email) :
  SMTPClient.has_attachments email = false ->
  PyStr.truthy (html email) = false ->
  exists hs,
    SMTPClient.message_object config email
    = Returned (Mime.Msg (Mime.MIMEText (body email) "plain") hs
                  (Mime.PText (body email))).
Proof.
  intros Ha Hh. unfold SMTPClient.message_object.
  rewrite headers_done, top_level_cases, Ha, Hh. cbn. eauto.
Qed.

(** C8: with a non-empty HTML body and no attachment, what [_build_message]
    returns is the serialization, by [msg.as_string()] on line 143, of a
    multipart object of subtype [alternative] whose parts are the plain-text
    part, when the body is non-empty, followed by the HTML part, and nothing
    else. *)
Theorem html_without_attachments {L : PyLib} (config : SMTPConfig)
        (email : Email) :
  PyStr.truthy (html email) = true ->
  attachments email = [] ->
  exists hs,
    SMTPClient.message_object config email
    = Returned (Mime.Msg (Mime.MIMEMultipart "alternative") hs
                  (Mime.PParts
                     ((if PyStr.truthy (body email)
                       then [Mime.new_MIMEText (body email) "plain"] else [])
                      ++ [Mime.new_MIMEText (html email) "html"])))
    /\ SMTPClient._build_message config email
       = as_string
           (Mime.Msg (Mime.MIMEMultipart "alternative") hs
              (Mime.PParts
                 ((if PyStr.truthy (body email)
                   then [Mime.new_MIMEText (body email) "plain"] else [])
                  ++ [Mime.new_MIMEText (html email) "html"]))).
Proof.
  intros Hh Ha.
  assert (E : exists hs,
             SMTPClient.message_object config email
             = Returned (Mime.Msg (Mime.MIMEMultipart "alternative") hs
                           (Mime.PParts
                              ((if PyStr.truthy (body email)
                                then [Mime.new_MIMEText (body email) "plain"]
                                else [])
                               ++ [Mime.new_MIMEText (html email) "html"])))).
  { unfold SMTPClient.message_object.
    rewrite headers_done, top_level_cases.
    unfold SMTPClient.has_attachments. rewrite Ha, Hh.
    cbn [orb Mime.is_multipart Mime.class_of Mime._payload].
    rewrite text_parts_multipart, Hh. cbn [SMTPClient.attach_all app].
    eauto. }
  destruct E as [hs E]. exists hs. split; [exact E|].
  unfold SMTPClient._build_message. now rewrite E.
Qed.

Lemma html_without_attachments_witness :
  exists hs,
    SMTPClient.message_object cfg0 mail_html
    = Returned (Mime.Msg (Mime.MIMEMultipart "alternative") hs
                  (Mime.PParts [Mime.new_MIMEText "hello" "plain";
                                Mime.new_MIMEText "<p>hello</p>" "html"]))
    /\ SMTPClient._build_message (L := example_lib) cfg0 mail_html
       = serialize
           (Mime.Msg (Mime.MIMEMultipart "alternative") hs
              (Mime.PParts [Mime.new_MIMEText "hello" "plain";
                            Mime.new_MIMEText "<p>hello</p>" "html"])).
Proof.
  exact (html_without_attachments (L := example_lib) cfg0 mail_html
           eq_refl eq_refl).
Defined.

(** C9: in a message with attachments that builds, the parts are the text
    parts followed by one part per attachment, in order, and the Base64
    payload of each attachment part decodes to the content of its
    attachment. *)
Theorem attachment_payload_roundtrip (config : SMTPConfig) (email : Email)
        (m : Mime.Message) :
  SMTPClient.has_attachments email = true ->
  SMTPClient.message_object config email = Returned m ->
  exists aparts,
    Mime.parts m = expected_text_parts email ++ aparts
    /\ Forall2 decodes_to (attachments email) aparts.
Proof.
  intros Ha. unfold SMTPClient.message_object.
  rewrite headers_done, top_level_cases, Ha.
  cbn [orb Mime.is_multipart Mime.class_of Mime._payload].
  rewrite text_parts_multipart. intros H.
  apply attach_all_parts in H. destruct H as (aps & -> & F).
  exists aps. split; [reflexivity|].
  clear -F. induction F; constructor; auto using attachment_part_decodes.
Qed.

Lemma attachment_payload_roundtrip_witness :
  exists m aparts,
    SMTPClient.message_object cfg0 mail_att = Returned m
    /\ Mime.parts m = [Mime.new_MIMEText "hello" "plain"] ++ aparts
    /\ Forall2 decodes_to [att0] aparts.
Proof.
  eexists.
  destruct (attachment_payload_roundtrip cfg0 mail_att _ eq_refl eq_refl)
    as (aparts & Hp & F).
  exists aparts. split; [reflexivity|]. split; assumption.
Defined.

(** C2, refuted: with the custom header [Subject: Other] on a message whose
    subject is [Hi], the built object has two [Subject] headers, the standard
    value first; the custom value has not replaced it. *)
Lemma custom_header_does_not_overwrite :
  exists m,
    SMTPClient.message_object cfg0 mail_dup = Returned m
    /\ Mime.get_all m "Subject" = ["Hi"; "Other"]
    /\ Mime.get_all m "Subject" <> ["Other"].
Proof.
  eexists. split; [reflexivity|]. split; [reflexivity | discriminate].
Qed.

(** C2, amended: the headers of the built object are the standard headers
    followed by every custom entry, so a custom key that collides with a
    standard header adds further headers of that name after the standard
    one; for [Subject] the values are the message's subject and then the
    custom values. *)
Theorem custom_headers_are_appended (config : SMTPConfig) (email : Email)
        (m : Mime.Message) :
  SMTPClient.message_object config email = Returned m ->
  Mime._headers m =
    Mime._headers (SMTPClient.standard_headers config email
                     (SMTPClient.top_level email)) ++ headers email
  /\ (forall key,
        Mime.get_all m key =
        Mime.get_all (SMTPClient.standard_headers config email
                        (SMTPClient.top_level email)) key
        ++ custom_values email key)
  /\ Mime.get_all m "Subject" = subject email :: custom_values email "Subject".
Proof.
  intros H. apply message_object_shape in H. destruct H as [_ Hh].
  assert (G : forall key,
             Mime.get_all m key =
             Mime.get_all (SMTPClient.standard_headers config email
                             (SMTPClient.top_level email)) key
             ++ custom_values email key).
  { intros key. unfold Mime.get_all, custom_values.
    now rewrite Hh, filter_app, map_app. }
  split; [exact Hh|]. split; [exact G|].
  rewrite G. f_equal.
  unfold SMTPClient.standard_headers, Mime.get_all.
  rewrite top_level_cases.
  destruct (SMTPClient.has_attachments email || PyStr.truthy (html email))%bool,
    (PyStr.truthy (reply_to email)), (cc email); reflexivity.
Qed.

Lemma custom_headers_are_appended_witness :
  exists m,
    SMTPClient.message_object cfg0 mail_dup = Returned m
    /\ Mime.get_all m "Subject" = "Hi" :: custom_values mail_dup "Subject".
Proof.
  eexists. split; [reflexivity|].
  exact (proj2 (proj2 (custom_headers_are_appended cfg0 mail_dup _ eq_refl))).
Defined.

(* ================================================================= *)
(** ** The response reader and the command exchange *)

Section SessionFacts.

Context {L : PyLib}.

Import SMTPClient.

(** At the end of the stream the loop cannot stop: the empty line that
    [readline()] keeps returning is not a final line. *)
Lemma empty_line_continues : continues EmptyString.
Proof. reflexivity. Qed.

Lemma read_lines_block (pre : list string) : forall acc last rest,
  Forall continues pre ->
  terminates last ->
  read_lines (map RxLine pre ++ RxLine last :: rest) acc
  = (Returned (acc ++ map PyStr.rstrip pre ++ [PyStr.rstrip last]), rest).
Proof.
  induction pre as [|raw pre IH]; intros acc last rest Hpre Hlast; cbn.
  - unfold terminates in Hlast. now rewrite Hlast.
  - inversion Hpre as [|? ? Hraw Hpre']; subst.
    unfold continues in Hraw. rewrite Hraw.
    rewrite IH by assumption. now rewrite <- app_assoc.
Qed.

Lemma advance_ready st sent rest : ready st -> ready (advance st sent rest).
Proof. now destruct st as [[s f] w]. Qed.

Lemma advance_advance st a r1 b r2 :
  advance (advance st a r1) b r2 = advance st (a ++ b) r2.
Proof. unfold advance, with_world; cbn. now rewrite app_assoc. Qed.

Lemma advance_nil st : advance st [] (rx (world st)) = st.
Proof.
  destruct st as [c w]. destruct w. unfold advance, with_world; cbn.
  now rewrite app_nil_r.
Qed.

Lemma last_snoc (A : Type) (l : list A) (x d : A) : List.last (l ++ [x]) d = x.
Proof. apply last_last. Qed.

Lemma read_response_block st blk code text rest :
  _file (self st) <> None ->
  reply_block blk code text ->
  rx (world st) = blk ++ rest ->
  _read_response st = (Returned (code, text), advance st [] rest).
Proof.
  intros Hf (pre & last & -> & Hpre & Hlast & Hint & ->) Hrx.
  unfold _read_response.
  destruct (_file (self st)); [|congruence].
  rewrite Hrx, <- app_assoc. cbn [app].
  rewrite read_lines_block by assumption. cbn [app].
  rewrite last_snoc, Hint, map_app. cbn [map].
  unfold advance, set_rx. now rewrite app_nil_r.
Qed.

Lemma sendall_ready st data :
  ready st -> sendall data st = (Returned tt, advance st [data] (rx (world st))).
Proof.
  intros (Hs & _ & Hb). unfold sendall. unfold writable in Hs.
  destruct (_socket (self st)) as [h|]; [|discriminate].
  apply negb_true_iff in Hs. rewrite Hs, Hb.
  unfold advance, log_tx, with_world. now rewrite Hb.
Qed.

Lemma command_block st cmd blk code text rest :
  ready st ->
  reply_block blk code text ->
  rx (world st) = blk ++ rest ->
  _command cmd st = (Returned (code, text), advance st [(cmd ++ PyStr.CRLF)%string] rest).
Proof.
  intros Hr Hblk Hrx.
  unfold _command, bind. rewrite sendall_ready by exact Hr.
  erewrite read_response_block;
    [ | apply (advance_ready st _ _ Hr) | exact Hblk | exact Hrx ].
  now rewrite advance_advance.
Qed.

End SessionFacts.

(* ================================================================= *)
(** ** [send]: the three phases against a scripted server *)

Section SendFacts.

Context {L : PyLib}.
Variable config : SMTPConfig.

Import SMTPClient.

Lemma rcpt_loop_script (recipients : list string) :
  forall st blks replies rest,
    ready st ->
    reply_blocks blks replies ->
    List.length replies = List.length recipients ->
    rx (world st) = List.concat blks ++ rest ->
    rcpt_loop recipients st =
    match first_rejected recipients replies with
    | None => (Returned tt, advance st (map rcpt_cmd recipients) rest)
    | Some (i, r, text) =>
        (Raised (SMTPError ("RCPT TO failed for " ++ r ++ ": " ++ text)),
         advance st (map rcpt_cmd (firstn (S i) recipients))
                 (List.concat (skipn (S i) blks) ++ rest))
    end.
Proof.
  induction recipients as [|r rs IH]; intros st blks replies rest Hr Hb Hlen Hrx.
  - destruct replies; [|discriminate]. inversion Hb; subst. cbn in *.
    rewrite <- Hrx. now rewrite advance_nil.
  - destruct replies as [|[code text] replies']; [discriminate|].
    inversion Hb as [|blk ? blks' ? Hblk Hb']; subst. cbn in Hblk, Hlen.
    cbn [List.concat] in Hrx. rewrite <- app_assoc in Hrx.
    cbn [rcpt_loop first_rejected]. unfold bind at 1.
    erewrite command_block by eassumption.
    unfold accepted.
    destruct (Z.eqb code 250) eqn:E0, (Z.eqb code 251) eqn:E1;
      cbn [negb andb orb];
      try (rewrite (IH _ blks' replies' rest); eauto using advance_ready;
           destruct (first_rejected rs replies') as [[[i r'] text']|];
           rewrite advance_advance; reflexivity).
    reflexivity.
Qed.

Lemma mail_from_script st email blk code text rest :
  ready st ->
  reply_block blk code text ->
  rx (world st) = blk ++ rest ->
  mail_from_step config email st =
  (if negb (Z.eqb code 250)
   then Raised (SMTPError ("MAIL FROM failed: " ++ text))
   else Returned tt,
   advance st [mail_cmd config email] rest).
Proof.
  intros Hr Hblk Hrx. unfold mail_from_step, bind.
  erewrite command_block by eassumption.
  now destruct (Z.eqb code 250).
Qed.

Lemma data_step_script st email doc dblk dcode dtext blk code text rest :
  ready st ->
  _build_message config email = Returned doc ->
  reply_block dblk dcode dtext ->
  reply_block blk code text ->
  rx (world st) = dblk ++ blk ++ rest ->
  data_step config email st =
  if negb (Z.eqb dcode 354)
  then (Raised (SMTPError ("DATA failed: " ++ dtext)),
        advance st [DATA_CMD] (blk ++ rest))
  else (if negb (Z.eqb code 250)
        then Raised (SMTPError ("Send failed: " ++ text))
        else Returned true,
        advance st [DATA_CMD; doc; DOT_CMD] rest).
Proof.
  intros Hr Hdoc Hd Hblk Hrx. unfold data_step, bind at 1.
  erewrite command_block; [ | exact Hr | exact Hd | exact Hrx ].
  destruct (Z.eqb dcode 354); cbn [negb]; [|reflexivity].
  unfold bind at 1, lift. rewrite Hdoc.
  unfold bind at 1.
  rewrite sendall_ready by (now apply advance_ready).
  unfold bind at 1.
  erewrite command_block;
    [ | now repeat apply advance_ready | exact Hblk | reflexivity ].
  rewrite !advance_advance. cbn [app].
  now destruct (Z.eqb code 250).
Qed.

Lemma first_rejected_none recipients : forall replies,
  List.length replies = List.length recipients ->
  (first_rejected recipients replies = None
   <-> forallb (fun r => accepted (fst r)) replies = true).
Proof.
  induction recipients as [|r rs IH]; intros [|[code text] replies] Hlen;
    try discriminate; cbn.
  - tauto.
  - destruct (accepted code); cbn.
    + rewrite <- IH by (cbn in Hlen; lia).
      destruct (first_rejected rs replies) as [[[i r'] t']|];
        split; congruence.
    + split; discriminate.
Qed.

End SendFacts.

(** [send] up to the end of the recipient loop. *)
Lemma send_script_rcpt {L : PyLib} (config : SMTPConfig) (email : Email)
      (st : St) (mail_blk : list RxEvent) (mail_text : string)
      (blks : list (list RxEvent)) (replies : list (Z * string))
      (rest : list RxEvent) :
  ready st ->
  reply_block mail_blk 250 mail_text ->
  reply_blocks blks replies ->
  List.length replies = List.length (recipients_of email) ->
  rx (world st) = mail_blk ++ List.concat blks ++ rest ->
  SMTPClient.send config email st =
  match first_rejected (recipients_of email) replies with
  | None =>
      SMTPClient.data_step config email
        (advance st (mail_cmd config email
                       :: map rcpt_cmd (recipients_of email)) rest)
  | Some (i, r, text) =>
      (Raised (SMTPError ("RCPT TO failed for " ++ r ++ ": " ++ text)),
       advance st
         (mail_cmd config email
            :: map rcpt_cmd (firstn (S i) (recipients_of email)))
         (List.concat (skipn (S i) blks) ++ rest))
  end.
Proof.
  intros Hr Hm Hb Hlen Hrx.
  unfold SMTPClient.send. fold (recipients_of email).
  unfold bind at 1.
  erewrite mail_from_script; [ | exact Hr | exact Hm | exact Hrx ].
  cbn [Z.eqb negb Pos.eqb].
  unfold bind at 1.
  erewrite rcpt_loop_script;
    [ | now apply advance_ready | exact Hb | exact Hlen | reflexivity ].
  destruct (first_rejected (recipients_of email) replies) as [[[i r] text]|];
    now rewrite advance_advance.
Qed.

(* ================================================================= *)
(** ** Properties of [_read_response] and [send] *)

Lemma is_final_iff (ln : string) :
  SMTPClient.is_final ln = true
  <-> 4 <= String.length ln /\ String.get 3 ln = Some " "%char.
Proof.
  unfold SMTPClient.is_final. rewrite andb_true_iff, Nat.leb_le.
  destruct (String.get 3 ln) as [c|].
  - rewrite Ascii.eqb_eq. split; intros [H1 H2]; split; congruence.
  - split; intros [_ H]; discriminate.
Qed.

Lemma reply_block_intro {L : PyLib} (pre : list string) (last : string) (code : Z) :
  Forall continues pre ->
  terminates last ->
  py_int (PyStr.prefix 3 (PyStr.rstrip last)) = Some code ->
  reply_block (map RxLine pre ++ [RxLine last]) code
              (PyStr.join PyStr.NL (map PyStr.rstrip (pre ++ [last]))).
Proof. intros; exists pre, last; auto. Qed.

(** C6: [_read_response] takes lines up to and including the first one
    that, stripped of its line ending, has a space as fourth character; it
    returns the integer read from the first three characters of that line
    and all lines taken, joined by newlines; what follows in the stream is
    left unread. With no line before the final one, one line is read. *)
Theorem read_response_returns {L : PyLib} (st : St) (pre : list string)
        (last : string) (rest : list RxEvent) (code : Z) :
  _file (self st) <> None ->
  rx (world st) = map RxLine pre ++ RxLine last :: rest ->
  Forall continues pre ->
  terminates last ->
  py_int (PyStr.prefix 3 (PyStr.rstrip last)) = Some code ->
  SMTPClient._read_response st
  = (Returned (code, PyStr.join PyStr.NL (map PyStr.rstrip (pre ++ [last]))),
     advance st [] rest).
Proof.
  intros Hf Hrx Hpre Hlast Hint.
  apply read_response_block with (blk := map RxLine pre ++ [RxLine last]).
  - exact Hf.
  - now apply reply_block_intro.
  - rewrite Hrx, <- app_assoc. reflexivity.
Qed.

Lemma read_response_returns_witness :
  SMTPClient._read_response (L := example_lib)
    (session_on [line "250-first"; line "250 ok"; line "354 next"])
  = (Returned (250%Z, ("250-first" ++ PyStr.NL ++ "250 ok")%string),
     advance (session_on [line "250-first"; line "250 ok"; line "354 next"])
             [] [line "354 next"]).
Proof.
  apply (read_response_returns (L := example_lib)
           (session_on [line "250-first"; line "250 ok"; line "354 next"])
           [("250-first" ++ PyStr.CRLF)%string] ("250 ok" ++ PyStr.CRLF)%string
           [line "354 next"] 250%Z).
  - discriminate.
  - reflexivity.
  - repeat constructor.
  - reflexivity.
  - reflexivity.
Defined.

Lemma read_lines_at_eof (pre : list string) : forall acc,
  Forall continues pre ->
  fst (SMTPClient.read_lines (map RxLine pre) acc) = Diverges.
Proof.
  induction pre as [|raw pre IH]; intros acc Hpre; cbn; [reflexivity|].
  inversion Hpre as [|? ? Hraw Hpre']; subst.
  unfold continues in Hraw. rewrite Hraw. now apply IH.
Qed.

(** X1: The reader never returns when the stream ends before a final line. *)
Lemma read_response_at_eof {L : PyLib} (st : St) (pre : list string) :
  _file (self st) <> None ->
  rx (world st) = map RxLine pre ->
  Forall continues pre ->
  fst (SMTPClient._read_response st) = Diverges.
Proof.
  intros Hf Hrx Hpre. unfold SMTPClient._read_response.
  destruct (_file (self st)); [|congruence]. rewrite Hrx.
  pose proof (read_lines_at_eof pre [] Hpre) as G.
  destruct (SMTPClient.read_lines _ _) as [o r].
  cbn in G. now subst.
Qed.

(** X2: The reader raises [ValueError] when [int] rejects the first three
    characters of the final line. *)
Lemma read_response_bad_code {L : PyLib} (st : St) (pre : list string)
      (last : string) (rest : list RxEvent) :
  _file (self st) <> None ->
  rx (world st) = map RxLine pre ++ RxLine last :: rest ->
  Forall continues pre ->
  terminates last ->
  py_int (PyStr.prefix 3 (PyStr.rstrip last)) = None ->
  SMTPClient._read_response st = (Raised ValueError, advance st [] rest).
Proof.
  intros Hf Hrx Hpre Hlast Hint. unfold SMTPClient._read_response.
  destruct (_file (self st)); [|congruence].
  rewrite Hrx, read_lines_block by assumption. cbn [app].
  rewrite last_snoc, Hint.
  unfold advance, set_rx. now rewrite app_nil_r.
Qed.

Lemma rcpt_loop_issued {L : PyLib} (recipients : list string) :
  forall st blks replies rest,
    ready st ->
    reply_blocks blks replies ->
    rcpt_replies recipients replies = true ->
    rx (world st) = List.concat blks ++ rest ->
    SMTPClient.rcpt_loop recipients st =
    match first_rejected recipients replies with
    | None => (Returned tt, advance st (map rcpt_cmd recipients) rest)
    | Some (i, r, text) =>
        (Raised (SMTPError ("RCPT TO failed for " ++ r ++ ": " ++ text)),
         advance st (map rcpt_cmd (firstn (S i) recipients)) rest)
    end.
Proof.
  induction recipients as [|r rs IH]; intros st blks replies rest Hr Hb Hok Hrx.
  - destruct replies; [|discriminate]. inversion Hb; subst. cbn in *.
    rewrite <- Hrx. now rewrite advance_nil.
  - destruct replies as [|[code text] replies']; [discriminate|].
    inversion Hb as [|blk ? blks' ? Hblk Hb']; subst. cbn [fst snd] in Hblk.
    cbn [List.concat] in Hrx. rewrite <- app_assoc in Hrx.
    cbn [SMTPClient.rcpt_loop first_rejected rcpt_replies] in *.
    unfold bind at 1.
    erewrite command_block; [ | exact Hr | exact Hblk | exact Hrx ].
    unfold accepted in *.
    destruct (Z.eqb code 250) eqn:E0, (Z.eqb code 251) eqn:E1;
      cbn [negb andb orb] in *;
      try (rewrite (IH _ blks' replies' rest);
           [ | now apply advance_ready | exact Hb' | exact Hok | reflexivity ];
           destruct (first_rejected rs replies') as [[[i r'] text']|];
           rewrite advance_advance; reflexivity).
    destruct replies'; [|discriminate]. inversion Hb'; subst.
    reflexivity.
Qed.

(** What [first_rejected] finds: the recipient at that position, whose reply
    is not accepted, after replies that all are. *)
Lemma first_rejected_spec (recipients : list string) :
  forall replies i r text,
    first_rejected recipients replies = Some (i, r, text) ->
    nth_error recipients i = Some r
    /\ (exists code, nth_error replies i = Some (code, text)
                     /\ accepted code = false)
    /\ forallb (fun a => accepted (fst a)) (firstn i replies) = true.
Proof.
  induction recipients as [|r0 rs IH]; intros [|[code t] replies] i r text H;
    cbn in H; try discriminate.
  destruct (accepted code) eqn:Ea.
  - destruct (first_rejected rs replies) as [[[i' r'] t']|] eqn:Ef;
      [|discriminate].
    injection H as <- <- <-.
    destruct (IH replies i' r' t' Ef) as (H1 & H2 & H3).
    cbn. rewrite Ea. now repeat split.
  - injection H as <- <- <-. cbn. repeat split. now exists code.
Qed.

(** C4: after an accepted MAIL FROM, [send] writes one RCPT TO command per
    recipient, in the order [to ++ cc ++ bcc], and reads one reply to each.
    [replies] are the replies to the commands that are sent. When every
    reply is 250 or 251 there is one per recipient, all the commands have
    been written and [send] goes on with DATA. Otherwise the replies end with
    the first that is neither: the commands written are those up to and
    including that recipient, none for a later one, and [send] raises
    [SMTPError] with the address of that recipient and the text of the
    reply. *)
Theorem send_rcpt_commands {L : PyLib} (config : SMTPConfig) (email : Email)
        (st : St) (mail_blk : list RxEvent) (mail_text : string)
        (blks : list (list RxEvent)) (replies : list (Z * string))
        (rest : list RxEvent) :
  ready st ->
  reply_block mail_blk 250 mail_text ->
  reply_blocks blks replies ->
  rcpt_replies (recipients_of email) replies = true ->
  rx (world st) = mail_blk ++ List.concat blks ++ rest ->
  match first_rejected (recipients_of email) replies with
  | None =>
      SMTPClient.send config email st
      = SMTPClient.data_step config email
          (advance st (mail_cmd config email
                         :: map rcpt_cmd (recipients_of email)) rest)
  | Some (i, r, text) =>
      nth_error (recipients_of email) i = Some r
      /\ (exists code, nth_error replies i = Some (code, text)
                       /\ accepted code = false)
      /\ forallb (fun a => accepted (fst a)) (firstn i replies) = true
      /\ SMTPClient.send config email st
         = (Raised (SMTPError ("RCPT TO failed for " ++ r ++ ": " ++ text)),
            advance st
              (mail_cmd config email
                 :: map rcpt_cmd (firstn (S i) (recipients_of email)))
              rest)
  end.
Proof.
  intros Hr Hm Hb Hok Hrx.
  assert (E : SMTPClient.send config email st
              = match first_rejected (recipients_of email) replies with
                | None =>
                    SMTPClient.data_step config email
                      (advance st (mail_cmd config email
                                     :: map rcpt_cmd (recipients_of email)) rest)
                | Some (i, r, text) =>
                    (Raised (SMTPError
                               ("RCPT TO failed for " ++ r ++ ": " ++ text)),
                     advance st
                       (mail_cmd config email
                          :: map rcpt_cmd (firstn (S i) (recipients_of email)))
                       rest)
                end).
  { unfold SMTPClient.send. fold (recipients_of email).
    unfold bind at 1.
    erewrite mail_from_script; [ | exact Hr | exact Hm | exact Hrx ].
    cbn [Z.eqb negb Pos.eqb].
    unfold bind at 1.
    erewrite rcpt_loop_issued;
      [ | now apply advance_ready | exact Hb | exact Hok | reflexivity ].
    destruct (first_rejected (recipients_of email) replies)
      as [[[i r] text]|]; now rewrite advance_advance. }
  pose proof (first_rejected_spec (recipients_of email) replies) as S.
  destruct (first_rejected (recipients_of email) replies) as [[[i r] text]|];
    [|exact E].
  destruct (S i r text eq_refl) as (S1 & S2 & S3).
  repeat split; assumption.
Qed.

Ltac scripted pre last code :=
  exact (reply_block_intro (L := example_lib) pre last code
           ltac:(repeat constructor) eq_refl eq_refl).

Ltac is_ready := repeat split; (discriminate || reflexivity).

(** A session that ends with the reply that rejects the second of three
    recipients. *)
Lemma send_rcpt_commands_witness :
  SMTPClient.send (L := example_lib) cfg0 mail_three
    (session_on [line "250 ok"; line "250 ok"; line "550 no"])
  = (Raised (SMTPError "RCPT TO failed for c@d.com: 550 no"),
     advance
       (session_on [line "250 ok"; line "250 ok"; line "550 no"])
       [mail_cmd cfg0 mail_three; rcpt_cmd "a@b.com"; rcpt_cmd "c@d.com"]
       []).
Proof.
  apply (send_rcpt_commands (L := example_lib) cfg0 mail_three
           (session_on [line "250 ok"; line "250 ok"; line "550 no"])
           [line "250 ok"] "250 ok"
           [[line "250 ok"]; [line "550 no"]]
           [(250%Z, "250 ok"); (550%Z, "550 no")]
           []).
  - is_ready.
  - scripted (@nil string) ("250 ok" ++ PyStr.CRLF)%string 250%Z.
  - repeat constructor.
    + scripted (@nil string) ("250 ok" ++ PyStr.CRLF)%string 250%Z.
    + scripted (@nil string) ("550 no" ++ PyStr.CRLF)%string 550%Z.
  - reflexivity.
  - reflexivity.
Defined.

(* ================================================================= *)
(** ** What the calls leave untouched *)

Section Carries.

Variable R : St -> St -> Prop.
Hypothesis R_refl : forall st, R st st.
Hypothesis R_trans : forall a b c, R a b -> R b c -> R a c.

Lemma carries_ret A (a : A) : carries R (ret a).
Proof. intros st. apply R_refl. Qed.

Lemma carries_raise A (e : exn) : carries R (@raise A e).
Proof. intros st. apply R_refl. Qed.

Lemma carries_lift A (o : outcome A) : carries R (SMTPClient.lift o).
Proof. intros st. apply R_refl. Qed.

Lemma carries_bind A B (m : M A) (k : A -> M B) :
  carries R m -> (forall a, carries R (k a)) -> carries R (bind m k).
Proof.
  intros Hm Hk st. unfold bind. specialize (Hm st).
  destruct (m st) as [[a| |] st1]; cbn in *; auto.
  eapply R_trans; [exact Hm | apply Hk].
Qed.

Lemma carries_try_pass A (m : M A) : carries R m -> carries R (try_pass m).
Proof.
  intros Hm st. unfold try_pass. specialize (Hm st).
  destruct (m st) as [[a| |] st1]; cbn in *; auto.
Qed.

Lemma carries_if A (b : bool) (m1 m2 : M A) :
  carries R m1 -> carries R m2 -> carries R (if b then m1 else m2).
Proof. now destruct b. Qed.

Context {L : PyLib}.
Hypothesis R_sendall : forall data, carries R (sendall data).
Hypothesis R_read : carries R SMTPClient._read_response.

Lemma carries_command cmd : carries R (SMTPClient._command cmd).
Proof. apply carries_bind; auto. Qed.

Lemma carries_rcpt_loop recipients : carries R (SMTPClient.rcpt_loop recipients).
Proof.
  induction recipients as [|r rs IH]; cbn [SMTPClient.rcpt_loop].
  - apply carries_ret.
  - apply carries_bind; [apply carries_command|].
    intros [code msg]. apply carries_if; [apply carries_raise | exact IH].
Qed.

Lemma carries_data_tail config email (r : Z * string) :
  carries R
    (let (code, msg) := r in
     if negb (Z.eqb code 354) then raise (SMTPError ("DATA failed: " ++ msg))
     else
       bind (SMTPClient.lift (SMTPClient._build_message config email))
         (fun message =>
            bind (sendall message)
              (fun _ =>
                 bind (SMTPClient._command ".")
                   (fun r =>
                      let (code, msg) := r in
                      if negb (Z.eqb code 250)
                      then raise (SMTPError ("Send failed: " ++ msg))
                      else ret true)))).
Proof.
  destruct r as [code msg].
  apply carries_if; [apply carries_raise|].
  apply carries_bind; [apply carries_lift|]. intros message.
  apply carries_bind; [apply R_sendall|]. intros _.
  apply carries_bind; [apply carries_command|]. intros [c m].
  apply carries_if; [apply carries_raise | apply carries_ret].
Qed.

Lemma carries_data_step config email :
  carries R (SMTPClient.data_step config email).
Proof.
  unfold SMTPClient.data_step.
  apply carries_bind; [apply carries_command|].
  apply carries_data_tail.
Qed.

Lemma carries_send config email : carries R (SMTPClient.send config email).
Proof.
  unfold SMTPClient.send.
  apply carries_bind.
  - unfold SMTPClient.mail_from_step.
    apply carries_bind; [apply carries_command|]. intros [code msg].
    apply carries_if; [apply carries_raise | apply carries_ret].
  - intros _. apply carries_bind; [apply carries_rcpt_loop|].
    intros _. apply carries_data_step.
Qed.

End Carries.

Section Frames.

Context {L : PyLib}.

Lemma tx_grows_refl st : tx_grows st st.
Proof. exists []. now rewrite app_nil_r. Qed.

Lemma tx_grows_trans a b c : tx_grows a b -> tx_grows b c -> tx_grows a c.
Proof.
  intros [l1 H1] [l2 H2]. exists (l1 ++ l2). now rewrite H2, H1, app_assoc.
Qed.

Lemma sendall_tx_grows data : carries tx_grows (sendall data).
Proof.
  intros st. unfold sendall.
  destruct (_socket (self st)) as [h|]; [|apply tx_grows_refl].
  destruct (is_detached (world st) h); [apply tx_grows_refl|].
  destruct (tx_budget (world st)) as [[|n]|]; cbn;
    first [apply tx_grows_refl | now exists [data]].
Qed.

Lemma read_response_tx_grows : carries tx_grows SMTPClient._read_response.
Proof.
  intros st. unfold SMTPClient._read_response.
  destruct (_file (self st)); [|apply tx_grows_refl].
  destruct (SMTPClient.read_lines _ _) as [[lines| |] rest];
    try destruct (py_int _); exists []; cbn; now rewrite app_nil_r.
Qed.

Lemma holds_socket_refl h st : holds_socket h st st.
Proof. now intros H. Qed.

Lemma holds_socket_trans h a b c :
  holds_socket h a b -> holds_socket h b c -> holds_socket h a c.
Proof.
  intros H1 H2 Ha. destruct (H1 Ha) as [Hb E1]. destruct (H2 Hb) as [Hc E2].
  split; congruence.
Qed.

Lemma sendall_holds_socket h data : carries (holds_socket h) (sendall data).
Proof.
  intros st Hs. unfold sendall. rewrite Hs.
  destruct (is_detached (world st) h); [now split|].
  destruct (tx_budget (world st)) as [[|n]|]; cbn; now split.
Qed.

Lemma read_response_holds_socket h :
  carries (holds_socket h) SMTPClient._read_response.
Proof.
  intros st Hs. unfold SMTPClient._read_response.
  destruct (_file (self st)); [|now split].
  destruct (SMTPClient.read_lines _ _) as [[lines| |] rest];
    try destruct (py_int _); now split.
Qed.

End Frames.

Ltac tx_frame :=
  first [ exact tx_grows_refl | exact tx_grows_trans
        | exact sendall_tx_grows | exact read_response_tx_grows ].

Ltac socket_frame h :=
  first [ exact (holds_socket_refl h) | exact (holds_socket_trans h)
        | exact (sendall_holds_socket h) | exact (read_response_holds_socket h) ].

(* ================================================================= *)
(** ** Empty recipient lists, [close], and the scope of the socket *)

Lemma data_step_writes_DATA {L : PyLib} (config : SMTPConfig) (email : Email)
      (st : St) :
  ready st ->
  exists later,
    tx (world (snd (SMTPClient.data_step config email st)))
    = tx (world st) ++ DATA_CMD :: later.
Proof.
  intros Hr.
  pose proof (carries_bind tx_grows tx_grows_trans) as B.
  assert (T : forall st1,
             tx_grows st1
               (snd (bind SMTPClient._read_response
                       (fun r : Z * string =>
                          let (code, msg) := r in
                          if negb (Z.eqb code 354)
                          then raise (SMTPError ("DATA failed: " ++ msg))
                          else
                            bind (SMTPClient.lift
                                    (SMTPClient._build_message config email))
                              (fun message =>
                                 bind (sendall message)
                                   (fun _ =>
                                      bind (SMTPClient._command ".")
                                        (fun r =>
                                           let (code, msg) := r in
                                           if negb (Z.eqb code 250)
                                           then raise (SMTPError
                                                         ("Send failed: " ++ msg))
                                           else ret true)))) st1))).
  { apply B; [apply read_response_tx_grows|].
    intros r. apply carries_data_tail; tx_frame. }
  destruct (T (advance st [DATA_CMD] (rx (world st)))) as [later E].
  exists later.
  unfold SMTPClient.data_step, SMTPClient._command.
  unfold bind at 1. unfold bind at 1.
  rewrite sendall_ready by exact Hr.
  unfold bind in E at 1.
  etransitivity; [exact E|].
  cbn. now rewrite <- app_assoc.
Qed.

(** C10: with empty [to], [cc] and [bcc], and MAIL FROM accepted, [send]
    raises nothing for the missing recipients: it goes from MAIL FROM straight
    to the DATA phase, so that the log holds the MAIL FROM command followed
    at once by the DATA command, and no RCPT TO. *)
Theorem send_without_recipients {L : PyLib} (config : SMTPConfig)
        (email : Email) (st : St) (mail_blk : list RxEvent)
        (mail_text : string) (rest : list RxEvent) :
  ready st ->
  to email = [] -> cc email = [] -> bcc email = [] ->
  reply_block mail_blk 250 mail_text ->
  rx (world st) = mail_blk ++ rest ->
  SMTPClient.send config email st
  = SMTPClient.data_step config email (advance st [mail_cmd config email] rest)
  /\ exists later,
       tx (world (snd (SMTPClient.send config email st)))
       = tx (world st) ++ [mail_cmd config email; DATA_CMD] ++ later.
Proof.
  intros Hr Hto Hcc Hbcc Hm Hrx.
  assert (Hn : recipients_of email = []).
  { unfold recipients_of. now rewrite Hto, Hcc, Hbcc. }
  pose proof (send_script_rcpt config email st mail_blk mail_text [] [] rest
                Hr Hm (Forall2_nil _)) as E.
  rewrite Hn in E. specialize (E eq_refl Hrx).
  cbn [first_rejected map] in E.
  split; [exact E|].
  rewrite E.
  destruct (data_step_writes_DATA config email
              (advance st [mail_cmd config email] rest)
              (advance_ready st _ _ Hr)) as [later G].
  exists later. rewrite G. cbn. now rewrite <- app_assoc.
Qed.

Lemma send_without_recipients_witness :
  exists later,
    tx (world (snd (SMTPClient.send (L := example_lib) cfg0 mail_nobody
                      (session_on [line "250 ok"; line "354 go";
                                   line "250 queued"]))))
    = [] ++ [mail_cmd cfg0 mail_nobody; DATA_CMD] ++ later.
Proof.
  apply (send_without_recipients (L := example_lib) cfg0 mail_nobody
           (session_on [line "250 ok"; line "354 go"; line "250 queued"])
           [line "250 ok"] "250 ok" [line "354 go"; line "250 queued"]).
  - is_ready.
  - reflexivity.
  - reflexivity.
  - reflexivity.
  - scripted (@nil string) ("250 ok" ++ PyStr.CRLF)%string 250%Z.
  - reflexivity.
Defined.

(** *** [close] *)

Lemma bump_app (l l' : list Sock) (k : nat) :
  bump (List.length l + k) (l ++ l') = l ++ bump k l'.
Proof. induction l as [|x l IH]; cbn; [reflexivity | now rewrite IH]. Qed.

Lemma detach_app (l l' : list Sock) (k : nat) :
  detach (List.length l + k) (l ++ l') = l ++ detach k l'.
Proof. induction l as [|x l IH]; cbn; [reflexivity | now rewrite IH]. Qed.

Lemma nth_app_plus (l l' : list Sock) (k : nat) (d : Sock) :
  nth (List.length l + k) (l ++ l') d = nth k l' d.
Proof. induction l as [|x l IH]; cbn; [reflexivity | exact IH]. Qed.

Lemma bump_close_calls (h : nat) : forall (l : list Sock),
  h < List.length l ->
  closes (nth h (bump h l) (owning 0)) = S (closes (nth h l (owning 0))).
Proof.
  induction h as [|h IH]; intros [|n l] Hl; cbn in *; try lia.
  apply IH. lia.
Qed.

Lemma bump_length (h : nat) : forall (l : list Sock),
  List.length (bump h l) = List.length l.
Proof.
  induction h as [|h IH]; intros [|n l]; cbn; try reflexivity.
  now rewrite IH.
Qed.

Lemma command_holds_socket {L : PyLib} (h : nat) (cmd : string) :
  carries (holds_socket h) (SMTPClient._command cmd).
Proof.
  apply carries_command;
    [ exact (holds_socket_trans h) | exact (sendall_holds_socket h)
    | exact (read_response_holds_socket h) ].
Qed.

(** [close] ends in one of two ways: the QUIT exchange never ends, and
    then [close] never returns and no socket is closed; or [close] returns
    after one [close()] on the socket it holds. *)
Lemma close_cases {L : PyLib} (st : St) :
  (fst (SMTPClient._command "QUIT" st) = Diverges
   /\ fst (SMTPClient.close st) = Diverges
   /\ forall h,
        _socket (self st) = Some h ->
        socks (world (snd (SMTPClient.close st))) = socks (world st))
  \/ (fst (SMTPClient._command "QUIT" st) <> Diverges
      /\ fst (SMTPClient.close st) = Returned tt
      /\ forall h,
           _socket (self st) = Some h ->
           socks (world (snd (SMTPClient.close st)))
           = bump h (socks (world st))).
Proof.
  unfold SMTPClient.close, bind, try_pass, get_socket, socket_close, ret.
  pose proof (fun h => command_holds_socket h "QUIT" st) as F.
  destruct (SMTPClient._command "QUIT" st) as [[r|e|] st1]; cbn in F |- *.
  - right. split; [discriminate|].
    split; [now destruct (_socket (self st1))|].
    intros h Hs. destruct (F h Hs) as [-> ->]. reflexivity.
  - right. split; [discriminate|].
    split; [now destruct (_socket (self st1))|].
    intros h Hs. destruct (F h Hs) as [-> ->]. reflexivity.
  - left. split; [reflexivity|]. split; [reflexivity|].
    intros h Hs. now destruct (F h Hs).
Qed.

(** C7, evaluated where it fails: the peer has closed the connection, so the
    reader is at the end of the stream when [close] waits for the reply to
    QUIT. [close] writes QUIT and then never returns: [readline()] gives the
    empty string again and again and the loop of [_read_response] has no
    test for it. Nothing is raised, but line 176 is not reached either: the
    socket that was opened has received no [close()]. The same happens when
    the stream ends in the middle of the reply. *)
Theorem close_hangs_at_end_of_stream :
  (fst (SMTPClient.close (L := example_lib) (session_on [])) = Diverges
   /\ tx (world (snd (SMTPClient.close (L := example_lib) (session_on []))))
      = [QUIT_CMD]
   /\ socks (world (snd (SMTPClient.close (L := example_lib) (session_on []))))
      = [owning 0])
  /\ (fst (SMTPClient.close (L := example_lib)
             (session_on [line "221-closing"])) = Diverges
      /\ socks (world (snd (SMTPClient.close (L := example_lib)
                              (session_on [line "221-closing"]))))
         = [owning 0]).
Proof. repeat split. Qed.

(** X29: [close] raises nothing, in no state: a response to QUIT that [int]
    rejects, a write or a read that fails, a client without a socket are all
    passed over. Whenever the QUIT exchange comes to an end, by a response
    or by any exception, [close] returns, and a socket held in
    [self._socket] has then received one more [close()] call. When the
    exchange does not come to an end, [close] does not return and no
    [close()] call is made. *)
Theorem close_raises_nothing {L : PyLib} (st : St) :
  (forall e, fst (SMTPClient.close st) <> Raised e)
  /\ (fst (SMTPClient._command "QUIT" st) <> Diverges ->
      fst (SMTPClient.close st) = Returned tt
      /\ forall h,
           _socket (self st) = Some h ->
           h < List.length (socks (world st)) ->
           close_calls (world (snd (SMTPClient.close st))) h
           = S (close_calls (world st) h))
  /\ (fst (SMTPClient._command "QUIT" st) = Diverges ->
      fst (SMTPClient.close st) = Diverges
      /\ forall h,
           _socket (self st) = Some h ->
           close_calls (world (snd (SMTPClient.close st))) h
           = close_calls (world st) h).
Proof.
  destruct (close_cases st) as [(Hq & Hc & Hs) | (Hq & Hc & Hs)].
  - split; [intros e; congruence|]. split; [congruence|].
    intros _. split; [exact Hc|].
    intros h Hh. unfold close_calls. now rewrite (Hs h Hh).
  - split; [intros e; congruence|]. split; [|congruence].
    intros _. split; [exact Hc|].
    intros h Hh Hl. unfold close_calls. rewrite (Hs h Hh).
    now apply bump_close_calls.
Qed.

(** [close] on a session whose peer answers QUIT with a line that [int]
    rejects, and on one whose read fails: it returns after one [close()] on
    the socket, and raises nothing. *)
Lemma close_raises_nothing_witness :
  (fst (SMTPClient.close (L := example_lib) (session_on [line "bye now"]))
   = Returned tt
   /\ close_calls
        (world (snd (SMTPClient.close (L := example_lib)
                       (session_on [line "bye now"])))) 0 = 1)
  /\ forall e,
       fst (SMTPClient.close (L := example_lib)
              (session_on [RxRaise OSError])) <> Raised e.
Proof.
  split.
  - destruct (proj1 (proj2 (close_raises_nothing (L := example_lib)
                              (session_on [line "bye now"]))))
      as [H1 H2]; [discriminate|].
    split; [exact H1|].
    exact (H2 0 eq_refl (le_n 1)).
  - exact (proj1 (close_raises_nothing (L := example_lib)
                    (session_on [RxRaise OSError]))).
Defined.

(** *** The socket across [connect] and the [with] statement *)

Section Scope.

Context {L : PyLib}.
Variable config : SMTPConfig.

Ltac settle :=
  repeat split; cbn [fst snd] in *;
  first [ assumption | now (intros; discriminate) | congruence ].

Lemma same_tls_refl st : same_tls st st.
Proof. reflexivity. Qed.

Lemma same_tls_trans a b c : same_tls a b -> same_tls b c -> same_tls a c.
Proof. unfold same_tls. congruence. Qed.

Lemma sendall_same_tls data : carries same_tls (sendall data).
Proof.
  intros st. unfold sendall, same_tls.
  destruct (_socket (self st)) as [h|]; [|reflexivity].
  destruct (is_detached (world st) h); [reflexivity|].
  destruct (tx_budget (world st)) as [[|n]|]; reflexivity.
Qed.

Lemma read_response_same_tls : carries same_tls SMTPClient._read_response.
Proof.
  intros st. unfold SMTPClient._read_response, same_tls.
  destruct (_file (self st)); [|reflexivity].
  destruct (SMTPClient.read_lines _ _) as [[lines| |] rest];
    try destruct (py_int _); reflexivity.
Qed.

(** What an exchange leaves as it was: the socket the client holds, the
    sockets of the environment, and the fate of the TLS handshake. *)
Lemma command_frame (h : nat) (cmd : string) (st : St) :
  _socket (self st) = Some h ->
  _socket (self (snd (SMTPClient._command cmd st))) = Some h
  /\ socks (world (snd (SMTPClient._command cmd st))) = socks (world st)
  /\ tls_ok (world (snd (SMTPClient._command cmd st))) = tls_ok (world st).
Proof.
  intros Hs. destruct (command_holds_socket h cmd st Hs) as [H1 H2].
  repeat split; [exact H1 | exact H2 |].
  apply (carries_command same_tls same_tls_trans sendall_same_tls
           read_response_same_tls).
Qed.

Lemma read_response_frame (h : nat) (st : St) :
  _socket (self st) = Some h ->
  _socket (self (snd (SMTPClient._read_response st))) = Some h
  /\ socks (world (snd (SMTPClient._read_response st))) = socks (world st)
  /\ tls_ok (world (snd (SMTPClient._read_response st))) = tls_ok (world st).
Proof.
  intros Hs. destruct (read_response_holds_socket h st Hs) as [H1 H2].
  repeat split; [exact H1 | exact H2 | apply read_response_same_tls].
Qed.

Lemma auth_login_holds_socket h :
  carries (holds_socket h) (SMTPClient.auth_login config).
Proof.
  unfold SMTPClient.auth_login.
  repeat (apply (carries_bind (holds_socket h) (holds_socket_trans h));
          [apply command_holds_socket | intros _]).
  apply (carries_ret (holds_socket h) (holds_socket_refl h)).
Qed.

(** The TLS upgrade, started by a client that holds socket [h]. Either the
    STARTTLS exchange does not come to a response and nothing happens to the
    sockets; or the wrapper is made and the client holds it from then on; or
    the handshake fails, and the client is left with the detached socket
    next to a wrapper that has been closed. *)
Lemma starttls_frame (h : nat) (st : St) :
  _socket (self st) = Some h ->
  ((forall u, fst (SMTPClient.starttls h st) <> Returned u)
   /\ _socket (self (snd (SMTPClient.starttls h st))) = Some h
   /\ socks (world (snd (SMTPClient.starttls h st))) = socks (world st))
  \/ (tls_ok (world st) = true
      /\ _socket (self (snd (SMTPClient.starttls h st)))
         = Some (List.length (socks (world st)))
      /\ socks (world (snd (SMTPClient.starttls h st)))
         = detach h (socks (world st)) ++ [owning 0])
  \/ (tls_ok (world st) = false
      /\ fst (SMTPClient.starttls h st) = Raised OSError
      /\ _socket (self (snd (SMTPClient.starttls h st))) = Some h
      /\ socks (world (snd (SMTPClient.starttls h st)))
         = detach h (socks (world st)) ++ [owning 1]).
Proof.
  intros Hs. remember (SMTPClient.starttls h st) as r eqn:Er.
  unfold SMTPClient.starttls in Er. unfold bind at 1 in Er.
  destruct (command_frame h "STARTTLS" st Hs) as (F1 & F2 & F3).
  destruct (SMTPClient._command "STARTTLS" st) as [[v|e|] s1];
    cbn [fst snd] in *.
  2,3: subst r; left; settle.
  unfold bind at 1, wrap_socket in Er. rewrite F3, F2 in Er.
  destruct (tls_ok (world st)) eqn:Et.
  - right. left. split; [reflexivity|].
    unfold bind at 1, set_socket in Er. unfold bind at 1, set_file in Er.
    match type of Er with
    | context [bind (SMTPClient._command ?c) ?k ?s] =>
        destruct (command_frame (List.length (socks (world st))) c s eq_refl)
          as (G1 & G2 & _);
        unfold bind in Er;
        destruct (SMTPClient._command c s) as [[v2|e2|] s2]
    end; subst r; cbn [fst snd ret] in *; split; assumption.
  - subst r. right. right.
    cbn [fst snd with_world self world set_socks socks].
    repeat split. exact F1.
Qed.

Lemma detach_last (l : list Sock) (n : nat) :
  detach (List.length l) (l ++ [owning n]) = l ++ [gone n].
Proof.
  rewrite <- (Nat.add_0_r (List.length l)), detach_app. reflexivity.
Qed.

(** However [connect] ends, the sockets that were there are as they were and
    one of three things has happened. The client holds the socket of line
    76, which has not been closed, and no wrapper has been made; with
    [use_tls] this is not a [connect] that returns. Or the TLS upgrade has
    replaced that socket by a wrapper, which the client holds and which has
    not been closed. Or the TLS handshake has failed: [connect] raises
    [OSError], the wrapper has been closed, and the client holds the
    detached socket. *)
Lemma connect_frame (w : World) :
  (_socket (self (snd (SMTPClient.connect config (fresh w))))
   = Some (List.length (socks w))
   /\ socks (world (snd (SMTPClient.connect config (fresh w))))
      = socks w ++ [owning 0]
   /\ (use_tls config = true ->
       forall u, fst (SMTPClient.connect config (fresh w)) <> Returned u))
  \/ (use_tls config = true
      /\ tls_ok w = true
      /\ _socket (self (snd (SMTPClient.connect config (fresh w))))
         = Some (S (List.length (socks w)))
      /\ socks (world (snd (SMTPClient.connect config (fresh w))))
         = socks w ++ [gone 0; owning 0])
  \/ (use_tls config = true
      /\ tls_ok w = false
      /\ fst (SMTPClient.connect config (fresh w)) = Raised OSError
      /\ _socket (self (snd (SMTPClient.connect config (fresh w))))
         = Some (List.length (socks w))
      /\ socks (world (snd (SMTPClient.connect config (fresh w))))
         = socks w ++ [gone 0; owning 1]).
Proof.
  remember (SMTPClient.connect config (fresh w)) as r eqn:Er.
  change (SMTPClient.connect config (fresh w))
    with (SMTPClient.handshake config (List.length (socks w)) (opened w None))
    in Er.
  unfold SMTPClient.handshake in Er. unfold bind at 1, socket_connect in Er.
  cbn [opened world connect_ok] in Er.
  destruct (connect_ok w).
  2:{ subst r. left. settle. }
  unfold bind at 1, set_file in Er.
  change (with_self _ _) with (opened w (Some (List.length (socks w)))) in Er.
  unfold bind at 1 in Er.
  destruct (read_response_frame (List.length (socks w)) (opened w (Some (List.length (socks w)))) eq_refl)
    as (A1 & A2 & A3).
  cbn [opened world socks tls_ok] in A2, A3.
  destruct (SMTPClient._read_response (opened w (Some (List.length (socks w))))) as [[v1|e1|] s1];
    cbn [fst snd] in *.
  2,3: subst r; left; settle.
  unfold bind at 1 in Er.
  destruct (command_frame (List.length (socks w)) "EHLO localhost" s1 A1) as (B1 & B2 & B3).
  destruct (SMTPClient._command "EHLO localhost" s1) as [[v2|e2|] s2];
    cbn [fst snd] in *.
  2,3: subst r; left; settle.
  rewrite A2 in B2. rewrite A3 in B3.
  unfold bind at 1 in Er.
  destruct (use_tls config) eqn:Eu.
  - destruct (starttls_frame (List.length (socks w)) s2 B1)
      as [(T0 & T1 & T2) | [(T0 & T1 & T2) | (T0 & T3 & T1 & T2)]];
      rewrite ?B2, ?B3 in *.
    + left.
      destruct (SMTPClient.starttls (List.length (socks w)) s2) as [[u| |] s3]; cbn [fst snd] in *;
        [ now destruct (T0 u) | subst r; settle .. ].
    + right. left. split; [reflexivity|]. split; [exact T0|].
      rewrite length_app, Nat.add_1_r in T1.
      destruct (SMTPClient.starttls (List.length (socks w)) s2) as [[u| |] s3]; cbn [fst snd] in *;
        rewrite detach_last, <- app_assoc in T2;
        cbn [app] in T2;
        [ | subst r; split; assumption .. ].
      match type of Er with
      | context [(if ?b then ?m1 else ?m2) s3] =>
          assert (Hk : holds_socket (S (List.length (socks w))) s3
                         (snd ((if b then m1 else m2) s3)))
            by (destruct b;
                [ apply auth_login_holds_socket | apply holds_socket_refl ])
      end.
      destruct (Hk T1) as [K1 K2]. subst r. split; congruence.
    + right. right. split; [reflexivity|]. split; [exact T0|].
      destruct (SMTPClient.starttls (List.length (socks w)) s2) as [[u| |] s3]; cbn [fst snd] in *;
        try discriminate.
      rewrite detach_last, <- app_assoc in T2.
      cbn [app] in T2.
      subst r. repeat split; assumption.
  - left. unfold ret at 1 in Er.
    match type of Er with
    | context [(if ?b then ?m1 else ?m2) s2] =>
        assert (Hk : holds_socket (List.length (socks w)) s2 (snd ((if b then m1 else m2) s2)))
          by (destruct b;
              [ apply auth_login_holds_socket | apply holds_socket_refl ])
    end.
    destruct (Hk B1) as [K1 K2]. subst r. settle.
Qed.

(** The socket the client holds once [connect] has returned: the wrapper
    when [use_tls] is set, the socket of line 76 otherwise. *)
Lemma connect_returned (w : World) (st1 : St) :
  SMTPClient.connect config (fresh w) = (Returned tt, st1) ->
  _socket (self st1)
  = Some (if use_tls config then S (List.length (socks w))
          else List.length (socks w))
  /\ socks (world st1)
     = socks w ++ (if use_tls config then [gone 0; owning 0] else [owning 0]).
Proof.
  intros Hc.
  destruct (connect_frame w)
    as [(F1 & F2 & F3) | [(Hu & _ & F1 & F2) | (_ & _ & F3 & _)]];
    rewrite Hc in *; cbn [fst snd] in *.
  - destruct (use_tls config); [now destruct (F3 eq_refl tt) | now split].
  - rewrite Hu. now split.
  - discriminate.
Qed.

Lemma bump_held (w : World) :
  bump (if use_tls config then S (List.length (socks w))
        else List.length (socks w))
       (socks w ++ (if use_tls config then [gone 0; owning 0] else [owning 0]))
  = socks w ++ closed_sockets config.
Proof.
  unfold closed_sockets. destruct (use_tls config).
  - rewrite <- (Nat.add_1_r (List.length (socks w))), bump_app. reflexivity.
  - rewrite <- (Nat.add_0_r (List.length (socks w))), bump_app. reflexivity.
Qed.

(** When [connect] returns, [__exit__] runs after the body: if the helper
    comes to an end at all, the socket the client held has received exactly
    one [close()]. *)
Lemma exit_closes_once (mail : Email) (w : World) :
  fst (SMTPClient.connect config (fresh w)) = Returned tt ->
  fst (send config mail w) <> Diverges ->
  socks (world (snd (send config mail w))) = socks w ++ closed_sockets config.
Proof.
  intros Hc Hd.
  destruct (SMTPClient.connect config (fresh w)) as [o st1] eqn:Ec.
  cbn [fst] in Hc. subst o.
  destruct (connect_returned w st1 Ec) as [Hh Hs].
  unfold send, with_, SMTPClient.__enter__, SMTPClient.__exit__ in *.
  rewrite Ec in *.
  pose proof (carries_send (holds_socket _)
                (holds_socket_refl _) (holds_socket_trans _)
                (sendall_holds_socket _) (read_response_holds_socket _)
                config mail st1 Hh) as [Hh2 Hs2].
  destruct (SMTPClient.send config mail st1) as [[b|e| ] st2]; cbn in *.
  - destruct (close_cases st2) as [(_ & Hx & _) | (_ & Hx & Hb)].
    + destruct (SMTPClient.close st2) as [[?|?|] st3]; cbn in *; congruence.
    + specialize (Hb _ Hh2).
      destruct (SMTPClient.close st2) as [[?|?|] st3]; cbn in *;
        try discriminate.
      now rewrite Hb, Hs2, Hs, bump_held.
  - destruct (close_cases st2) as [(_ & Hx & _) | (_ & Hx & Hb)].
    + destruct (SMTPClient.close st2) as [[?|?|] st3]; cbn in *; congruence.
    + specialize (Hb _ Hh2).
      destruct (SMTPClient.close st2) as [[?|?|] st3]; cbn in *;
        try discriminate.
      now rewrite Hb, Hs2, Hs, bump_held.
  - congruence.
Qed.

End Scope.

(** X23: When [connect] raises inside [__enter__], [__exit__] does not run: the
    helper raises the same exception and ends in the state [connect] left,
    with no QUIT written and no [close()] called by the module. The client
    then holds a socket that has its descriptor and has not been closed, the
    connection stays open; except when what failed is the TLS handshake
    itself, where the library has closed the wrapper it had made and the
    client holds the detached socket. *)
Theorem enter_failure_skips_exit {L : PyLib} (config : SMTPConfig)
        (mail : Email) (w : World) (e : exn) :
  fst (SMTPClient.connect config (fresh w)) = Raised e ->
  send config mail w = (Raised e, snd (SMTPClient.connect config (fresh w)))
  /\ ((exists h,
         _socket (self (snd (send config mail w))) = Some h
         /\ nth_error (socks (world (snd (send config mail w)))) h
            = Some (owning 0)
         /\ (socks (world (snd (send config mail w))) = socks w ++ [owning 0]
             \/ socks (world (snd (send config mail w)))
                = socks w ++ [gone 0; owning 0]))
      \/ (use_tls config = true /\ tls_ok w = false /\ e = OSError
          /\ _socket (self (snd (send config mail w)))
             = Some (List.length (socks w))
          /\ socks (world (snd (send config mail w)))
             = socks w ++ [gone 0; owning 1])).
Proof.
  intros He.
  assert (E : send config mail w
              = (Raised e, snd (SMTPClient.connect config (fresh w)))).
  { unfold send, with_, SMTPClient.__enter__.
    destruct (SMTPClient.connect config (fresh w)) as [[u|e'|] st1];
      cbn in He; try discriminate.
    now injection He as ->. }
  split; [exact E|]. rewrite E. cbn [snd].
  destruct (connect_frame config w)
    as [(F1 & F2 & _) | [(_ & _ & F1 & F2) | (Hu & Ht & F3 & F1 & F2)]].
  - left. exists (List.length (socks w)). split; [exact F1|].
    split; [|now left].
    rewrite F2, nth_error_app2, Nat.sub_diag by apply le_n. reflexivity.
  - left. exists (S (List.length (socks w))). split; [exact F1|].
    split; [|now right].
    rewrite F2, nth_error_app2 by apply Nat.le_succ_diag_r.
    now rewrite Nat.sub_succ_l, Nat.sub_diag by apply le_n.
  - right. repeat split; try assumption. congruence.
Qed.

(** C3, evaluated where it fails: the server greets with a line whose first
    three characters are not a number. [connect] raises [ValueError] inside
    [__enter__], the helper [send] lets it through, and the socket that
    [connect] opened is still held by the client and has received no
    [close()]. The same happens when the read of the EHLO response times
    out. *)
Theorem handshake_failure_leaves_socket_open :
  (fst (send (L := example_lib) cfg0 mail_plain (server [line "xyz hello"]))
   = Raised ValueError
   /\ _socket (self (snd (send (L := example_lib) cfg0 mail_plain
                           (server [line "xyz hello"])))) = Some 0
   /\ socks (world (snd (send (L := example_lib) cfg0 mail_plain
                           (server [line "xyz hello"])))) = [owning 0])
  /\ (fst (send (L := example_lib) cfg0 mail_plain
             (server [line "220 ready"; RxRaise OSError]))
      = Raised OSError
      /\ socks (world (snd (send (L := example_lib) cfg0 mail_plain
                              (server [line "220 ready"; RxRaise OSError]))))
         = [owning 0]).
Proof. repeat split. Qed.

(* ================================================================= *)
(** ** [EmailBuilder] and the methods of [Email] *)

Section BuilderChain.

Context {F : FileSystem}.

Lemma heap_set_same (r : nat) (e e' : Email) : forall hp,
  nth_error hp r = Some e -> nth_error (heap_set r e' hp) r = Some e'.
Proof.
  induction r as [|r IH]; intros [|x hp] H; cbn in *; try discriminate.
  - reflexivity.
  - now apply IH.
Qed.

Lemma heap_set_id (r : nat) (e : Email) : forall hp,
  nth_error hp r = Some e -> heap_set r e hp = hp.
Proof.
  induction r as [|r IH]; intros [|x hp] H; cbn in *; try discriminate.
  - congruence.
  - now rewrite IH.
Qed.

Lemma heap_set_twice (r : nat) (e1 e2 : Email) : forall hp,
  heap_set r e2 (heap_set r e1 hp) = heap_set r e2 hp.
Proof.
  induction r as [|r IH]; intros [|x hp]; cbn; try reflexivity.
  now rewrite IH.
Qed.

Lemma heap_set_new (hp : Heap) (e e' : Email) :
  heap_set (List.length hp) e' (hp ++ [e]) = hp ++ [e'].
Proof. induction hp as [|x hp IH]; cbn; [reflexivity | now rewrite IH]. Qed.

Lemma nth_error_new (hp : Heap) (e : Email) :
  nth_error (hp ++ [e]) (List.length hp) = Some e.
Proof. induction hp as [|x hp IH]; cbn; [reflexivity | exact IH]. Qed.

Lemma mutate_at (r : nat) (f : Email -> Email) (hp : Heap) (e : Email) :
  nth_error hp r = Some e ->
  mutate r f hp = (Returned tt, heap_set r (f e) hp).
Proof. intros H. unfold mutate. now rewrite H. Qed.

Lemma email_eta (e : Email) :
  e = {| to := to e; subject := subject e; body := body e; html := html e;
         from_addr := from_addr e; cc := cc e; bcc := bcc e;
         reply_to := reply_to e; attachments := attachments e;
         headers := headers e |}.
Proof. now destruct e. Qed.

(** A chain of calls whose files can all be read changes the object of the
    builder, and nothing else in the heap, into [chain_result]. *)
Lemma chain_spec (cs : list Call) : forall r hp e atts,
  nth_error hp r = Some e ->
  all_readable (attach_paths cs) atts ->
  chain {| EmailBuilder._email := r |} cs hp
  = (Returned {| EmailBuilder._email := r |},
     heap_set r (chain_result e cs atts) hp).
Proof.
  induction cs as [|c cs IH]; intros r hp e atts He Ha.
  - inversion Ha; subst. cbn [chain]. unfold hret.
    unfold chain_result; cbn. rewrite !app_nil_r, <- email_eta.
    now rewrite heap_set_id.
  - destruct c; cbn [attach_paths flat_map app] in Ha;
      cbn [chain call]; unfold hbind at 1.
    1-7: unfold EmailBuilder.to, EmailBuilder.cc, EmailBuilder.bcc,
           EmailBuilder.subject, EmailBuilder.body, EmailBuilder.html,
           EmailBuilder.from_addr, hbind, hret;
         cbn [EmailBuilder._email];
         rewrite (mutate_at r _ hp e He);
         (erewrite IH; [ | eapply heap_set_same; exact He | exact Ha ]);
         rewrite heap_set_twice; f_equal; f_equal;
         unfold chain_result; cbn;
         rewrite <- ?app_assoc; reflexivity.
    inversion Ha as [|p a ps atts' Hpa Ha']; subst.
    destruct Hpa as (bytes & Hr & ->).
    unfold EmailBuilder.attach, attach_file, hbind, hlift, hret, from_file.
    cbn [EmailBuilder._email]. rewrite Hr.
    rewrite (mutate_at r _ hp e He).
    erewrite IH; [ | eapply heap_set_same; exact He | exact Ha' ].
    rewrite heap_set_twice. f_equal. f_equal.
    unfold chain_result, file_attachment; cbn.
    rewrite <- ?app_assoc. reflexivity.
Qed.

End BuilderChain.

(* ================================================================= *)
(** ** More on [_build_message] *)

Lemma split1_without (sep : ascii) (s : string) :
  contains sep s = false -> PyStr.split1 sep s = [s].
Proof.
  induction s as [|c r IH]; cbn; [reflexivity|].
  destruct (Ascii.eqb c sep); cbn; [discriminate|].
  intros H. now rewrite (IH H).
Qed.

Lemma split1_with (sep : ascii) (s : string) :
  contains sep s = true ->
  exists a b,
    PyStr.split1 sep s = [a; b]
    /\ s = (a ++ String sep b)%string
    /\ contains sep a = false.
Proof.
  induction s as [|c r IH]; cbn; [discriminate|].
  destruct (Ascii.eqb c sep) eqn:E; cbn.
  - intros _. apply Ascii.eqb_eq in E. subst c.
    exists EmptyString, r. repeat split.
  - intros H. destruct (IH H) as (a & b & Hs & Hr & Ha).
    rewrite Hs. exists (String c a), b. repeat split.
    + cbn. now rewrite <- Hr.
    + cbn. now rewrite E, Ha.
Qed.

Lemma attachment_part_cases (att : Attachment) :
  if has_slash att
  then exists part,
         SMTPClient.attachment_part att = Returned part /\ part_of att part
  else SMTPClient.attachment_part att = Raised TypeError.
Proof.
  unfold has_slash, SMTPClient.attachment_part.
  destruct (contains "/" (content_type att)) eqn:E.
  - destruct (split1_with _ _ E) as (a & b & Hs & Hc & Ha).
    rewrite Hs. cbn. eexists. split; [reflexivity|].
    exists a, b. repeat split; assumption.
  - now rewrite (split1_without _ _ E).
Qed.

Lemma attach_all_cases (atts : list Attachment) : forall k h ps,
  if forallb has_slash atts
  then exists aps,
         SMTPClient.attach_all atts (Mime.Msg k h (Mime.PParts ps))
         = Returned (Mime.Msg k h (Mime.PParts (ps ++ aps)))
         /\ Forall2 part_of atts aps
  else SMTPClient.attach_all atts (Mime.Msg k h (Mime.PParts ps))
       = Raised TypeError.
Proof.
  induction atts as [|att atts IH]; intros k h ps; cbn.
  - exists []. rewrite app_nil_r. split; [reflexivity | constructor].
  - pose proof (attachment_part_cases att) as Hp.
    destruct (has_slash att); cbn.
    + destruct Hp as (part & -> & Hpart). cbn.
      specialize (IH k h (ps ++ [part])).
      destruct (forallb has_slash atts).
      * destruct IH as (aps & -> & Fa). exists (part :: aps).
        rewrite <- app_assoc. split; [reflexivity | now constructor].
      * exact IH.
    + now rewrite Hp.
Qed.

Lemma standard_headers_list (config : SMTPConfig) (email : Email) :
  Mime._headers (SMTPClient.standard_headers config email
                   (SMTPClient.top_level email))
  = expected_standard_headers config email.
Proof.
  unfold SMTPClient.standard_headers, expected_standard_headers.
  rewrite top_level_cases.
  destruct (SMTPClient.has_attachments email || PyStr.truthy (html email))%bool,
    (PyStr.truthy (reply_to email)), (cc email); reflexivity.
Qed.

Lemma message_object_cases (config : SMTPConfig) (email : Email) :
  if forallb has_slash (attachments email)
  then exists m, SMTPClient.message_object config email = Returned m
  else SMTPClient.message_object config email = Raised TypeError.
Proof.
  unfold SMTPClient.message_object.
  rewrite headers_done, top_level_cases.
  unfold SMTPClient.has_attachments.
  destruct (attachments email) as [|att atts] eqn:Ea.
  - cbn [forallb orb]. destruct (PyStr.truthy (html email));
      cbn [Mime.is_multipart Mime.class_of Mime._payload];
      [rewrite text_parts_multipart|]; cbn; eauto.
  - cbn [orb Mime.is_multipart Mime.class_of Mime._payload].
    rewrite text_parts_multipart.
    match goal with
    | |- context [SMTPClient.attach_all ?l (Mime.Msg ?k ?h (Mime.PParts ?ps))] =>
        pose proof (attach_all_cases l k h ps) as Hc
    end.
    destruct (forallb has_slash (att :: atts)).
    + destruct Hc as (aps & Hc & _). eauto.
    + exact Hc.
Qed.

(** X16: The statements of [_build_message] themselves raise on exactly one
    kind of message: [TypeError], when some attachment has a content type
    without a slash, and the serializer is then not reached. For every other
    message the object is built and [_build_message] ends the way
    [msg.as_string()] ends on that object: with its text, or with the
    exception the serializer raises. *)
Theorem build_fails_only_on_content_type {L : PyLib} (config : SMTPConfig)
        (email : Email) :
  if forallb has_slash (attachments email)
  then exists m,
         SMTPClient.message_object config email = Returned m
         /\ SMTPClient._build_message config email = as_string m
  else SMTPClient._build_message config email = Raised TypeError.
Proof.
  pose proof (message_object_cases config email) as H.
  unfold SMTPClient._build_message.
  destruct (forallb has_slash (attachments email)).
  - destruct H as [m Hm]. exists m. now rewrite Hm.
  - now rewrite H.
Qed.

(** X17: In a multipart message that builds, the parts are the text parts
    followed by one part per attachment, in order. The part of an attachment
    has the type and subtype its content type gives when cut at the first
    slash, the Base64 text of the content as payload, and two headers: the
    transfer encoding and a Content-Disposition that carries the file name
    as it is. *)
Theorem attachment_parts_shape (config : SMTPConfig) (email : Email)
        (m : Mime.Message) :
  (SMTPClient.has_attachments email || PyStr.truthy (html email))%bool = true ->
  SMTPClient.message_object config email = Returned m ->
  exists aparts,
    Mime.parts m = expected_text_parts email ++ aparts
    /\ Forall2 part_of (attachments email) aparts
    /\ List.length (Mime.parts m)
       = List.length (expected_text_parts email)
         + List.length (attachments email).
Proof.
  intros Hm. unfold SMTPClient.message_object.
  rewrite headers_done, top_level_cases, Hm.
  cbn [Mime.is_multipart Mime.class_of Mime._payload].
  rewrite text_parts_multipart.
  match goal with
  | |- SMTPClient.attach_all ?atts (Mime.Msg ?k ?h (Mime.PParts ?ps)) = _ -> _ =>
      pose proof (attach_all_cases atts k h ps) as Hc
  end.
  destruct (forallb has_slash (attachments email)).
  - destruct Hc as (aps & -> & Fa). intros H. injection H as <-.
    exists aps. split; [reflexivity|]. split; [exact Fa|].
    cbn [Mime.parts Mime._payload app]. rewrite length_app.
    unfold expected_text_parts.
    now rewrite (Forall2_length Fa).
  - rewrite Hc. discriminate.
Qed.

Lemma attachment_parts_shape_witness :
  exists m aparts,
    SMTPClient.message_object cfg0 mail_html_att = Returned m
    /\ Mime.parts m = [Mime.new_MIMEText "<p>hello</p>" "html"] ++ aparts
    /\ Forall2 part_of [att0] aparts
    /\ List.length (Mime.parts m) = 1 + 1.
Proof.
  eexists.
  destruct (attachment_parts_shape cfg0 mail_html_att _ eq_refl eq_refl)
    as (aparts & Hp & Fa & Hl).
  exists aparts. split; [reflexivity|]. repeat split; assumption.
Defined.

(** X18: The headers of a message that builds are, in this order: Subject, From,
    To, Cc when [cc] is non-empty, Reply-To when it is set, and the custom
    headers. The addresses of [bcc] are in none of them: the only Bcc
    headers are custom ones. *)
Theorem built_headers (config : SMTPConfig) (email : Email) (m : Mime.Message) :
  SMTPClient.message_object config email = Returned m ->
  Mime._headers m = expected_standard_headers config email ++ headers email
  /\ Mime.get_all m "Bcc" = custom_values email "Bcc".
Proof.
  intros H. apply message_object_shape in H. destruct H as [_ Hh].
  rewrite standard_headers_list in Hh. split; [exact Hh|].
  unfold Mime.get_all, custom_values. rewrite Hh, filter_app, map_app.
  unfold expected_standard_headers.
  destruct (PyStr.truthy (reply_to email)), (cc email); reflexivity.
Qed.

Lemma built_headers_witness :
  exists m,
    SMTPClient.message_object cfg0 mail_three = Returned m
    /\ Mime._headers m
       = [("Subject", "Hi"); ("From", "me@b.com"); ("To", "a@b.com");
          ("Cc", "c@d.com")]
    /\ Mime.get_all m "Bcc" = [].
Proof.
  eexists. split; [reflexivity|].
  exact (built_headers cfg0 mail_three _ eq_refl).
Defined.

(* ================================================================= *)
(** ** What a builder chain produces *)

Lemma built_unfold {F : FileSystem} (cs : list Call) (hp : Heap) :
  built cs hp
  = hbind (chain {| EmailBuilder._email := List.length hp |} cs)
          EmailBuilder.build (hp ++ [blank_email]).
Proof. reflexivity. Qed.

Lemma built_spec {F : FileSystem} (cs : list Call) (atts : list Attachment)
      (hp : Heap) :
  all_readable (attach_paths cs) atts ->
  built cs hp
  = (Returned (List.length hp), hp ++ [chain_result blank_email cs atts]).
Proof.
  intros Ha. rewrite built_unfold. unfold hbind.
  rewrite (chain_spec cs (List.length hp) (hp ++ [blank_email]) blank_email
             atts (nth_error_new hp blank_email) Ha).
  unfold EmailBuilder.build, hret. cbn [EmailBuilder._email].
  now rewrite heap_set_new.
Qed.

(** X24: [email()] followed by any chain of builder calls whose files can be read,
    then [build()]: the address calls add up in call order, of the calls on
    subject, body, html and sender the last one counts, the attachments are
    the files in call order, and reply-to and the custom headers stay empty,
    for the builder has no call that sets them. Nothing else in the heap
    changes. *)
Theorem built_email_fields {F : FileSystem} (cs : list Call)
        (atts : list Attachment) (hp : Heap) :
  all_readable (attach_paths cs) atts ->
  built cs hp
  = (Returned (List.length hp),
     hp ++ [{| to := all_to cs;
               subject := last_of pick_subject cs EmptyString;
               body := last_of pick_body cs EmptyString;
               html := last_of pick_html cs EmptyString;
               from_addr := last_of pick_from cs EmptyString;
               cc := all_cc cs;
               bcc := all_bcc cs;
               reply_to := EmptyString;
               attachments := atts;
               headers := [] |}]).
Proof.
  intros Ha. now rewrite (built_spec cs atts hp Ha).
Qed.

Lemma built_email_fields_witness :
  built (F := example_fs)
    [CallTo ["a@b.com"]; CallSubject "One"; CallAttach "/tmp/report.bin";
     CallTo ["c@d.com"; "e@f.com"]; CallSubject "Two"] []
  = (Returned 0,
     [{| to := ["a@b.com"; "c@d.com"; "e@f.com"]; subject := "Two";
         body := EmptyString; html := EmptyString; from_addr := EmptyString;
         cc := []; bcc := []; reply_to := EmptyString;
         attachments := [{| filename := "report.bin";
                            content := [x01; x02; x03];
                            content_type := "application/octet-stream" |}];
         headers := [] |}]).
Proof.
  apply (built_email_fields (F := example_fs)
           [CallTo ["a@b.com"]; CallSubject "One"; CallAttach "/tmp/report.bin";
            CallTo ["c@d.com"; "e@f.com"]; CallSubject "Two"]
           [{| filename := "report.bin"; content := [x01; x02; x03];
               content_type := "application/octet-stream" |}] []).
  repeat constructor. exists [x01; x02; x03]. split; reflexivity.
Defined.

(** X25: [build()] hands out the builder's own object: a call made on the
    builder after [build()] changes the email that [build()] returned. *)
Theorem build_is_not_a_copy {F : FileSystem} (cs : list Call)
        (atts : list Attachment) (addresses : list string) (hp : Heap) :
  all_readable (attach_paths cs) atts ->
  hbind email
    (fun b => hbind (chain b cs)
       (fun b' => hbind (EmailBuilder.build b')
          (fun r => hbind (EmailBuilder.to b' addresses)
             (fun _ => hret r)))) hp
  = (Returned (List.length hp),
     hp ++ [extend_to addresses (chain_result blank_email cs atts)]).
Proof.
  intros Ha. unfold email, EmailBuilder.__init__, alloc.
  unfold hbind at 1. unfold hbind at 1. unfold hret at 1.
  unfold hbind at 1.
  rewrite (chain_spec cs (List.length hp) (hp ++ [blank_email]) blank_email
             atts (nth_error_new hp blank_email) Ha).
  unfold EmailBuilder.build, EmailBuilder.to, hbind, hret.
  cbn [EmailBuilder._email].
  rewrite heap_set_new.
  rewrite (mutate_at (List.length hp) _ _ _ (nth_error_new hp _)).
  now rewrite heap_set_new.
Qed.

Lemma build_is_not_a_copy_witness :
  exists e,
    hbind email
      (fun b => hbind (chain (F := example_fs) b [CallTo ["a@b.com"]])
         (fun b' => hbind (EmailBuilder.build b')
            (fun r => hbind (EmailBuilder.to b' ["late@b.com"])
               (fun _ => hret r)))) []
    = (Returned 0, [e])
    /\ to e = ["a@b.com"; "late@b.com"].
Proof.
  eexists. split.
  - apply (build_is_not_a_copy (F := example_fs) [CallTo ["a@b.com"]] []
             ["late@b.com"] []).
    constructor.
  - reflexivity.
Defined.

Lemma chain_app {F : FileSystem} (cs1 cs2 : list Call) : forall b hp,
  chain b (cs1 ++ cs2) hp = hbind (chain b cs1) (fun b' => chain b' cs2) hp.
Proof.
  induction cs1 as [|c cs1 IH]; intros b hp; cbn [app chain].
  - reflexivity.
  - unfold hbind.
    destruct (call b c hp) as [[b'| |] hp']; try reflexivity.
    rewrite IH. reflexivity.
Qed.

(** X26: A chain stops at the first [attach] whose file cannot be read: it
    raises what the read raises ([OSError] for a file that is missing,
    [ValueError] for a path with a NUL character), the calls before it have
    taken effect, the calls after it have not, and [build()] is not
    reached. *)
Theorem chain_stops_at_unreadable_file {F : FileSystem} (cs1 cs2 : list Call)
        (atts : list Attachment) (path : string) (hp : Heap) (e : exn) :
  all_readable (attach_paths cs1) atts ->
  read_bytes path = Raised e ->
  built (cs1 ++ CallAttach path :: cs2) hp
  = (Raised e, hp ++ [chain_result blank_email cs1 atts]).
Proof.
  intros Ha Hp. rewrite built_unfold. unfold hbind at 1.
  rewrite chain_app. unfold hbind at 1.
  rewrite (chain_spec cs1 (List.length hp) (hp ++ [blank_email]) blank_email
             atts (nth_error_new hp blank_email) Ha).
  rewrite heap_set_new.
  cbn [chain call]. unfold hbind at 1.
  unfold EmailBuilder.attach, attach_file, hbind, hlift, from_file.
  now rewrite Hp.
Qed.

Lemma chain_stops_at_unreadable_file_witness :
  fst (built (F := example_fs)
         ([CallTo ["a@b.com"]] ++ CallAttach "/nowhere" :: [CallSubject "Hi"])
         [])
  = Raised OSError
  /\ fst (built (F := example_fs)
            ([CallTo ["a@b.com"]]
               ++ CallAttach (String "000"%char "report.bin")
               :: [CallSubject "Hi"])
            [])
     = Raised ValueError.
Proof.
  split.
  - rewrite (chain_stops_at_unreadable_file (F := example_fs)
               [CallTo ["a@b.com"]] [CallSubject "Hi"] [] "/nowhere" [] OSError
               (Forall2_nil _) eq_refl).
    reflexivity.
  - rewrite (chain_stops_at_unreadable_file (F := example_fs)
               [CallTo ["a@b.com"]] [CallSubject "Hi"] []
               (String "000"%char "report.bin") [] ValueError
               (Forall2_nil _) eq_refl).
    reflexivity.
Defined.

Lemma file_attachments_have_slash {F : FileSystem} (paths : list string)
      (atts : list Attachment) :
  all_readable paths atts -> forallb has_slash atts = true.
Proof.
  induction 1 as [|p a ps atts' (bytes & _ & ->) _ IH]; [reflexivity|].
  cbn. exact IH.
Qed.

(** X27: For an email made with the builder the attachment loop of
    [_build_message] cannot raise: every attachment the builder adds has
    the content type [application/octet-stream], so the object is built and
    [_build_message] ends the way [msg.as_string()] ends on it. What the
    serializer raises, as for a subject with an embedded header line, is
    what remains. *)
Theorem built_email_builds {F : FileSystem} {L : PyLib} (config : SMTPConfig)
        (cs : list Call) (atts : list Attachment) (hp : Heap) :
  all_readable (attach_paths cs) atts ->
  exists e m,
    built cs hp = (Returned (List.length hp), hp ++ [e])
    /\ SMTPClient.message_object config e = Returned m
    /\ SMTPClient._build_message config e = as_string m.
Proof.
  intros Ha.
  pose proof (message_object_cases config
                (chain_result blank_email cs atts)) as Hb.
  cbn [attachments chain_result blank_email app] in Hb.
  rewrite (file_attachments_have_slash _ _ Ha) in Hb.
  destruct Hb as [m Hm]. exists (chain_result blank_email cs atts), m.
  split; [exact (built_spec cs atts hp Ha)|].
  split; [exact Hm|].
  unfold SMTPClient._build_message. now rewrite Hm.
Qed.

(** A builder email with an attachment builds; one whose subject holds a
    header line of its own builds as well, and the serializer refuses it. *)
Lemma built_email_builds_witness :
  (exists e m,
     built (F := example_fs)
       [CallTo ["a@b.com"]; CallHtml "<p>x</p>"; CallAttach "/tmp/report.bin"]
       []
     = (Returned 0, [] ++ [e])
     /\ SMTPClient.message_object cfg0 e = Returned m
     /\ SMTPClient._build_message (L := example_lib) cfg0 e = serialize m)
  /\ (exists e m,
        built (F := example_fs)
          [CallTo ["a@b.com"];
           CallSubject ("Hi" ++ String "010"%char "Bcc: x@y.com")] []
        = (Returned 0, [] ++ [e])
        /\ SMTPClient.message_object cfg0 e = Returned m
        /\ SMTPClient._build_message (L := example_lib) cfg0 e
           = Raised HeaderParseError).
Proof.
  split.
  - apply (built_email_builds (F := example_fs) (L := example_lib) cfg0
             [CallTo ["a@b.com"]; CallHtml "<p>x</p>";
              CallAttach "/tmp/report.bin"]
             [{| filename := "report.bin"; content := [x01; x02; x03];
                 content_type := "application/octet-stream" |}] []).
    repeat constructor. exists [x01; x02; x03]. split; reflexivity.
  - destruct (built_email_builds (F := example_fs) (L := example_lib) cfg0
                [CallTo ["a@b.com"];
                 CallSubject ("Hi" ++ String "010"%char "Bcc: x@y.com")]
                [] [] (Forall2_nil _)) as (e & m & H1 & H2 & H3).
    exists e, m. split; [exact H1|]. split; [exact H2|].
    rewrite H3. cbn in H1. injection H1 as <-.
    cbn in H2. injection H2 as <-. reflexivity.
Defined.

(* ================================================================= *)
(** ** More on the reader, [_command] and [connect] *)

Lemma read_lines_raise (pre : list string) : forall acc e rest,
  Forall continues pre ->
  SMTPClient.read_lines (map RxLine pre ++ RxRaise e :: rest) acc
  = (Raised e, rest).
Proof.
  induction pre as [|raw pre IH]; intros acc e rest Hpre; cbn; [reflexivity|].
  inversion Hpre as [|? ? Hraw Hpre']; subst.
  unfold continues in Hraw. rewrite Hraw. now apply IH.
Qed.

(** X3: A read that raises in the middle of a response ends [_read_response]
    with that exception: the lines read so far are dropped and the stream
    stands after the failed read. *)
Theorem read_response_read_error {L : PyLib} (st : St) (pre : list string)
        (e : exn) (rest : list RxEvent) :
  _file (self st) <> None ->
  rx (world st) = map RxLine pre ++ RxRaise e :: rest ->
  Forall continues pre ->
  SMTPClient._read_response st = (Raised e, advance st [] rest).
Proof.
  intros Hf Hrx Hpre. unfold SMTPClient._read_response.
  destruct (_file (self st)); [|congruence].
  rewrite Hrx, read_lines_raise by assumption.
  unfold advance, set_rx. now rewrite app_nil_r.
Qed.

Lemma read_response_read_error_witness :
  SMTPClient._read_response (L := example_lib)
    (session_on [line "250-first"; RxRaise OSError; line "250 ok"])
  = (Raised OSError,
     advance (session_on [line "250-first"; RxRaise OSError; line "250 ok"])
             [] [line "250 ok"]).
Proof.
  apply (read_response_read_error (L := example_lib)
           (session_on [line "250-first"; RxRaise OSError; line "250 ok"])
           [("250-first" ++ PyStr.CRLF)%string] OSError [line "250 ok"]).
  - discriminate.
  - reflexivity.
  - repeat constructor.
Defined.

Lemma read_response_at_eof_witness :
  fst (SMTPClient._read_response (L := example_lib)
         (session_on [line "250-first"; line "250"]))
  = Diverges.
Proof.
  apply (read_response_at_eof (L := example_lib)
           (session_on [line "250-first"; line "250"])
           [("250-first" ++ PyStr.CRLF)%string; ("250" ++ PyStr.CRLF)%string]).
  - discriminate.
  - reflexivity.
  - repeat constructor.
Defined.

Lemma read_response_bad_code_witness :
  SMTPClient._read_response (L := example_lib)
    (session_on [line "abc def"; line "250 ok"])
  = (Raised ValueError,
     advance (session_on [line "abc def"; line "250 ok"]) [] [line "250 ok"]).
Proof.
  apply (read_response_bad_code (L := example_lib)
           (session_on [line "abc def"; line "250 ok"])
           [] ("abc def" ++ PyStr.CRLF)%string [line "250 ok"]).
  - discriminate.
  - reflexivity.
  - constructor.
  - reflexivity.
  - reflexivity.
Defined.

(** X4: When the write of a command fails, because the client has no socket or
    because the transport refuses the write, [_command] raises and reads
    nothing: the session is exactly as before. *)
Theorem command_write_failure {L : PyLib} (cmd : string) (st : St) :
  _socket (self st) = None \/ tx_budget (world st) = Some 0 ->
  SMTPClient._command cmd st
  = (Raised (match _socket (self st) with
             | None => AttributeError
             | Some _ => OSError
             end), st).
Proof.
  intros H. unfold SMTPClient._command, bind, sendall.
  destruct (_socket (self st)) as [h|].
  - destruct H as [H|H]; [discriminate|]. rewrite H.
    now destruct (is_detached (world st) h).
  - reflexivity.
Qed.

Lemma command_write_failure_witness :
  SMTPClient._command (L := example_lib) "NOOP" (fresh (server [line "250 ok"]))
  = (Raised AttributeError, fresh (server [line "250 ok"])).
Proof.
  exact (command_write_failure (L := example_lib) "NOOP"
           (fresh (server [line "250 ok"])) (or_introl eq_refl)).
Defined.

Section ConnectScript.

Context {L : PyLib}.
Variable config : SMTPConfig.

Lemma auth_script (st : St) (b1 b2 b3 rest : list RxEvent)
      (c1 c2 c3 : Z) (t1 t2 t3 : string) :
  ready st ->
  reply_block b1 c1 t1 ->
  reply_block b2 c2 t2 ->
  reply_block b3 c3 t3 ->
  rx (world st) = b1 ++ b2 ++ b3 ++ rest ->
  SMTPClient.auth_login config st
  = (Returned tt, advance st (auth_cmds config) rest).
Proof.
  intros Hr H1 H2 H3 Hrx. unfold SMTPClient.auth_login.
  unfold bind at 1.
  erewrite command_block; [ | exact Hr | exact H1 | exact Hrx ].
  unfold bind at 1.
  erewrite command_block;
    [ | now apply advance_ready | exact H2 | reflexivity ].
  unfold bind at 1.
  erewrite command_block;
    [ | now repeat apply advance_ready | exact H3 | reflexivity ].
  unfold ret. now rewrite !advance_advance.
Qed.

Lemma opened_ready (w : World) (h : nat) :
  tx_budget w = None -> ready (opened w (Some h)).
Proof.
  intros Hb. split; [|split; [discriminate | exact Hb]].
  unfold writable, is_detached. cbn [opened self world _socket socks].
  now rewrite nth_middle.
Qed.

Lemma upgraded_ready (w : World) : tx_budget w = None -> ready (upgraded w).
Proof.
  intros Hb. split; [|split; [discriminate | exact Hb]].
  unfold writable, is_detached. cbn [upgraded self world _socket socks].
  now rewrite <- Nat.add_1_r, nth_app_plus.
Qed.

(** The TLS upgrade of a client that has just connected: both exchanges and
    a handshake that succeeds. *)
Lemma starttls_opened (w : World) (sent : list string)
      (b1 b2 rest : list RxEvent) (c1 c2 : Z) (t1 t2 : string) :
  tls_ok w = true ->
  tx_budget w = None ->
  reply_block b1 c1 t1 ->
  reply_block b2 c2 t2 ->
  SMTPClient.starttls (List.length (socks w))
    (advance (opened w (Some (List.length (socks w)))) sent (b1 ++ b2 ++ rest))
  = (Returned tt,
     advance (upgraded w) (sent ++ [STARTTLS_CMD; EHLO_CMD]) rest).
Proof.
  intros Ht Hb H1 H2. unfold SMTPClient.starttls.
  unfold bind at 1.
  erewrite command_block;
    [ | apply advance_ready, opened_ready, Hb | exact H1 | reflexivity ].
  rewrite advance_advance.
  unfold bind at 1, wrap_socket.
  cbn [advance opened with_world world self tls_ok socks set_socks
       rx tx tx_budget connect_ok _socket _file].
  rewrite Ht, detach_last, <- app_assoc, length_app, Nat.add_1_r.
  cbn [app].
  unfold bind at 1, set_socket. unfold bind at 1, set_file.
  cbn [with_self self world _socket _file].
  change (STARTTLS_CMD) with (("STARTTLS" ++ PyStr.CRLF)%string).
  match goal with
  | |- bind _ _ ?s = _ =>
      replace s with (advance (upgraded w)
                        (sent ++ [("STARTTLS" ++ PyStr.CRLF)%string])
                        (b2 ++ rest))
        by (unfold advance, upgraded, with_world, with_self, set_socks;
            cbn; now rewrite Ht)
  end.
  unfold bind at 1.
  erewrite command_block;
    [ | apply advance_ready, upgraded_ready, Hb | exact H2 | reflexivity ].
  unfold ret. now rewrite advance_advance, <- app_assoc.
Qed.

Lemma handshake_script (w : World) (greeting : list RxEvent) (gcode : Z)
      (gtext : string) (blks : list (list RxEvent))
      (replies : list (Z * string)) (rest : list RxEvent) :
  connect_ok w = true ->
  (use_tls config = true -> tls_ok w = true) ->
  tx_budget w = None ->
  reply_block greeting gcode gtext ->
  reply_blocks blks replies ->
  List.length replies = List.length (handshake_cmds config) ->
  rx w = greeting ++ List.concat blks ++ rest ->
  SMTPClient.connect config (fresh w)
  = (Returned tt, connected_state config w (handshake_cmds config) rest).
Proof.
  intros Hc Ht Hb Hg Hbl Hlen Hrx.
  assert (E0 : SMTPClient.connect config (fresh w)
               = SMTPClient.handshake config (List.length (socks w)) (opened w None)) by reflexivity.
  rewrite E0. clear E0. unfold SMTPClient.handshake.
  unfold bind at 1, socket_connect. cbn [opened world connect_ok]. rewrite Hc.
  unfold bind at 1, set_file.
  change (with_self _ _) with (opened w (Some (List.length (socks w)))).
  unfold bind at 1.
  erewrite read_response_block;
    [ | discriminate | exact Hg | exact Hrx ].
  unfold handshake_cmds, has_credentials, connected_state in *.
  destruct replies as [|[c1 t1] replies]; [discriminate|].
  inversion Hbl as [|b1 ? blks1 ? H1 Hbl1]; subst. cbn [fst snd] in H1.
  cbn [List.concat] in *. rewrite <- app_assoc.
  unfold bind at 1.
  erewrite command_block;
    [ | apply advance_ready, opened_ready, Hb | exact H1 | reflexivity ].
  rewrite advance_advance. cbn [app].
  unfold bind at 1.
  destruct (use_tls config) eqn:Etls.
  - destruct replies as [|[c2 t2] [|[c3 t3] replies]]; try discriminate.
    inversion Hbl1 as [|b2 ? blks2 ? H2 Hbl2]; subst.
    inversion Hbl2 as [|b3 ? blks3 ? H3 Hbl3]; subst.
    cbn [fst snd List.concat] in *. rewrite <- !app_assoc.
    erewrite starttls_opened;
      [ | exact (Ht eq_refl) | exact Hb | exact H2 | exact H3 ].
    cbn [app].
    destruct (PyStr.truthy (username config) && PyStr.truthy (password config))%bool.
    + destruct replies as [|[c4 t4] [|[c5 t5] [|[c6 t6] [|? ?]]]];
        try discriminate.
      inversion Hbl3 as [|b4 ? blks4 ? H4 Hbl4]; subst.
      inversion Hbl4 as [|b5 ? blks5 ? H5 Hbl5]; subst.
      inversion Hbl5 as [|b6 ? blks6 ? H6 Hbl6]; subst.
      inversion Hbl6; subst.
      cbn [fst snd List.concat app] in *. rewrite <- !app_assoc.
      erewrite auth_script;
        [ | apply advance_ready, upgraded_ready, Hb | exact H4 | exact H5
          | exact H6 | reflexivity ].
      now rewrite advance_advance.
    + destruct replies; [|discriminate]. inversion Hbl3; subst.
      reflexivity.
  - cbn [app] in *.
    destruct (PyStr.truthy (username config) && PyStr.truthy (password config))%bool.
    + destruct replies as [|[c4 t4] [|[c5 t5] [|[c6 t6] [|? ?]]]];
        try discriminate.
      inversion Hbl1 as [|b4 ? blks4 ? H4 Hbl4]; subst.
      inversion Hbl4 as [|b5 ? blks5 ? H5 Hbl5]; subst.
      inversion Hbl5 as [|b6 ? blks6 ? H6 Hbl6]; subst.
      inversion Hbl6; subst.
      cbn [fst snd List.concat app] in *. rewrite <- !app_assoc.
      unfold ret at 1.
      erewrite auth_script;
        [ | apply advance_ready, opened_ready, Hb | exact H4 | exact H5
          | exact H6 | reflexivity ].
      now rewrite advance_advance.
    + destruct replies; [|discriminate]. inversion Hbl1; subst.
      reflexivity.
Qed.

End ConnectScript.

Lemma append_empty (s : string) : (s ++ EmptyString)%string = s.
Proof. induction s as [|c s IH]; cbn; [reflexivity | now rewrite IH]. Qed.

(** [b64encode] followed by decoding is the identity on bytes. *)
Lemma decode_b64encode (bs : list byte) :
  Base64.b64decode (Base64.b64encode bs) = bs.
Proof.
  unfold Base64.b64decode.
  rewrite <- (append_empty (Base64.b64encode bs)).
  rewrite Base64Facts.decode_b64encode_app.
  destruct (whole3 bs); cbn; now rewrite app_nil_r.
Qed.

(** X5: Against a server that accepts the connection and answers the greeting
    and every handshake command with a well-formed response of whatever
    status code, [connect] returns. It has written EHLO, then STARTTLS and a
    second EHLO when [use_tls] is set, then AUTH LOGIN and the two Base64
    lines when user name and password are both non-empty, and nothing else;
    no status code stops it. *)
Theorem connect_handshake_log {L : PyLib} (config : SMTPConfig) (w : World)
        (greeting : list RxEvent) (gcode : Z) (gtext : string)
        (blks : list (list RxEvent)) (replies : list (Z * string))
        (rest : list RxEvent) :
  connect_ok w = true ->
  (use_tls config = true -> tls_ok w = true) ->
  tx_budget w = None ->
  reply_block greeting gcode gtext ->
  reply_blocks blks replies ->
  List.length replies = List.length (handshake_cmds config) ->
  rx w = greeting ++ List.concat blks ++ rest ->
  SMTPClient.connect config (fresh w)
  = (Returned tt, connected_state config w (handshake_cmds config) rest)
  /\ tx (world (connected_state config w (handshake_cmds config) rest))
     = tx w ++ [EHLO_CMD]
         ++ (if use_tls config then [STARTTLS_CMD; EHLO_CMD] else [])
         ++ (if has_credentials config then auth_cmds config else []).
Proof.
  intros Hc Ht Hb Hg Hbl Hlen Hrx.
  split; [|unfold connected_state, handshake_cmds; now destruct (use_tls config)].
  now apply handshake_script with (greeting := greeting) (gcode := gcode)
    (gtext := gtext) (blks := blks) (replies := replies).
Qed.

Lemma connect_handshake_log_witness :
  SMTPClient.connect (L := example_lib) cfg_auth
    (fresh (server [line "554 go away"; line "500 what"; line "502 no tls";
                    line "500 what"; line "535 no"; line "535 no";
                    line "535 no"; line "next"]))
  = (Returned tt,
     connected_state cfg_auth
       (server [line "554 go away"; line "500 what"; line "502 no tls";
                line "500 what"; line "535 no"; line "535 no";
                line "535 no"; line "next"])
       (handshake_cmds cfg_auth) [line "next"]).
Proof.
  apply (connect_handshake_log (L := example_lib) cfg_auth
           (server [line "554 go away"; line "500 what"; line "502 no tls";
                    line "500 what"; line "535 no"; line "535 no";
                    line "535 no"; line "next"])
           [line "554 go away"] 554%Z "554 go away"
           [[line "500 what"]; [line "502 no tls"]; [line "500 what"];
            [line "535 no"]; [line "535 no"]; [line "535 no"]]
           [(500%Z, "500 what"); (502%Z, "502 no tls"); (500%Z, "500 what");
            (535%Z, "535 no"); (535%Z, "535 no"); (535%Z, "535 no")]
           [line "next"]).
  - reflexivity.
  - reflexivity.
  - reflexivity.
  - scripted (@nil string) ("554 go away" ++ PyStr.CRLF)%string 554%Z.
  - repeat constructor.
    + scripted (@nil string) ("500 what" ++ PyStr.CRLF)%string 500%Z.
    + scripted (@nil string) ("502 no tls" ++ PyStr.CRLF)%string 502%Z.
    + scripted (@nil string) ("500 what" ++ PyStr.CRLF)%string 500%Z.
    + scripted (@nil string) ("535 no" ++ PyStr.CRLF)%string 535%Z.
    + scripted (@nil string) ("535 no" ++ PyStr.CRLF)%string 535%Z.
    + scripted (@nil string) ("535 no" ++ PyStr.CRLF)%string 535%Z.
  - reflexivity.
  - reflexivity.
Defined.

(** X6: When the TCP connection is refused, [connect] raises [OSError] before
    anything is written or read. The client is left holding the socket it
    created, which has not been closed, and has no reader. *)
Theorem connect_refused {L : PyLib} (config : SMTPConfig) (w : World) :
  connect_ok w = false ->
  SMTPClient.connect config (fresh w) = (Raised OSError, opened w None).
Proof.
  intros Hc.
  change (SMTPClient.connect config (fresh w))
    with (SMTPClient.handshake config (List.length (socks w)) (opened w None)).
  unfold SMTPClient.handshake. unfold bind at 1, socket_connect.
  cbn [opened world connect_ok]. now rewrite Hc.
Qed.

Lemma connect_refused_witness :
  SMTPClient.connect (L := example_lib) cfg0
    (fresh {| rx := [line "220 ready"]; tx := []; tx_budget := None;
              connect_ok := false; tls_ok := true; socks := [] |})
  = (Raised OSError,
     {| self := {| _socket := Some 0; _file := None |};
        world := {| rx := [line "220 ready"]; tx := []; tx_budget := None;
                    connect_ok := false; tls_ok := true;
                    socks := [owning 0] |} |}).
Proof.
  exact (connect_refused (L := example_lib) cfg0
           {| rx := [line "220 ready"]; tx := []; tx_budget := None;
              connect_ok := false; tls_ok := true; socks := [] |} eq_refl).
Defined.

(** X8: The two lines [auth_login] writes after AUTH LOGIN decode to the bytes
    of the user name and of the password; the status codes of the three
    responses are not looked at. *)
Theorem auth_lines_decode {L : PyLib} (config : SMTPConfig) (st : St)
        (b1 b2 b3 rest : list RxEvent) (c1 c2 c3 : Z) (t1 t2 t3 : string) :
  ready st ->
  reply_block b1 c1 t1 ->
  reply_block b2 c2 t2 ->
  reply_block b3 c3 t3 ->
  rx (world st) = b1 ++ b2 ++ b3 ++ rest ->
  exists u p,
    SMTPClient.auth_login config st
    = (Returned tt,
       advance st [AUTH_CMD; (u ++ PyStr.CRLF)%string; (p ++ PyStr.CRLF)%string]
               rest)
    /\ Base64.b64decode u = PyStr.encode (username config)
    /\ Base64.b64decode p = PyStr.encode (password config).
Proof.
  intros Hr H1 H2 H3 Hrx.
  exists (Base64.b64encode (PyStr.encode (username config))),
         (Base64.b64encode (PyStr.encode (password config))).
  split; [|split; apply decode_b64encode].
  now apply auth_script with (b1 := b1) (b2 := b2) (b3 := b3)
    (c1 := c1) (c2 := c2) (c3 := c3) (t1 := t1) (t2 := t2) (t3 := t3).
Qed.

Lemma auth_lines_decode_witness :
  exists u p,
    SMTPClient.auth_login (L := example_lib) cfg_auth
      (session_on [line "334 VXNlcm5hbWU6"; line "334 UGFzc3dvcmQ6";
                   line "535 rejected"])
    = (Returned tt,
       advance (session_on [line "334 VXNlcm5hbWU6"; line "334 UGFzc3dvcmQ6";
                            line "535 rejected"])
         [AUTH_CMD; (u ++ PyStr.CRLF)%string; (p ++ PyStr.CRLF)%string] [])
    /\ Base64.b64decode u = PyStr.encode "user@example.com"
    /\ Base64.b64decode p = PyStr.encode "password".
Proof.
  apply (auth_lines_decode (L := example_lib) cfg_auth
           (session_on [line "334 VXNlcm5hbWU6"; line "334 UGFzc3dvcmQ6";
                        line "535 rejected"])
           [line "334 VXNlcm5hbWU6"] [line "334 UGFzc3dvcmQ6"]
           [line "535 rejected"] []
           334%Z 334%Z 535%Z
           "334 VXNlcm5hbWU6" "334 UGFzc3dvcmQ6" "535 rejected").
  - is_ready.
  - scripted (@nil string) ("334 VXNlcm5hbWU6" ++ PyStr.CRLF)%string 334%Z.
  - scripted (@nil string) ("334 UGFzc3dvcmQ6" ++ PyStr.CRLF)%string 334%Z.
  - scripted (@nil string) ("535 rejected" ++ PyStr.CRLF)%string 535%Z.
  - reflexivity.
Defined.

Lemma firstn_app_exact (A : Type) (l l' : list A) :
  firstn (List.length l) (l ++ l') = l.
Proof.
  now rewrite firstn_app, Nat.sub_diag, firstn_all, firstn_O, app_nil_r.
Qed.

(** X9: However [connect] ends, the sockets that were there before are as they
    were, and [connect] has made one socket, or two: the socket of line 76
    and, with [use_tls], the TLS wrapper that takes over its descriptor. The
    client holds the wrapper once the handshake has succeeded and the socket
    of line 76 otherwise. [connect] calls [close()] on no socket; the one
    socket that can have been closed is the wrapper of a TLS handshake that
    failed, which the library closes, and [connect] then raises
    [OSError]. *)
Theorem connect_opens_one_socket {L : PyLib} (config : SMTPConfig) (w : World) :
  firstn (List.length (socks w))
    (socks (world (snd (SMTPClient.connect config (fresh w)))))
  = socks w
  /\ ((_socket (self (snd (SMTPClient.connect config (fresh w))))
       = Some (List.length (socks w))
       /\ socks (world (snd (SMTPClient.connect config (fresh w))))
          = socks w ++ [owning 0])
      \/ (use_tls config = true
          /\ tls_ok w = true
          /\ _socket (self (snd (SMTPClient.connect config (fresh w))))
             = Some (S (List.length (socks w)))
          /\ socks (world (snd (SMTPClient.connect config (fresh w))))
             = socks w ++ [gone 0; owning 0])
      \/ (use_tls config = true
          /\ tls_ok w = false
          /\ fst (SMTPClient.connect config (fresh w)) = Raised OSError
          /\ _socket (self (snd (SMTPClient.connect config (fresh w))))
             = Some (List.length (socks w))
          /\ socks (world (snd (SMTPClient.connect config (fresh w))))
             = socks w ++ [gone 0; owning 1])).
Proof.
  destruct (connect_frame config w)
    as [(F1 & F2 & _) | [(Hu & Ht & F1 & F2) | (Hu & Ht & F3 & F1 & F2)]];
    rewrite F2; (split; [apply firstn_app_exact|]).
  - left. split; [exact F1 | reflexivity].
  - right. left. repeat split; assumption.
  - right. right. repeat split; assumption.
Qed.

Lemma read_response_env {L : PyLib} (st : St) :
  tx (world (snd (SMTPClient._read_response st))) = tx (world st)
  /\ tls_ok (world (snd (SMTPClient._read_response st))) = tls_ok (world st)
  /\ tx_budget (world (snd (SMTPClient._read_response st)))
     = tx_budget (world st).
Proof.
  unfold SMTPClient._read_response.
  destruct (_file (self st)); [|now repeat split].
  destruct (SMTPClient.read_lines _ _) as [[lines| |] rest];
    try destruct (py_int _); now repeat split.
Qed.

Lemma command_log {L : PyLib} (cmd : string) (st : St) :
  exists written : bool,
    tx (world (snd (SMTPClient._command cmd st)))
    = tx (world st) ++ (if written then [(cmd ++ PyStr.CRLF)%string] else [])
    /\ tls_ok (world (snd (SMTPClient._command cmd st))) = tls_ok (world st)
    /\ (forall v, fst (SMTPClient._command cmd st) = Returned v
                  -> written = true).
Proof.
  unfold SMTPClient._command, bind, sendall.
  destruct (_socket (self st)) as [h|].
  2:{ exists false. cbn. rewrite app_nil_r. repeat split. discriminate. }
  destruct (is_detached (world st) h).
  1:{ exists false. cbn. rewrite app_nil_r. repeat split. discriminate. }
  destruct (tx_budget (world st)) as [[|n]|].
  - exists false. cbn. rewrite app_nil_r. repeat split. discriminate.
  - match goal with
    | |- context [SMTPClient._read_response ?s] =>
        destruct (read_response_env s) as (Ht & Hs & _);
        destruct (SMTPClient._read_response s) as [o s1]
    end.
    exists true. cbn in *. destruct o; cbn; rewrite Ht, Hs; now repeat split.
  - match goal with
    | |- context [SMTPClient._read_response ?s] =>
        destruct (read_response_env s) as (Ht & Hs & _);
        destruct (SMTPClient._read_response s) as [o s1]
    end.
    exists true. cbn in *. destruct o; cbn; rewrite Ht, Hs; now repeat split.
Qed.

(** X7: With [use_tls] set and a TLS handshake that fails, [connect] never
    returns normally, and whatever else happens it has written at most the
    first EHLO and STARTTLS: no AUTH LOGIN line and no credential leaves the
    client. *)
Theorem tls_failure_sends_no_credentials {L : PyLib} (config : SMTPConfig)
        (w : World) :
  use_tls config = true ->
  tls_ok w = false ->
  (forall u, fst (SMTPClient.connect config (fresh w)) <> Returned u)
  /\ exists n,
       tx (world (snd (SMTPClient.connect config (fresh w))))
       = tx w ++ firstn n [EHLO_CMD; STARTTLS_CMD].
Proof.
  intros Hu Ht.
  remember (SMTPClient.connect config (fresh w)) as r eqn:Er.
  change (SMTPClient.connect config (fresh w))
    with (SMTPClient.handshake config (List.length (socks w)) (opened w None))
    in Er.
  set (h := List.length (socks w)) in Er.
  unfold SMTPClient.handshake in Er. unfold bind at 1, socket_connect in Er.
  cbn [opened world connect_ok] in Er.
  destruct (connect_ok w).
  2:{ subst r. split; [discriminate|]. exists 0. cbn. now rewrite app_nil_r. }
  unfold bind at 1, set_file in Er.
  change (with_self _ _) with (opened w (Some h)) in Er.
  unfold bind at 1 in Er.
  destruct (read_response_env (opened w (Some h))) as (T1 & S1 & _).
  destruct (SMTPClient._read_response (opened w (Some h))) as [[v1|e1|] s1];
    cbn [fst snd] in *.
  2,3: subst r; split; [discriminate|]; exists 0; cbn;
       now rewrite app_nil_r, T1.
  unfold bind at 1 in Er.
  destruct (command_log "EHLO localhost" s1) as (k2 & T2 & S2 & K2).
  destruct (SMTPClient._command "EHLO localhost" s1) as [[v2|e2|] s2];
    cbn [fst snd] in *.
  2,3: subst r; split; [discriminate|]; destruct k2;
       [exists 1 | exists 0]; cbn [fst snd]; rewrite T2, T1; reflexivity.
  rewrite (K2 v2 eq_refl) in T2. clear K2.
  unfold bind at 1 in Er. rewrite Hu in Er. unfold SMTPClient.starttls in Er.
  unfold bind at 1 in Er.
  destruct (command_log "STARTTLS" s2) as (k3 & T3 & S3 & K3).
  destruct (SMTPClient._command "STARTTLS" s2) as [[v3|e3|] s3];
    cbn [fst snd] in *.
  2,3: subst r; split; [discriminate|]; destruct k3;
       [exists 2 | exists 1]; cbn [fst snd]; rewrite T3, T2, T1; cbn;
       rewrite <- ?app_assoc, ?app_nil_r; reflexivity.
  rewrite (K3 v3 eq_refl) in T3. clear K3.
  unfold bind at 1, wrap_socket in Er.
  rewrite S3, S2, S1 in Er. cbn [opened world tls_ok] in Er. rewrite Ht in Er.
  subst r. cbn [fst snd with_world world set_socks tx]. split; [discriminate|].
  exists 2. rewrite T3, T2, T1. cbn. now rewrite <- app_assoc.
Qed.

Lemma tls_failure_sends_no_credentials_witness :
  exists n,
    tx (world (snd (SMTPClient.connect (L := example_lib) cfg_auth
                      (fresh {| rx := [line "220 ready"; line "250 ok";
                                       line "454 tls not available";
                                       line "250 ok"; line "334 go";
                                       line "334 go"; line "235 ok"];
                                tx := []; tx_budget := None;
                                connect_ok := true; tls_ok := false;
                                socks := [] |}))))
    = [] ++ firstn n [EHLO_CMD; STARTTLS_CMD].
Proof.
  exact (proj2 (tls_failure_sends_no_credentials (L := example_lib) cfg_auth
                  {| rx := [line "220 ready"; line "250 ok";
                            line "454 tls not available";
                            line "250 ok"; line "334 go";
                            line "334 go"; line "235 ok"];
                     tx := []; tx_budget := None;
                     connect_ok := true; tls_ok := false;
                     socks := [] |} eq_refl eq_refl)).
Defined.

(* ================================================================= *)
(** ** More on [send] *)

Section SendLogs.

Context {L : PyLib}.
Variable config : SMTPConfig.

(** [send] up to the DATA phase, when MAIL FROM and every RCPT TO are
    accepted. *)
Lemma send_reaches_data (email : Email) (st : St) (mail_blk : list RxEvent)
      (mail_text : string) (blks : list (list RxEvent))
      (replies : list (Z * string)) (rest : list RxEvent) :
  ready st ->
  reply_block mail_blk 250 mail_text ->
  reply_blocks blks replies ->
  List.length replies = List.length (recipients_of email) ->
  forallb (fun r => accepted (fst r)) replies = true ->
  rx (world st) = mail_blk ++ List.concat blks ++ rest ->
  SMTPClient.send config email st
  = SMTPClient.data_step config email
      (advance st (mail_cmd config email :: map rcpt_cmd (recipients_of email))
               rest).
Proof.
  intros Hr Hm Hb Hlen Hacc Hrx.
  rewrite (send_script_rcpt config email st mail_blk mail_text blks replies
             rest Hr Hm Hb Hlen Hrx).
  apply (first_rejected_none (recipients_of email) replies Hlen) in Hacc.
  now rewrite Hacc.
Qed.

Lemma data_step_rejected (email : Email) (st : St) (blk : list RxEvent)
      (code : Z) (text : string) (rest : list RxEvent) :
  ready st ->
  reply_block blk code text ->
  Z.eqb code 354 = false ->
  rx (world st) = blk ++ rest ->
  SMTPClient.data_step config email st
  = (Raised (SMTPError ("DATA failed: " ++ text)), advance st [DATA_CMD] rest).
Proof.
  intros Hr Hb Hc Hrx. unfold SMTPClient.data_step, bind at 1.
  erewrite command_block; [ | exact Hr | exact Hb | exact Hrx ].
  now rewrite Hc.
Qed.

Lemma data_step_build_raises (email : Email) (st : St) (blk : list RxEvent)
      (text : string) (rest : list RxEvent) (e : exn) :
  ready st ->
  reply_block blk 354 text ->
  SMTPClient._build_message config email = Raised e ->
  rx (world st) = blk ++ rest ->
  SMTPClient.data_step config email st
  = (Raised e, advance st [DATA_CMD] rest).
Proof.
  intros Hr Hb He Hrx. unfold SMTPClient.data_step, bind at 1.
  erewrite command_block; [ | exact Hr | exact Hb | exact Hrx ].
  cbn [Z.eqb Pos.eqb negb]. unfold bind at 1, SMTPClient.lift.
  now rewrite He.
Qed.

Lemma send_accepted_script (email : Email) (st : St) (doc : string)
      (mail_blk : list RxEvent) (mail_text : string)
      (blks : list (list RxEvent)) (replies : list (Z * string))
      (data_blk dot_blk : list RxEvent) (data_text dot_text : string)
      (rest : list RxEvent) :
  ready st ->
  SMTPClient._build_message config email = Returned doc ->
  reply_block mail_blk 250 mail_text ->
  reply_blocks blks replies ->
  List.length replies = List.length (recipients_of email) ->
  forallb (fun r => accepted (fst r)) replies = true ->
  reply_block data_blk 354 data_text ->
  reply_block dot_blk 250 dot_text ->
  rx (world st) = mail_blk ++ List.concat blks ++ data_blk ++ dot_blk ++ rest ->
  SMTPClient.send config email st
  = (Returned true, advance st (message_cmds config email doc) rest).
Proof.
  intros Hr Hdoc Hm Hb Hlen Hacc Hd Hdot Hrx.
  rewrite (send_reaches_data email st mail_blk mail_text blks replies
             (data_blk ++ dot_blk ++ rest) Hr Hm Hb Hlen Hacc Hrx).
  erewrite data_step_script;
    [ | now apply advance_ready | exact Hdoc | exact Hd | exact Hdot
      | reflexivity ].
  cbn [Z.eqb Pos.eqb negb]. rewrite advance_advance.
  unfold message_cmds. cbn [app]. reflexivity.
Qed.

End SendLogs.

(** X10: When every step is accepted, [send] returns [True] and has written, in
    this order and nothing else: MAIL FROM, one RCPT TO per recipient, DATA,
    the document exactly as [as_string] gave it (no line of it is changed,
    nothing is added after it), and the line holding the single dot. *)
Theorem send_success_log {L : PyLib} (config : SMTPConfig) (email : Email)
        (st : St) (doc : string)
        (mail_blk : list RxEvent) (mail_text : string)
        (blks : list (list RxEvent)) (replies : list (Z * string))
        (data_blk dot_blk : list RxEvent) (data_text dot_text : string)
        (rest : list RxEvent) :
  ready st ->
  SMTPClient._build_message config email = Returned doc ->
  reply_block mail_blk 250 mail_text ->
  reply_blocks blks replies ->
  List.length replies = List.length (recipients_of email) ->
  forallb (fun r => accepted (fst r)) replies = true ->
  reply_block data_blk 354 data_text ->
  reply_block dot_blk 250 dot_text ->
  rx (world st) = mail_blk ++ List.concat blks ++ data_blk ++ dot_blk ++ rest ->
  SMTPClient.send config email st
  = (Returned true,
     advance st
       (mail_cmd config email :: map rcpt_cmd (recipients_of email)
          ++ [DATA_CMD; doc; DOT_CMD])
       rest).
Proof.
  intros. now apply send_accepted_script with
    (mail_blk := mail_blk) (mail_text := mail_text) (blks := blks)
    (replies := replies) (data_blk := data_blk) (dot_blk := dot_blk)
    (data_text := data_text) (dot_text := dot_text).
Qed.

Lemma send_success_log_witness :
  SMTPClient.send (L := example_lib) cfg0 mail_three
    (session_on [line "250 ok"; line "250 ok"; line "251 will forward";
                 line "250 ok"; line "354 go"; line "250 queued"])
  = (Returned true,
     advance
       (session_on [line "250 ok"; line "250 ok"; line "251 will forward";
                    line "250 ok"; line "354 go"; line "250 queued"])
       [mail_cmd cfg0 mail_three; rcpt_cmd "a@b.com"; rcpt_cmd "c@d.com";
        rcpt_cmd "e@f.com"; DATA_CMD;
        header_block
          (Mime.Msg (Mime.MIMEText "hello" "plain")
             [("Subject", "Hi"); ("From", "me@b.com"); ("To", "a@b.com");
              ("Cc", "c@d.com")]
             (Mime.PText "hello"));
        DOT_CMD] []).
Proof.
  apply (send_success_log (L := example_lib) cfg0 mail_three
           (session_on [line "250 ok"; line "250 ok"; line "251 will forward";
                        line "250 ok"; line "354 go"; line "250 queued"])
           (header_block
              (Mime.Msg (Mime.MIMEText "hello" "plain")
                 [("Subject", "Hi"); ("From", "me@b.com"); ("To", "a@b.com");
                  ("Cc", "c@d.com")]
                 (Mime.PText "hello")))
           [line "250 ok"] "250 ok"
           [[line "250 ok"]; [line "251 will forward"]; [line "250 ok"]]
           [(250%Z, "250 ok"); (251%Z, "251 will forward"); (250%Z, "250 ok")]
           [line "354 go"] [line "250 queued"] "354 go" "250 queued" []).
  - is_ready.
  - reflexivity.
  - scripted (@nil string) ("250 ok" ++ PyStr.CRLF)%string 250%Z.
  - repeat constructor.
    + scripted (@nil string) ("250 ok" ++ PyStr.CRLF)%string 250%Z.
    + scripted (@nil string) ("251 will forward" ++ PyStr.CRLF)%string 251%Z.
    + scripted (@nil string) ("250 ok" ++ PyStr.CRLF)%string 250%Z.
  - reflexivity.
  - reflexivity.
  - scripted (@nil string) ("354 go" ++ PyStr.CRLF)%string 354%Z.
  - scripted (@nil string) ("250 queued" ++ PyStr.CRLF)%string 250%Z.
  - reflexivity.
Defined.

(** X11: A MAIL FROM that is not answered with 250 ends [send] at once: the MAIL
    FROM line is the only thing written, no recipient is announced and no
    DATA is sent. *)
Theorem send_stops_at_rejected_mail {L : PyLib} (config : SMTPConfig)
        (email : Email) (st : St) (blk : list RxEvent) (code : Z)
        (text : string) (rest : list RxEvent) :
  ready st ->
  reply_block blk code text ->
  Z.eqb code 250 = false ->
  rx (world st) = blk ++ rest ->
  SMTPClient.send config email st
  = (Raised (SMTPError ("MAIL FROM failed: " ++ text)),
     advance st [mail_cmd config email] rest).
Proof.
  intros Hr Hb Hc Hrx. unfold SMTPClient.send, bind at 1.
  erewrite mail_from_script; [ | exact Hr | exact Hb | exact Hrx ].
  now rewrite Hc.
Qed.

Lemma send_stops_at_rejected_mail_witness :
  SMTPClient.send (L := example_lib) cfg0 mail_three
    (session_on [line "550 sender refused"; line "250 ok"])
  = (Raised (SMTPError "MAIL FROM failed: 550 sender refused"),
     advance (session_on [line "550 sender refused"; line "250 ok"])
             [mail_cmd cfg0 mail_three] [line "250 ok"]).
Proof.
  apply (send_stops_at_rejected_mail (L := example_lib) cfg0 mail_three
           (session_on [line "550 sender refused"; line "250 ok"])
           [line "550 sender refused"] 550%Z "550 sender refused"
           [line "250 ok"]).
  - is_ready.
  - scripted (@nil string) ("550 sender refused" ++ PyStr.CRLF)%string 550%Z.
  - reflexivity.
  - reflexivity.
Defined.

(** X12: When DATA is not answered with 354, [send] raises [SMTPError] with
    nothing written after the DATA line. The message has not been built at
    that point, so this holds for messages that would not build as well. *)
Theorem send_data_rejected {L : PyLib} (config : SMTPConfig) (email : Email)
        (st : St) (mail_blk : list RxEvent) (mail_text : string)
        (blks : list (list RxEvent)) (replies : list (Z * string))
        (data_blk : list RxEvent) (code : Z) (text : string)
        (rest : list RxEvent) :
  ready st ->
  reply_block mail_blk 250 mail_text ->
  reply_blocks blks replies ->
  List.length replies = List.length (recipients_of email) ->
  forallb (fun r => accepted (fst r)) replies = true ->
  reply_block data_blk code text ->
  Z.eqb code 354 = false ->
  rx (world st) = mail_blk ++ List.concat blks ++ data_blk ++ rest ->
  SMTPClient.send config email st
  = (Raised (SMTPError ("DATA failed: " ++ text)),
     advance st
       (mail_cmd config email :: map rcpt_cmd (recipients_of email)
          ++ [DATA_CMD])
       rest).
Proof.
  intros Hr Hm Hb Hlen Hacc Hd Hc Hrx.
  rewrite (send_reaches_data config email st mail_blk mail_text blks replies
             (data_blk ++ rest) Hr Hm Hb Hlen Hacc Hrx).
  erewrite data_step_rejected;
    [ | now apply advance_ready | exact Hd | exact Hc | reflexivity ].
  now rewrite advance_advance.
Qed.

Lemma send_data_rejected_witness :
  SMTPClient.send (L := example_lib) cfg0 mail_bad_type
    (session_on [line "250 ok"; line "250 ok"; line "250 ok"; line "250 OK"])
  = (Raised (SMTPError "DATA failed: 250 OK"),
     advance
       (session_on [line "250 ok"; line "250 ok"; line "250 ok"; line "250 OK"])
       [mail_cmd cfg0 mail_bad_type; rcpt_cmd "a@b.com"; rcpt_cmd "e@f.com";
        DATA_CMD] []).
Proof.
  apply (send_data_rejected (L := example_lib) cfg0 mail_bad_type
           (session_on [line "250 ok"; line "250 ok"; line "250 ok";
                        line "250 OK"])
           [line "250 ok"] "250 ok"
           [[line "250 ok"]; [line "250 ok"]]
           [(250%Z, "250 ok"); (250%Z, "250 ok")]
           [line "250 OK"] 250%Z "250 OK" []).
  - is_ready.
  - scripted (@nil string) ("250 ok" ++ PyStr.CRLF)%string 250%Z.
  - repeat constructor.
    + scripted (@nil string) ("250 ok" ++ PyStr.CRLF)%string 250%Z.
    + scripted (@nil string) ("250 ok" ++ PyStr.CRLF)%string 250%Z.
  - reflexivity.
  - reflexivity.
  - scripted (@nil string) ("250 OK" ++ PyStr.CRLF)%string 250%Z.
  - reflexivity.
  - reflexivity.
Defined.

(** X13: A message with an attachment whose content type has no slash fails only
    after the server has accepted DATA: [send] raises [TypeError] with the
    DATA line written and neither a document nor the closing dot after it. *)
Theorem send_fails_in_data_phase {L : PyLib} (config : SMTPConfig)
        (email : Email) (st : St) (mail_blk : list RxEvent)
        (mail_text : string) (blks : list (list RxEvent))
        (replies : list (Z * string)) (data_blk : list RxEvent)
        (text : string) (rest : list RxEvent) :
  ready st ->
  forallb has_slash (attachments email) = false ->
  reply_block mail_blk 250 mail_text ->
  reply_blocks blks replies ->
  List.length replies = List.length (recipients_of email) ->
  forallb (fun r => accepted (fst r)) replies = true ->
  reply_block data_blk 354 text ->
  rx (world st) = mail_blk ++ List.concat blks ++ data_blk ++ rest ->
  SMTPClient.send config email st
  = (Raised TypeError,
     advance st
       (mail_cmd config email :: map rcpt_cmd (recipients_of email)
          ++ [DATA_CMD])
       rest).
Proof.
  intros Hr Hs Hm Hb Hlen Hacc Hd Hrx.
  rewrite (send_reaches_data config email st mail_blk mail_text blks replies
             (data_blk ++ rest) Hr Hm Hb Hlen Hacc Hrx).
  assert (Hbuild : SMTPClient._build_message config email = Raised TypeError).
  { unfold SMTPClient._build_message.
    pose proof (attach_all_cases (attachments email)) as Hc.
    unfold SMTPClient.message_object.
    rewrite headers_done, top_level_cases.
    assert (Ha : SMTPClient.has_attachments email = true).
    { unfold SMTPClient.has_attachments.
      destruct (attachments email); [discriminate | reflexivity]. }
    rewrite Ha. cbn [orb Mime.is_multipart Mime.class_of Mime._payload].
    rewrite text_parts_multipart.
    match goal with
    | |- context [SMTPClient.attach_all _ (Mime.Msg ?k ?h (Mime.PParts ?ps))] =>
        specialize (Hc k h ps)
    end.
    rewrite Hs in Hc. now rewrite Hc. }
  erewrite data_step_build_raises;
    [ | now apply advance_ready | exact Hd | exact Hbuild | reflexivity ].
  now rewrite advance_advance.
Qed.

Lemma send_fails_in_data_phase_witness :
  SMTPClient.send (L := example_lib) cfg0 mail_bad_type
    (session_on [line "250 ok"; line "250 ok"; line "250 ok"; line "354 go";
                 line "250 queued"])
  = (Raised TypeError,
     advance
       (session_on [line "250 ok"; line "250 ok"; line "250 ok"; line "354 go";
                    line "250 queued"])
       [mail_cmd cfg0 mail_bad_type; rcpt_cmd "a@b.com"; rcpt_cmd "e@f.com";
        DATA_CMD] [line "250 queued"]).
Proof.
  apply (send_fails_in_data_phase (L := example_lib) cfg0 mail_bad_type
           (session_on [line "250 ok"; line "250 ok"; line "250 ok";
                        line "354 go"; line "250 queued"])
           [line "250 ok"] "250 ok"
           [[line "250 ok"]; [line "250 ok"]]
           [(250%Z, "250 ok"); (250%Z, "250 ok")]
           [line "354 go"] "354 go" [line "250 queued"]).
  - is_ready.
  - reflexivity.
  - scripted (@nil string) ("250 ok" ++ PyStr.CRLF)%string 250%Z.
  - repeat constructor.
    + scripted (@nil string) ("250 ok" ++ PyStr.CRLF)%string 250%Z.
    + scripted (@nil string) ("250 ok" ++ PyStr.CRLF)%string 250%Z.
  - reflexivity.
  - reflexivity.
  - scripted (@nil string) ("354 go" ++ PyStr.CRLF)%string 354%Z.
  - reflexivity.
Defined.
(* ================================================================= *)
(** ** The validated steps of [send] *)

Section Steps.

Context {L : PyLib}.
Variable config : SMTPConfig.

Lemma verdict_fails (steps : list Step) : forall answers o,
  verdict steps answers = Some o ->
  ((exists msg, o = Raised (SMTPError msg))
   <-> some_step_fails steps answers = true)
  /\ (some_step_fails steps answers = false -> o = Returned true).
Proof.
  induction steps as [|s steps IH]; intros [|[code text] answers] o H;
    cbn in H; try discriminate.
  - injection H as <-. cbn.
    split; [split; [intros [msg Hm]; discriminate | discriminate] | reflexivity].
  - cbn. destruct (wanted s code); cbn.
    + now apply IH.
    + destruct answers; [|discriminate]. injection H as <-.
      split; [split; eauto | discriminate].
Qed.

(** The recipient loop against the replies of a session: it stops with the
    error of the first reply that is rejected, which is then the last reply
    of the session, or it gets through and leaves the replies to the steps
    that follow. *)
Lemma rcpt_loop_verdict (recipients : list string) (tail : list Step) :
  forall st blks answers rest o,
    ready st ->
    reply_blocks blks answers ->
    rx (world st) = List.concat blks ++ rest ->
    verdict (map rcpt_step recipients ++ tail) answers = Some o ->
    (exists e sent,
        o = Raised e
        /\ SMTPClient.rcpt_loop recipients st = (Raised e, advance st sent rest))
    \/ (exists blks2 answers2 sent,
          reply_blocks blks2 answers2
          /\ List.length answers
             = List.length recipients + List.length answers2
          /\ verdict tail answers2 = Some o
          /\ SMTPClient.rcpt_loop recipients st
             = (Returned tt, advance st sent (List.concat blks2 ++ rest))).
Proof.
  induction recipients as [|r rs IH]; intros st blks answers rest o Hr Hb Hrx Hv.
  - right. exists blks, answers, []. repeat split; try assumption.
    cbn. rewrite <- Hrx. now rewrite advance_nil.
  - destruct answers as [|[code text] answers']; [discriminate|].
    inversion Hb as [|blk ? blks' ? Hblk Hb']; subst. cbn [fst snd] in Hblk.
    cbn [List.concat] in Hrx. rewrite <- app_assoc in Hrx.
    cbn [map app verdict rcpt_step wanted failure] in Hv.
    assert (Ec : SMTPClient.rcpt_loop (r :: rs) st
                 = if (negb (Z.eqb code 250) && negb (Z.eqb code 251))%bool
                   then (Raised (SMTPError ("RCPT TO failed for " ++ r ++ ": "
                                              ++ text)),
                         advance st [rcpt_cmd r] (List.concat blks' ++ rest))
                   else SMTPClient.rcpt_loop rs
                          (advance st [rcpt_cmd r] (List.concat blks' ++ rest))).
    { cbn [SMTPClient.rcpt_loop]. unfold bind.
      erewrite command_block; [ | exact Hr | exact Hblk | exact Hrx ].
      now destruct (negb (Z.eqb code 250) && negb (Z.eqb code 251))%bool. }
    rewrite Ec. clear Ec. unfold accepted in Hv.
    destruct (Z.eqb code 250) eqn:E0, (Z.eqb code 251) eqn:E1;
      cbn [negb andb orb] in *;
      try (destruct (IH (advance st [rcpt_cmd r] (List.concat blks' ++ rest))
                        blks' answers' rest o
                        (advance_ready _ _ _ Hr) Hb' eq_refl Hv)
             as [(e & sent & He & E) | (blks2 & a2 & sent & Hb2 & Hl & Hv2 & E)];
           [ left; exists e; eexists; split; [exact He|];
             rewrite E, advance_advance; reflexivity
           | right; exists blks2, a2; eexists;
             split; [exact Hb2|]; split; [cbn; now rewrite Hl|];
             split; [exact Hv2|];
             rewrite E, advance_advance; reflexivity ]).
    destruct answers'; [|discriminate]. injection Hv as <-.
    inversion Hb'; subst. left. do 2 eexists. split; reflexivity.
Qed.

(** [send] against the replies of a session. *)
Lemma send_verdict (email : Email) (st : St) (blks : list (list RxEvent))
      (answers : list (Z * string)) (rest : list RxEvent) (o : outcome bool) :
  ready st ->
  reply_blocks blks answers ->
  rx (world st) = List.concat blks ++ rest ->
  verdict (validated_steps email) answers = Some o ->
  (List.length answers = List.length (validated_steps email) ->
   exists doc, SMTPClient._build_message config email = Returned doc) ->
  exists sent, SMTPClient.send config email st = (o, advance st sent rest).
Proof.
  intros Hr Hb Hrx Hv Hdoc. unfold validated_steps in *.
  destruct answers as [|[c0 t0] a1]; [discriminate|].
  inversion Hb as [|b0 ? blks1 ? Hb0 Hb1]; subst. cbn [fst snd] in Hb0.
  cbn [List.concat] in Hrx. rewrite <- app_assoc in Hrx.
  cbn [verdict mail_step wanted failure] in Hv.
  unfold SMTPClient.send. fold (recipients_of email).
  unfold bind at 1.
  erewrite mail_from_script; [ | exact Hr | exact Hb0 | exact Hrx ].
  destruct (Z.eqb c0 250) eqn:E0; cbn [negb].
  2:{ destruct a1; [|discriminate]. injection Hv as <-.
      inversion Hb1; subst. eexists. reflexivity. }
  unfold bind at 1.
  destruct (rcpt_loop_verdict (recipients_of email) [data_cmd_step; dot_step]
              (advance st [mail_cmd config email] (List.concat blks1 ++ rest))
              blks1 a1 rest o (advance_ready _ _ _ Hr) Hb1 eq_refl Hv)
    as [(e & sent & -> & E) | (blks2 & a2 & sent & Hb2 & Hl & Hv2 & E)];
    rewrite E, advance_advance; [eexists; reflexivity|].
  destruct a2 as [|[c t] a3]; [discriminate|].
  inversion Hb2 as [|bd ? blks3 ? Hbd Hb3]; subst. cbn [fst snd] in Hbd.
  cbn [verdict data_cmd_step wanted failure] in Hv2.
  cbn [List.concat]. rewrite <- app_assoc.
  destruct (Z.eqb c 354) eqn:E1.
  2:{ destruct a3; [|discriminate]. injection Hv2 as <-.
      inversion Hb3; subst.
      erewrite data_step_rejected;
        [ | now apply advance_ready | exact Hbd | exact E1 | reflexivity ].
      rewrite advance_advance. eexists. reflexivity. }
  destruct a3 as [|[c' t'] a4]; [discriminate|].
  inversion Hb3 as [|bt ? blks4 ? Hbt Hb4]; subst. cbn [fst snd] in Hbt.
  cbn [verdict dot_step wanted failure] in Hv2.
  assert (Hdot : a4 = [] /\ blks4 = []
                 /\ o = if negb (Z.eqb c' 250)
                        then Raised (SMTPError ("Send failed: " ++ t'))
                        else Returned true).
  { destruct (Z.eqb c' 250); destruct a4; try discriminate;
      inversion Hb4; subst; injection Hv2 as <-; now repeat split. }
  destruct Hdot as (-> & -> & ->).
  destruct Hdoc as [doc Hdoc].
  { cbn [List.length] in *. rewrite length_app, length_map. cbn. lia. }
  cbn [List.concat]. rewrite <- app_assoc.
  erewrite data_step_script;
    [ | now apply advance_ready | exact Hdoc | exact Hbd | exact Hbt
      | reflexivity ].
  rewrite E1. cbn [negb]. rewrite advance_advance. eexists. reflexivity.
Qed.

End Steps.

(** C5: [answers] are the replies of the server to the commands [send]
    issues, each a well-formed response: to MAIL FROM, to the RCPT TO
    commands, to DATA and to the final dot, as far as the session gets. It
    ends with the first reply that is not the code its step wants (250 for
    MAIL FROM, 250 or 251 for RCPT TO, 354 for DATA, 250 for the dot), or it
    has a reply for every step; when it gets as far as the dot the message
    is one that [_build_message] serializes. Then [send] ends as the replies
    decide and has read all of them: it raises [SMTPError] exactly when some
    reply fails its step, with a message that names the step (and for RCPT
    TO the address) and carries the text of that reply; when no reply fails,
    it returns [True]. *)
Theorem send_raises_iff_step_fails {L : PyLib} (config : SMTPConfig)
        (email : Email) (st : St) (blks : list (list RxEvent))
        (answers : list (Z * string)) (rest : list RxEvent)
        (o : outcome bool) :
  ready st ->
  reply_blocks blks answers ->
  rx (world st) = List.concat blks ++ rest ->
  verdict (validated_steps email) answers = Some o ->
  (List.length answers = List.length (validated_steps email) ->
   exists doc, SMTPClient._build_message config email = Returned doc) ->
  fst (SMTPClient.send config email st) = o
  /\ rx (world (snd (SMTPClient.send config email st))) = rest
  /\ ((exists msg,
         fst (SMTPClient.send config email st) = Raised (SMTPError msg))
      <-> some_step_fails (validated_steps email) answers = true)
  /\ (some_step_fails (validated_steps email) answers = false ->
      fst (SMTPClient.send config email st) = Returned true).
Proof.
  intros Hr Hb Hrx Hv Hdoc.
  destruct (send_verdict config email st blks answers rest o Hr Hb Hrx Hv Hdoc)
    as [sent E].
  rewrite E. cbn [fst snd]. split; [reflexivity|]. split; [reflexivity|].
  exact (verdict_fails (validated_steps email) answers o Hv).
Qed.

(** A session that ends with the rejected MAIL FROM, one that ends with a
    rejected recipient, and one that gets through. *)
Lemma send_raises_iff_step_fails_witness :
  fst (SMTPClient.send (L := example_lib) cfg0 mail_plain
         (session_on [line "550 sender refused"]))
  = Raised (SMTPError "MAIL FROM failed: 550 sender refused")
  /\ fst (SMTPClient.send (L := example_lib) cfg0 mail_plain
            (session_on [line "250 ok"; line "550 no such user"]))
     = Raised (SMTPError "RCPT TO failed for a@b.com: 550 no such user")
  /\ fst (SMTPClient.send (L := example_lib) cfg0 mail_plain
            (session_on [line "250 ok"; line "250 ok"; line "354 go";
                         line "250 queued"]))
     = Returned true.
Proof.
  split; [|split].
  - apply (send_raises_iff_step_fails (L := example_lib) cfg0 mail_plain
             (session_on [line "550 sender refused"])
             [[line "550 sender refused"]]
             [(550%Z, "550 sender refused")] []
             (Raised (SMTPError "MAIL FROM failed: 550 sender refused"))).
    + is_ready.
    + repeat constructor.
      scripted (@nil string) ("550 sender refused" ++ PyStr.CRLF)%string 550%Z.
    + reflexivity.
    + reflexivity.
    + discriminate.
  - apply (send_raises_iff_step_fails (L := example_lib) cfg0 mail_plain
             (session_on [line "250 ok"; line "550 no such user"])
             [[line "250 ok"]; [line "550 no such user"]]
             [(250%Z, "250 ok"); (550%Z, "550 no such user")] []
             (Raised (SMTPError
                        "RCPT TO failed for a@b.com: 550 no such user"))).
    + is_ready.
    + repeat constructor.
      * scripted (@nil string) ("250 ok" ++ PyStr.CRLF)%string 250%Z.
      * scripted (@nil string) ("550 no such user" ++ PyStr.CRLF)%string 550%Z.
    + reflexivity.
    + reflexivity.
    + discriminate.
  - apply (send_raises_iff_step_fails (L := example_lib) cfg0 mail_plain
             (session_on [line "250 ok"; line "250 ok"; line "354 go";
                          line "250 queued"])
             [[line "250 ok"]; [line "250 ok"]; [line "354 go"];
              [line "250 queued"]]
             [(250%Z, "250 ok"); (250%Z, "250 ok"); (354%Z, "354 go");
              (250%Z, "250 queued")] []
             (Returned true)).
    + is_ready.
    + repeat constructor.
      * scripted (@nil string) ("250 ok" ++ PyStr.CRLF)%string 250%Z.
      * scripted (@nil string) ("250 ok" ++ PyStr.CRLF)%string 250%Z.
      * scripted (@nil string) ("354 go" ++ PyStr.CRLF)%string 354%Z.
      * scripted (@nil string) ("250 queued" ++ PyStr.CRLF)%string 250%Z.
    + reflexivity.
    + reflexivity.
    + intros _. eexists. reflexivity.
    + reflexivity.
Defined.


(** *** The sender of the envelope *)

Lemma send_writes_MAIL {L : PyLib} (config : SMTPConfig) (email : Email)
      (st : St) :
  ready st ->
  exists later,
    tx (world (snd (SMTPClient.send config email st)))
    = tx (world st) ++ mail_cmd config email :: later.
Proof.
  intros Hr.
  pose proof (carries_bind tx_grows tx_grows_trans) as B.
  pose proof (fun A a => carries_ret tx_grows tx_grows_refl A a) as Rt.
  pose proof (fun A e => carries_raise tx_grows tx_grows_refl A e) as Rr.
  assert (T : forall st1,
             tx_grows st1
               (snd (bind SMTPClient._read_response
                       (fun r : Z * string =>
                          bind (let (code, msg) := r in
                                if negb (Z.eqb code 250)
                                then raise (SMTPError ("MAIL FROM failed: " ++ msg))
                                else ret tt)
                            (fun _ =>
                               bind (SMTPClient.rcpt_loop
                                       (to email ++ cc email ++ bcc email))
                                 (fun _ => SMTPClient.data_step config email)))
                       st1))).
  { apply B; [apply read_response_tx_grows|].
    intros [code msg]. apply B.
    - destruct (negb (Z.eqb code 250)); [apply Rr | apply Rt].
    - intros _. apply B.
      + apply carries_rcpt_loop; tx_frame.
      + intros _. apply carries_data_step; tx_frame. }
  destruct (T (advance st [mail_cmd config email] (rx (world st))))
    as [later E].
  exists later.
  unfold SMTPClient.send, SMTPClient.mail_from_step, SMTPClient._command.
  unfold bind at 1. unfold bind at 1. unfold bind at 1.
  rewrite sendall_ready by exact Hr.
  unfold bind in E at 1. unfold bind in E at 1.
  unfold mail_cmd in *.
  etransitivity; [|etransitivity; [exact E|]].
  - destruct (SMTPClient._read_response _) as [[[code msg]| |] s1];
      reflexivity.
  - cbn. now rewrite <- app_assoc.
Qed.

(** X14: The sender [send] announces in MAIL FROM is the value of the From header
    of the message it builds: the email's [from_addr], or the configured
    user name when [from_addr] is empty. *)
Theorem envelope_sender_is_from_header {L : PyLib} (config : SMTPConfig)
        (email : Email) (st : St) (m : Mime.Message) :
  ready st ->
  SMTPClient.message_object config email = Returned m ->
  exists sender later,
    sender = PyStr.or_else (from_addr email) (username config)
    /\ hd_error (Mime.get_all m "From") = Some sender
    /\ tx (world (snd (SMTPClient.send config email st)))
       = tx (world st)
           ++ (("MAIL FROM:<" ++ sender ++ ">") ++ PyStr.CRLF)%string :: later.
Proof.
  intros Hr Hm.
  destruct (send_writes_MAIL config email st Hr) as [later E].
  exists (PyStr.or_else (from_addr email) (username config)), later.
  split; [reflexivity|]. split; [|exact E].
  apply message_object_shape in Hm. destruct Hm as [_ Hh].
  rewrite standard_headers_list in Hh.
  unfold Mime.get_all. rewrite Hh. reflexivity.
Qed.

Lemma envelope_sender_is_from_header_witness :
  exists sender later,
    sender = "me@b.com"
    /\ hd_error
         (Mime.get_all
            (Mime.Msg (Mime.MIMEText "hello" "plain")
               [("Subject", "Hi"); ("From", "me@b.com"); ("To", "a@b.com");
                ("Cc", "c@d.com")]
               (Mime.PText "hello")) "From") = Some sender
    /\ tx (world (snd (SMTPClient.send (L := example_lib) cfg0 mail_three
                        (session_on [line "250 ok"]))))
       = [] ++ (("MAIL FROM:<" ++ sender ++ ">") ++ PyStr.CRLF)%string :: later.
Proof.
  apply (envelope_sender_is_from_header (L := example_lib) cfg0 mail_three
           (session_on [line "250 ok"])
           (Mime.Msg (Mime.MIMEText "hello" "plain")
              [("Subject", "Hi"); ("From", "me@b.com"); ("To", "a@b.com");
               ("Cc", "c@d.com")]
              (Mime.PText "hello"))).
  - is_ready.
  - reflexivity.
Defined.

(** *** What [send] and [close] do to the client *)

Section Untouched.

Context {L : PyLib}.

Lemma untouched_refl st : untouched st st.
Proof. now split. Qed.

Lemma untouched_trans a b c : untouched a b -> untouched b c -> untouched a c.
Proof. intros [H1 H2] [H3 H4]. split; congruence. Qed.

Lemma sendall_untouched data : carries untouched (sendall data).
Proof.
  intros st. unfold sendall.
  destruct (_socket (self st)) as [h|]; [|now split].
  destruct (is_detached (world st) h); [now split|].
  destruct (tx_budget (world st)) as [[|n]|]; now split.
Qed.

Lemma read_response_untouched : carries untouched SMTPClient._read_response.
Proof.
  intros st. unfold SMTPClient._read_response.
  destruct (_file (self st)); [|now split].
  destruct (SMTPClient.read_lines _ _) as [[lines| |] rest];
    try destruct (py_int _); now split.
Qed.

Lemma command_untouched cmd : carries untouched (SMTPClient._command cmd).
Proof.
  apply carries_command;
    [ exact untouched_trans | exact sendall_untouched
    | exact read_response_untouched ].
Qed.

Lemma read_response_same_tx (st : St) :
  tx (world (snd (SMTPClient._read_response st))) = tx (world st).
Proof. apply read_response_env. Qed.

End Untouched.

(** X15: [send] changes neither attribute of the client and creates or closes no
    socket, however it ends. *)
Theorem send_leaves_client_and_sockets {L : PyLib} (config : SMTPConfig)
        (email : Email) (st : St) :
  self (snd (SMTPClient.send config email st)) = self st
  /\ socks (world (snd (SMTPClient.send config email st))) = socks (world st).
Proof.
  apply (carries_send untouched untouched_refl untouched_trans
           sendall_untouched read_response_untouched config email st).
Qed.

(** [close] on a client that never connected returns and changes nothing:
    nothing is written, nothing is read, no socket is closed. *)
Theorem close_without_connect {L : PyLib} (w : World) :
  SMTPClient.close (fresh w) = (Returned tt, fresh w).
Proof. reflexivity. Qed.

(** X19: [close] does not reset the attributes of the client, however it ends,
    also when it does not return. So when the QUIT exchange of a first
    [close] and that of a second [close] both come to an end, the second
    [close] returns as well and has called [close()] on the same socket
    again: two calls in all. *)
Theorem close_keeps_attributes {L : PyLib} (st : St) :
  self (snd (SMTPClient.close st)) = self st
  /\ forall h,
       _socket (self st) = Some h ->
       h < List.length (socks (world st)) ->
       fst (SMTPClient._command "QUIT" st) <> Diverges ->
       fst (SMTPClient._command "QUIT" (snd (SMTPClient.close st)))
       <> Diverges ->
       fst (SMTPClient.close (snd (SMTPClient.close st))) = Returned tt
       /\ close_calls
            (world (snd (SMTPClient.close (snd (SMTPClient.close st))))) h
          = 2 + close_calls (world st) h.
Proof.
  assert (Hself : self (snd (SMTPClient.close st)) = self st).
  { unfold SMTPClient.close, bind, try_pass, get_socket, socket_close, ret.
    pose proof (command_untouched "QUIT" st) as [U _].
    destruct (SMTPClient._command "QUIT" st) as [[r|e|] st1]; cbn in U |- *;
      try destruct (_socket (self st1)); cbn; congruence. }
  split; [exact Hself|].
  intros h Hs Hl Hq1 Hq2.
  destruct (close_cases st) as [(Hd & _) | (_ & _ & Hb1)]; [congruence|].
  destruct (close_cases (snd (SMTPClient.close st)))
    as [(Hd & _) | (_ & Hr2 & Hb2)]; [congruence|].
  split; [exact Hr2|].
  assert (Hs1 : _socket (self (snd (SMTPClient.close st))) = Some h)
    by now rewrite Hself.
  unfold close_calls. rewrite (Hb2 h Hs1), (Hb1 h Hs).
  rewrite bump_close_calls by now rewrite bump_length.
  now rewrite bump_close_calls.
Qed.

Lemma close_keeps_attributes_witness :
  self (snd (SMTPClient.close (L := example_lib)
               (session_on [line "221 bye"; RxRaise OSError])))
  = {| _socket := Some 0; _file := Some 0 |}
  /\ self (snd (SMTPClient.close (L := example_lib) (session_on [])))
     = {| _socket := Some 0; _file := Some 0 |}
  /\ fst (SMTPClient.close (L := example_lib)
            (snd (SMTPClient.close (L := example_lib)
                    (session_on [line "221 bye"; RxRaise OSError]))))
     = Returned tt
  /\ close_calls
       (world (snd (SMTPClient.close (L := example_lib)
                      (snd (SMTPClient.close (L := example_lib)
                              (session_on [line "221 bye"; RxRaise OSError]))))))
       0 = 2 + 0.
Proof.
  split; [|split].
  - exact (proj1 (close_keeps_attributes (L := example_lib)
                    (session_on [line "221 bye"; RxRaise OSError]))).
  - exact (proj1 (close_keeps_attributes (L := example_lib) (session_on []))).
  - apply (proj2 (close_keeps_attributes (L := example_lib)
                    (session_on [line "221 bye"; RxRaise OSError])) 0).
    + reflexivity.
    + repeat constructor.
    + discriminate.
    + discriminate.
Defined.

(** X20: On a session that can write, [close] writes the QUIT line and nothing
    else, whatever the server answers and even when no answer comes. *)
Theorem close_writes_QUIT {L : PyLib} (st : St) :
  ready st ->
  tx (world (snd (SMTPClient.close st))) = tx (world st) ++ [QUIT_CMD].
Proof.
  intros Hr.
  unfold SMTPClient.close, SMTPClient._command.
  unfold bind at 1, try_pass. unfold bind at 1.
  rewrite sendall_ready by exact Hr.
  pose proof (read_response_same_tx
                (advance st [("QUIT" ++ PyStr.CRLF)%string] (rx (world st))))
    as T.
  destruct (SMTPClient._read_response _) as [[r|e|] s1]; cbn [fst snd] in *.
  - unfold bind, get_socket, socket_close, ret.
    destruct (_socket (self s1)); cbn; exact T.
  - unfold bind, get_socket, socket_close, ret.
    destruct (_socket (self s1)); cbn; exact T.
  - exact T.
Qed.

Lemma close_writes_QUIT_witness :
  tx (world (snd (SMTPClient.close (L := example_lib) (session_on []))))
  = [] ++ [QUIT_CMD].
Proof.
  apply (close_writes_QUIT (L := example_lib) (session_on [])).
  is_ready.
Defined.

(* ================================================================= *)
(** ** The whole session of the module-level [send] *)

Lemma close_script {L : PyLib} (st : St) (h : nat) (blk : list RxEvent)
      (code : Z) (text : string) (rest : list RxEvent) :
  ready st ->
  _socket (self st) = Some h ->
  reply_block blk code text ->
  rx (world st) = blk ++ rest ->
  SMTPClient.close st
  = (Returned tt,
     with_world (advance st [QUIT_CMD] rest)
       (set_socks (world (advance st [QUIT_CMD] rest))
                  (bump h (socks (world st))))).
Proof.
  intros Hr Hs Hb Hrx. unfold SMTPClient.close.
  unfold bind at 1, try_pass.
  erewrite command_block; [ | exact Hr | exact Hb | exact Hrx ].
  unfold bind, get_socket, socket_close.
  cbn [advance with_world self]. rewrite Hs. reflexivity.
Qed.

(** X21: The whole session against a server that accepts everything: the helper
    returns [True]; it has written the handshake lines, the lines of the
    message and QUIT, in this order and nothing else; it has read the
    responses up to the one to QUIT; and the socket the client held has
    received exactly one [close()]: the one socket it opened, or with
    [use_tls] the wrapper, next to the detached socket the wrapper
    replaced. *)
Theorem send_end_to_end {L : PyLib} (config : SMTPConfig) (mail : Email)
        (w : World) (doc : string)
        (greeting : list RxEvent) (gcode : Z) (gtext : string)
        (hblks : list (list RxEvent)) (hreplies : list (Z * string))
        (mail_blk : list RxEvent) (mail_text : string)
        (rblks : list (list RxEvent)) (rreplies : list (Z * string))
        (data_blk dot_blk quit_blk : list RxEvent)
        (data_text dot_text quit_text : string) (qcode : Z)
        (rest : list RxEvent) :
  connect_ok w = true ->
  (use_tls config = true -> tls_ok w = true) ->
  tx_budget w = None ->
  SMTPClient._build_message config mail = Returned doc ->
  reply_block greeting gcode gtext ->
  reply_blocks hblks hreplies ->
  List.length hreplies = List.length (handshake_cmds config) ->
  reply_block mail_blk 250 mail_text ->
  reply_blocks rblks rreplies ->
  List.length rreplies = List.length (recipients_of mail) ->
  forallb (fun r => accepted (fst r)) rreplies = true ->
  reply_block data_blk 354 data_text ->
  reply_block dot_blk 250 dot_text ->
  reply_block quit_blk qcode quit_text ->
  rx w = greeting ++ List.concat hblks
           ++ (mail_blk ++ List.concat rblks ++ data_blk ++ dot_blk
                 ++ quit_blk ++ rest) ->
  fst (send config mail w) = Returned true
  /\ tx (world (snd (send config mail w)))
     = tx w ++ handshake_cmds config ++ message_cmds config mail doc
         ++ [QUIT_CMD]
  /\ rx (world (snd (send config mail w))) = rest
  /\ socks (world (snd (send config mail w)))
     = socks w ++ (if use_tls config then [gone 0; owning 1] else [owning 1]).
Proof.
  intros Hc Ht Hb Hdoc Hg Hh Hhl Hm Hr Hrl Hacc Hd Hdot Hq Hrx.
  unfold send, with_, SMTPClient.__enter__, SMTPClient.__exit__.
  rewrite (handshake_script config w greeting gcode gtext hblks hreplies _
             Hc Ht Hb Hg Hh Hhl Hrx).
  assert (Rdy : ready (connected_state config w (handshake_cmds config)
                         (mail_blk ++ List.concat rblks ++ data_blk ++ dot_blk
                            ++ quit_blk ++ rest))).
  { apply advance_ready.
    destruct (use_tls config); [apply upgraded_ready | apply opened_ready];
      exact Hb. }
  rewrite (send_accepted_script config mail _ doc mail_blk mail_text rblks
             rreplies data_blk dot_blk data_text dot_text (quit_blk ++ rest)
             Rdy Hdoc Hm Hr Hrl Hacc Hd Hdot eq_refl).
  erewrite (close_script _ (if use_tls config then S (List.length (socks w))
                            else List.length (socks w)));
    [ | now apply advance_ready
      | unfold connected_state; now destruct (use_tls config)
      | exact Hq | reflexivity ].
  cbn [fst snd]. split; [reflexivity|].
  unfold connected_state. rewrite !advance_advance.
  pose proof (bump_held config w) as Hbump. unfold closed_sockets in Hbump.
  destruct (use_tls config);
    cbn [advance with_world set_socks opened upgraded world self tx rx socks];
    rewrite <- ?app_assoc; (split; [reflexivity|]); (split; [reflexivity|]);
    exact Hbump.
Qed.

Lemma send_end_to_end_witness :
  fst (send (L := example_lib) cfg0 mail_plain
         (server [line "220-Welcome"; line "220 Ready"; line "250 OK";
                  line "250 OK"; line "250 OK"; line "354 End with dot";
                  line "250 OK"; line "221 Bye"]))
  = Returned true
  /\ tx (world (snd (send (L := example_lib) cfg0 mail_plain
                      (server [line "220-Welcome"; line "220 Ready";
                               line "250 OK"; line "250 OK"; line "250 OK";
                               line "354 End with dot"; line "250 OK";
                               line "221 Bye"]))))
     = [] ++ [EHLO_CMD]
         ++ [mail_cmd cfg0 mail_plain; rcpt_cmd "a@b.com"; DATA_CMD;
             header_block
               (Mime.Msg (Mime.MIMEText "hello" "plain")
                  [("Subject", "Hi"); ("From", EmptyString); ("To", "a@b.com")]
                  (Mime.PText "hello"));
             DOT_CMD]
         ++ [QUIT_CMD]
  /\ rx (world (snd (send (L := example_lib) cfg0 mail_plain
                      (server [line "220-Welcome"; line "220 Ready";
                               line "250 OK"; line "250 OK"; line "250 OK";
                               line "354 End with dot"; line "250 OK";
                               line "221 Bye"]))))
     = []
  /\ socks (world (snd (send (L := example_lib) cfg0 mail_plain
                         (server [line "220-Welcome"; line "220 Ready";
                                  line "250 OK"; line "250 OK"; line "250 OK";
                                  line "354 End with dot"; line "250 OK";
                                  line "221 Bye"]))))
     = [] ++ [owning 1].
Proof.
  apply (send_end_to_end (L := example_lib) cfg0 mail_plain
           (server [line "220-Welcome"; line "220 Ready"; line "250 OK";
                    line "250 OK"; line "250 OK"; line "354 End with dot";
                    line "250 OK"; line "221 Bye"])
           (header_block
              (Mime.Msg (Mime.MIMEText "hello" "plain")
                 [("Subject", "Hi"); ("From", EmptyString); ("To", "a@b.com")]
                 (Mime.PText "hello")))
           [line "220-Welcome"; line "220 Ready"] 220%Z
           ("220-Welcome" ++ PyStr.NL ++ "220 Ready")%string
           [[line "250 OK"]] [(250%Z, "250 OK")]
           [line "250 OK"] "250 OK"
           [[line "250 OK"]] [(250%Z, "250 OK")]
           [line "354 End with dot"] [line "250 OK"] [line "221 Bye"]
           "354 End with dot" "250 OK" "221 Bye" 221%Z []).
  - reflexivity.
  - discriminate.
  - reflexivity.
  - reflexivity.
  - scripted [("220-Welcome" ++ PyStr.CRLF)%string]
             ("220 Ready" ++ PyStr.CRLF)%string 220%Z.
  - repeat constructor.
    scripted (@nil string) ("250 OK" ++ PyStr.CRLF)%string 250%Z.
  - reflexivity.
  - scripted (@nil string) ("250 OK" ++ PyStr.CRLF)%string 250%Z.
  - repeat constructor.
    scripted (@nil string) ("250 OK" ++ PyStr.CRLF)%string 250%Z.
  - reflexivity.
  - reflexivity.
  - scripted (@nil string) ("354 End with dot" ++ PyStr.CRLF)%string 354%Z.
  - scripted (@nil string) ("250 OK" ++ PyStr.CRLF)%string 250%Z.
  - scripted (@nil string) ("221 Bye" ++ PyStr.CRLF)%string 221%Z.
  - reflexivity.
Defined.

(** X22: Once [connect] has returned, the helper ends the way the [send] method
    ends, with its result or with its exception, after [close] has run: if
    the method and the QUIT exchange come to an end, the socket the client
    held has received exactly one [close()]: the one socket of the session,
    or with [use_tls] the wrapper, next to the detached socket the wrapper
    replaced. *)
Theorem helper_passes_on_send_result {L : PyLib} (config : SMTPConfig)
        (mail : Email) (w : World) (st1 st2 : St) (o : outcome bool) :
  SMTPClient.connect config (fresh w) = (Returned tt, st1) ->
  SMTPClient.send config mail st1 = (o, st2) ->
  o <> Diverges ->
  fst (SMTPClient._command "QUIT" st2) <> Diverges ->
  fst (send config mail w) = o
  /\ socks (world (snd (send config mail w)))
     = socks w ++ (if use_tls config then [gone 0; owning 1] else [owning 1]).
Proof.
  intros Hc Hs Ho Hq.
  destruct (connect_returned config w st1 Hc) as [Hh Hk].
  pose proof (carries_send (holds_socket _)
                (holds_socket_refl _) (holds_socket_trans _)
                (sendall_holds_socket _) (read_response_holds_socket _)
                config mail st1 Hh) as [Hh2 Hs2].
  rewrite Hs in Hh2, Hs2. cbn [snd] in Hh2, Hs2.
  destruct (close_cases st2) as [(Hd & _) | (_ & Hx & Hb)]; [congruence|].
  specialize (Hb _ Hh2).
  unfold send, with_, SMTPClient.__enter__, SMTPClient.__exit__.
  rewrite Hc, Hs.
  pose proof (bump_held config w) as Hbump. unfold closed_sockets in Hbump.
  destruct (SMTPClient.close st2) as [[u|e|] st3]; cbn in Hx, Hb;
    try discriminate.
  destruct o as [b|e|]; [| |congruence]; cbn [fst snd];
    (split; [reflexivity|]); now rewrite Hb, Hs2, Hk, Hbump.
Qed.

Lemma helper_passes_on_send_result_witness :
  fst (send (L := example_lib) cfg0 mail_plain
         (server [line "220 Ready"; line "250 OK"; line "550 no";
                  line "221 Bye"]))
  = Raised (SMTPError "MAIL FROM failed: 550 no")
  /\ socks (world (snd (send (L := example_lib) cfg0 mail_plain
                         (server [line "220 Ready"; line "250 OK";
                                  line "550 no"; line "221 Bye"]))))
     = [] ++ [owning 1].
Proof.
  apply (helper_passes_on_send_result (L := example_lib) cfg0 mail_plain
           (server [line "220 Ready"; line "250 OK"; line "550 no";
                    line "221 Bye"])
           (snd (SMTPClient.connect (L := example_lib) cfg0
                   (fresh (server [line "220 Ready"; line "250 OK";
                                   line "550 no"; line "221 Bye"]))))
           (snd (SMTPClient.send (L := example_lib) cfg0 mail_plain
                   (snd (SMTPClient.connect (L := example_lib) cfg0
                           (fresh (server [line "220 Ready"; line "250 OK";
                                           line "550 no"; line "221 Bye"]))))))
           (Raised (SMTPError "MAIL FROM failed: 550 no"))).
  - reflexivity.
  - reflexivity.
  - discriminate.
  - discriminate.
Defined.

(** Two failures inside [connect] with [use_tls]: a response to STARTTLS that
    [int] rejects, where the socket stays open in the hands of the client,
    and a TLS handshake that fails, where the library closes the wrapper. *)
Lemma enter_failure_skips_exit_witness :
  (send (L := example_lib) cfg_auth mail_plain
     (server [line "220 Ready"; line "250 OK"; line "err no tls"])
   = (Raised ValueError,
      {| self := {| _socket := Some 0; _file := Some 0 |};
         world := {| rx := []; tx := [EHLO_CMD; STARTTLS_CMD];
                     tx_budget := None; connect_ok := true; tls_ok := true;
                     socks := [owning 0] |} |}))
  /\ (fst (send (L := example_lib) cfg_auth mail_plain
             {| rx := [line "220 Ready"; line "250 OK"; line "220 go ahead"];
                tx := []; tx_budget := None; connect_ok := true;
                tls_ok := false; socks := [] |})
      = Raised OSError
      /\ socks (world (snd (send (L := example_lib) cfg_auth mail_plain
                              {| rx := [line "220 Ready"; line "250 OK";
                                        line "220 go ahead"];
                                 tx := []; tx_budget := None;
                                 connect_ok := true; tls_ok := false;
                                 socks := [] |})))
         = [gone 0; owning 1]).
Proof.
  split.
  - exact (proj1 (enter_failure_skips_exit (L := example_lib) cfg_auth
                    mail_plain
                    (server [line "220 Ready"; line "250 OK";
                             line "err no tls"])
                    ValueError eq_refl)).
  - pose proof (proj1 (enter_failure_skips_exit (L := example_lib) cfg_auth
                         mail_plain
                         {| rx := [line "220 Ready"; line "250 OK";
                                   line "220 go ahead"];
                            tx := []; tx_budget := None; connect_ok := true;
                            tls_ok := false; socks := [] |}
                         OSError eq_refl)) as E.
    rewrite E. split; reflexivity.
Defined.
